(** * Staged transfer-and-reconciliation pipeline (Supabase -> S3 -> OpenSearch)

    A shallow embedding of the pipeline's scripts:
    - [01_download.js]: [uploadToS3], [downloadToS3];
    - [02_sync.js]: [ensureIndex], [dynamicMicroBatch], [syncFile], [syncAll];
    - [03_test.js]: [testSync] and its count comparison;
    - [04_mark_synced.js]: [markAsSynced];
    - [05_clean_s3.js]: [cleanS3];
    - [06_orchestrate.js] and its older variant: [orchestrate].

    The external collaborators (object store, search index, relational
    store, clock) are handlers over an abstract world; a call either
    resolves, rejects (the awaited promise throws) or never settles. *)

From Stdlib Require Import ZArith NArith QArith List String Ascii Bool Arith Lia.
From Stdlib Require Import DecimalString Permutation.
Import ListNotations.

Set Warnings "-register-all".

Open Scope string_scope.
Open Scope list_scope.
Open Scope nat_scope.

(* ===================================================================== *)
(** ** Effects: results of awaited calls, and the monad of the scripts   *)
(* ===================================================================== *)

(** What running a piece of script can do: return a value, throw an error
    carrying [error.message], or never return (an awaited call that never
    settles, or a loop that does not end). *)
Inductive outcome (A : Type) : Type :=
| Ok (a : A)
| Throw (message : string)
| Diverge.

Arguments Ok {A} a.
Arguments Throw {A} message.
Arguments Diverge {A}.

Module Eff.
Section Monad.
(** [W] is the state of the outside world; [E] the type of the events
    recorded in the ghost trace (requests sent, in chronological order). *)
Context {W E : Type}.

Definition state : Type := W * list E.
Definition M (A : Type) : Type := state -> outcome A * state.

Definition ret {A} (a : A) : M A := fun st => (Ok a, st).
Definition throw {A} (message : string) : M A := fun st => (Throw message, st).
Definition diverge {A} : M A := fun st => (Diverge, st).

Definition bind {A B} (m : M A) (k : A -> M B) : M B :=
  fun st =>
    match m st with
    | (Ok a, st') => k a st'
    | (Throw message, st') => (Throw message, st')
    | (Diverge, st') => (Diverge, st')
    end.

(** [try { m } catch (error) { handler error.message }] *)
Definition try_catch {A} (m : M A) (handler : string -> M A) : M A :=
  fun st =>
    match m st with
    | (Ok a, st') => (Ok a, st')
    | (Throw message, st') => handler message st'
    | (Diverge, st') => (Diverge, st')
    end.

(** An awaited call to a collaborator: the request is appended to the
    trace, the handler answers and moves the world. *)
Definition perform {A} (e : E) (h : W -> outcome A * W) : M A :=
  fun st =>
    let (r, w') := h (fst st) in (r, (w', snd st ++ [e])).

(** An awaited call whose answer is recorded with the request. *)
Definition observe {A} (e : outcome A -> E) (h : W -> outcome A * W) : M A :=
  fun st =>
    let (r, w') := h (fst st) in (r, (w', snd st ++ [e r])).

(** A call that cannot fail (reading the clock). *)
Definition read {A} (h : W -> A * W) : M A :=
  fun st => let (a, w') := h (fst st) in (Ok a, (w', snd st)).

(** Recording a ghost event without touching the world. *)
Definition note (e : E) : M unit :=
  fun st => (Ok tt, (fst st, snd st ++ [e])).
End Monad.
End Eff.

Import Eff.

Declare Scope eff_scope.
Delimit Scope eff_scope with eff.
Notation "x <- m ;; k" := (bind m (fun x => k))
  (at level 61, m at next level, right associativity) : eff_scope.
Notation "m ;;; k" := (bind m (fun _ => k))
  (at level 61, right associativity) : eff_scope.
Open Scope eff_scope.

(* ===================================================================== *)
(** ** JSON values and [JSON.stringify]                                  *)
(* ===================================================================== *)

Module Json.
#[local] Open Scope string_scope.

(** Strings are sequences of UTF-8 bytes, so that [String.length] is
    [Buffer.byteLength(s, 'utf8')].  Numbers are the integers (record
    identifiers and counts). *)
Inductive json : Type :=
| JNull
| JBool (b : bool)
| JNum (n : Z)
| JStr (s : string)
| JArr (elements : list json)
| JObj (members : list (string * json)).

Definition dquote : ascii := "034"%char.
Definition backslash : ascii := "092"%char.

(** [Number.prototype.toString] and [JSON.stringify] on an integer. *)
Definition numberToString (n : Z) : string :=
  NilZero.string_of_int (Z.to_int n).

Definition hexDigit (n : N) : ascii :=
  ascii_of_N (if (n <? 10)%N then 48 + n else 87 + n)%N.

(** The escape of one byte inside a JSON string literal. *)
Definition escapeChar (c : ascii) : string :=
  let n := N_of_ascii c in
  if (n =? 34)%N then String backslash (String dquote EmptyString)
  else if (n =? 92)%N then String backslash (String backslash EmptyString)
  else if (n =? 8)%N then String backslash "b"
  else if (n =? 12)%N then String backslash "f"
  else if (n =? 10)%N then String backslash "n"
  else if (n =? 13)%N then String backslash "r"
  else if (n =? 9)%N then String backslash "t"
  else if (n <? 32)%N then
    String backslash
      (String "u" (String "0" (String "0"
        (String (hexDigit (n / 16)) (String (hexDigit (n mod 16)) EmptyString)))))
  else String c EmptyString.

Fixpoint escape (s : string) : string :=
  match s with
  | EmptyString => EmptyString
  | String c s' => escapeChar c ++ escape s'
  end.

Definition quote (s : string) : string :=
  String dquote (escape s ++ String dquote EmptyString).

(** [parts.join(',')] *)
Fixpoint joinComma (parts : list string) : string :=
  match parts with
  | [] => EmptyString
  | p :: rest =>
      match rest with
      | [] => p
      | _ :: _ => p ++ "," ++ joinComma rest
      end
  end.

Fixpoint stringify (j : json) : string :=
  match j with
  | JNull => "null"
  | JBool b => if b then "true" else "false"
  | JNum n => numberToString n
  | JStr s => quote s
  | JArr elements => "[" ++ joinComma (map stringify elements) ++ "]"
  | JObj members =>
      "{" ++ joinComma (map (fun kv => quote (fst kv) ++ ":" ++ stringify (snd kv)) members) ++ "}"
  end.

(** [Buffer.byteLength(s, 'utf8')] *)
Definition byteLength (s : string) : nat := String.length s.

End Json.

Import Json.

(* ===================================================================== *)
(** ** Data exchanged with the collaborators                             *)
(* ===================================================================== *)

(** A staged record: the columns selected by the staging writer.  Only the
    identifier is interpreted; the payload columns are JSON values. *)
Record record : Type := {
  id : Z;
  keyword : json;
  ad_id : json;
  ad_name : json;
  ad_caption : json;
  ad_risk_reason : json;
  collected_at : json
}.

(** One entry of [ListObjectsV2Output.Contents]; [LastModified] as a time
    in milliseconds. *)
Record S3Object : Type := { Key : string; LastModified : Z }.

Record ListObjectsV2Output : Type := {
  Contents : option (list S3Object);
  IsTruncated : bool;
  NextContinuationToken : option string
}.

(** The body of a bulk response: [items[k].index.status] and so on. *)
Record action : Type := { status : Z }.
Record item : Type := {
  index : option action;
  create : option action;
  update : option action
}.
Record bulkResponse : Type := { errors : bool; items : option (list item) }.

(** The checkpoint log written by [syncAll] and read by [markAsSynced]
    ([syncedIds] may be absent). *)
Record syncLog : Type := {
  log_timestamp : string;
  log_syncedIds : option (list Z)
}.

(** A JavaScript number as the scripts compute with record counts: an
    integer, or [NaN].  [NaN] is what arithmetic makes of a property that
    is absent ([undefined]) or holds a text that is not a number. *)
Inductive number : Type :=
| Int (n : Z)
| NaN.

Module Number.

(** [a - b] *)
Definition minus (a b : number) : number :=
  match a, b with
  | Int x, Int y => Int (x - y)
  | _, _ => NaN
  end.

(** [a === b]; [NaN] equals nothing. *)
Definition strictEquals (a b : number) : bool :=
  match a, b with
  | Int x, Int y => (x =? y)%Z
  | _, _ => false
  end.

(** [a > b]; every comparison with [NaN] is false. *)
Definition greaterThan (a b : number) : bool :=
  match a, b with
  | Int x, Int y => (y <? x)%Z
  | _, _ => false
  end.

(** [Math.abs(a)] *)
Definition abs (a : number) : number :=
  match a with
  | Int x => Int (Z.abs x)
  | NaN => NaN
  end.

End Number.

(** The manifest, as far as [testSync] reads it: [totalRecords] as its
    arithmetic sees the property.  The staging writer stores an integer;
    a manifest from elsewhere may hold none. *)
Record downloadSummary : Type := { manifest_totalRecords : number }.

(** The requests the scripts send, recorded in the ghost trace. *)
Inductive event : Type :=
| S3List (Prefix : option string) (ContinuationToken : option string)
| S3Get (key : string)
| S3Delete (key : string)
| S3Put (key : string) (Body : json)
| OsIndicesExists
| OsIndicesCreate
| OsBulk (body : json)
| OsCount
| OsSearchSample
| OsSearchDuplicates
| Sleep (ms : Z)
| DbUpdate (ids : list Z).

(** The collaborators.  A staged blob is returned as its lines after
    [trim().split('\n')], each as [JSON.parse] reads it ([None]: the line
    makes [JSON.parse] throw); a checkpoint log and a manifest as
    [JSON.parse] reads them ([None]: the body makes [JSON.parse] throw,
    or parses to [null], whose properties cannot be read).  [os_search_duplicates] returns the
    [doc_count] of each bucket of the terms aggregation; [db_update]
    returns the [error] property of the update's answer. *)
Class Collaborators (W : Type) : Type := {
  s3_list : option string -> option string -> W -> outcome ListObjectsV2Output * W;
  s3_get_jsonl : string -> W -> outcome (list (option record)) * W;
  s3_get_sync_log : string -> W -> outcome (option syncLog) * W;
  s3_get_summary : string -> W -> outcome (option downloadSummary) * W;
  s3_delete : string -> W -> outcome unit * W;
  s3_put : string -> json -> W -> outcome unit * W;
  os_indices_exists : W -> outcome bool * W;
  os_indices_create : W -> outcome unit * W;
  os_bulk : json -> W -> outcome bulkResponse * W;
  os_count : W -> outcome Z * W;
  os_search_sample : W -> outcome unit * W;
  os_search_duplicates : W -> outcome (list Z) * W;
  db_update : list Z -> W -> outcome (option string) * W;
  toISOString : W -> string * W;
  localeCompare : string -> string -> comparison
}.

(** Truthiness of an optional string ([undefined] and [''] are falsy). *)
Definition truthy (s : option string) : bool :=
  match s with
  | Some (String _ _) => true
  | _ => false
  end.

(** [a || b] on optional objects. *)
Definition orElse {A} (a b : option A) : option A :=
  match a with Some _ => a | None => b end.

(** [array.slice(i, j)] for [0 <= i <= j]. *)
Definition slice {A} (l : list A) (i j : nat) : list A := firstn (j - i) (skipn i l).

(** [set.add(x)] on a [Set] kept in insertion order. *)
Definition setAdd (x : Z) (s : list Z) : list Z :=
  if existsb (Z.eqb x) s then s else s ++ [x].

(** [timestamp.replace(/[:.]/g, '-')] *)
Fixpoint dashed (s : string) : string :=
  match s with
  | EmptyString => EmptyString
  | String c s' =>
      String (if (Ascii.eqb c ":" || Ascii.eqb c ".")%bool then "-"%char else c) (dashed s')
  end.

(** [haystack.includes(needle)] *)
Fixpoint includes (haystack needle : string) : bool :=
  (prefix needle haystack
   || match haystack with
      | EmptyString => false
      | String _ rest => includes rest needle
      end)%bool.

(** Stable insertion sort, for [array.sort(compare)]. *)
Section Sort.
Context {A : Type} (compare : A -> A -> comparison).

Fixpoint insertSorted (x : A) (l : list A) : list A :=
  match l with
  | [] => [x]
  | y :: l' =>
      match compare x y with
      | Gt => y :: insertSorted x l'
      | _ => x :: l
      end
  end.

Definition sort (l : list A) : list A := fold_right insertSorted [] l.
End Sort.

(* ===================================================================== *)
(** ** 02_sync.js: the adaptive bulk indexer                             *)
(* ===================================================================== *)

Module FileResult.
(** What [syncFile] returns. *)
Record t : Type := {
  success : bool;
  error : option string;
  syncedRecords : nat;
  syncedIds : list Z
}.
End FileResult.

Module SyncResult.
(** What [syncAll] returns; absent properties are [None]. *)
Record t : Type := {
  success : bool;
  error : option string;
  syncedFiles : nat;
  totalFiles : option nat;
  totalRecords : nat;
  syncedIdsCount : option nat
}.
End SyncResult.

Module Sync.

Definition INDEX_NAME : string := "pageseeker_response_opensearch".
Definition INITIAL_BATCH_SIZE : nat := 25.
Definition MAX_PAYLOAD_MB : Q := 2.

(** [JSON.stringify(record)] goes through the record as an object whose
    keys are in the order the staging writer selected them. *)
Definition recordToJson (r : record) : json :=
  JObj [("id", JNum (id r)); ("keyword", keyword r); ("ad_id", ad_id r);
        ("ad_name", ad_name r); ("ad_caption", ad_caption r);
        ("ad_risk_reason", ad_risk_reason r); ("collected_at", collected_at r)].

(** [batch.flatMap(record => [{ index: { _index, _id } }, record])] *)
Definition bulkBody (batch : list record) : json :=
  JArr (flat_map
          (fun r =>
             [JObj [("index", JObj [("_index", JStr INDEX_NAME);
                                    ("_id", JStr (numberToString (id r)))])];
              recordToJson r])
          batch).

(** [Buffer.byteLength(JSON.stringify(body), 'utf8')] *)
Definition payloadSize (body : json) : nat := byteLength (stringify body).

Definition payloadSizeMB (payloadSize : nat) : Q :=
  inject_Z (Z.of_nat payloadSize) / inject_Z (1024 * 1024).

(** [payloadSizeMB <= MAX_PAYLOAD_MB] for the first [testSize] records. *)
Definition underCeiling (records : list record) (testSize : nat) : bool :=
  let testBatch := slice records 0 testSize in
  let testBody := bulkBody testBatch in
  Qle_bool (payloadSizeMB (payloadSize testBody)) MAX_PAYLOAD_MB.

(** The probing loop [for (testSize = 1; testSize <= maxTestSize; testSize++)],
    by recursion on the number of iterations left,
    [maxTestSize + 1 - testSize]. *)
Fixpoint probe (records : list record) (left testSize finalBatchSize : nat) : nat :=
  match left with
  | O => finalBatchSize
  | S left' =>
      if underCeiling records testSize
      then probe records left' (S testSize) testSize
      else finalBatchSize
  end.

Definition findBatchSize (records : list record) : nat :=
  let finalBatchSize := 1 in
  let maxTestSize := Nat.min INITIAL_BATCH_SIZE (List.length records) in
  probe records maxTestSize 1 finalBatchSize.

Definition isSuccessItem (it : item) : bool :=
  match orElse (index it) (orElse (create it) (update it)) with
  | Some a => ((200 <=? status a) && (status a <? 300))%Z
  | None => false
  end.

(** [(response.body.items || []).filter(...)] *)
Definition successItems (body : bulkResponse) : list item :=
  filter isSuccessItem (match items body with Some l => l | None => [] end).

Section WithWorld.
Context {W : Type} `{Collaborators W}.

Definition ensureIndex : M (W := W) (E := event) unit :=
  try_catch
    (exists_ <- perform OsIndicesExists os_indices_exists ;;
     if negb exists_ then perform OsIndicesCreate os_indices_create
     else ret tt)
    (fun _ => ret tt).

(** One turn of the indexing loop on the window [batch]: the bulk
    request, and on a throw the single retry after the pause. *)
Definition bulkWindow (batch : list record) (syncedCount : nat) : M (W := W) nat :=
  let bulkBody := bulkBody batch in
  try_catch
    (response <- perform (OsBulk bulkBody) (os_bulk bulkBody) ;;
     if errors response
     then ret (syncedCount + List.length (successItems response))
     else ret (syncedCount + List.length batch))
    (fun _ =>
       try_catch
         (note (Sleep 2000) ;;;
          retryResponse <- perform (OsBulk bulkBody) (os_bulk bulkBody) ;;
          if negb (errors retryResponse)
          then ret (syncedCount + List.length batch)
          else ret (syncedCount + List.length (successItems retryResponse)))
         (fun _ => ret syncedCount)).

(** [for (let i = 0; i < records.length; i += finalBatchSize)]; the
    fuel bounds the number of turns. *)
Fixpoint processBatches (fuel : nat) (records : list record)
         (finalBatchSize i syncedCount : nat) : M (W := W) nat :=
  if i <? List.length records then
    match fuel with
    | O => diverge
    | S fuel' =>
        let batch := slice records i (i + finalBatchSize) in
        syncedCount' <- bulkWindow batch syncedCount ;;
        processBatches fuel' records finalBatchSize (i + finalBatchSize) syncedCount'
    end
  else ret syncedCount.

Definition dynamicMicroBatch (records : list record) : M (W := W) nat :=
  let finalBatchSize := findBatchSize records in
  processBatches (List.length records) records finalBatchSize 0 0.

(** [lines.map(line => JSON.parse(line))]: throws at the first line
    that does not parse.  An empty text has the single line [''],
    which does not parse. *)
Fixpoint parseLines (lines : list (option record)) : option (list record) :=
  match lines with
  | [] => Some []
  | None :: _ => None
  | Some r :: rest =>
      match parseLines rest with
      | Some rs => Some (r :: rs)
      | None => None
      end
  end.

Definition parseJsonl (lines : list (option record)) : M (W := W) (E := event) (list record) :=
  match lines with
  | [] => throw "Unexpected end of JSON input"
  | _ :: _ =>
      match parseLines lines with
      | Some records => ret records
      | None => throw "Unexpected token in JSON"
      end
  end.

Definition syncFile (filename : string) : M (W := W) FileResult.t :=
  try_catch
    (lines <- perform (S3Get filename) (s3_get_jsonl filename) ;;
     records <- parseJsonl lines ;;
     ensureIndex ;;;
     syncedCount <- dynamicMicroBatch records ;;
     let syncedIds := map id records in
     (if List.length records <=? syncedCount
      then perform (S3Delete filename) (s3_delete filename)
      else ret tt) ;;;
     ret {| FileResult.success := true;
            FileResult.error := None;
            FileResult.syncedRecords := syncedCount;
            FileResult.syncedIds := syncedIds |})
    (fun message =>
       ret {| FileResult.success := false;
              FileResult.error := Some message;
              FileResult.syncedRecords := 0;
              FileResult.syncedIds := [] |}).

(** The paginated listing [do { ... } while (continuationToken)]; the
    fuel bounds the number of pages. *)
Fixpoint listAll (fuel : nat) (Prefix : option string) (files : list S3Object)
         (continuationToken : option string) : M (W := W) (list S3Object) :=
  match fuel with
  | O => diverge
  | S fuel' =>
      response <- perform (S3List Prefix continuationToken)
                          (s3_list Prefix continuationToken) ;;
      let files := match Contents response with
                   | Some contents => files ++ contents
                   | None => files
                   end in
      let continuationToken :=
        if IsTruncated response then NextContinuationToken response else None in
      if truthy continuationToken
      then listAll fuel' Prefix files continuationToken
      else ret files
  end.

(** The loop over the sorted files, carrying
    [(totalSynced, successCount, allSyncedIds)]. *)
Fixpoint syncFiles (files : list S3Object) (totalSynced successCount : nat)
         (allSyncedIds : list Z) : M (W := W) (nat * nat * list Z) :=
  match files with
  | [] => ret (totalSynced, successCount, allSyncedIds)
  | file :: rest =>
      result <- syncFile (Key file) ;;
      if FileResult.success result
      then syncFiles rest
             (totalSynced + FileResult.syncedRecords result)
             (S successCount)
             (fold_left (fun s x => setAdd x s) (FileResult.syncedIds result) allSyncedIds)
      else syncFiles rest totalSynced successCount allSyncedIds
  end.

Definition syncLogContent (timestamp : string) (workflowId : option string)
           (allSyncedIds : list Z) : json :=
  JObj [("timestamp", JStr timestamp);
        ("workflowId", if truthy workflowId
                       then match workflowId with Some w => JStr w | None => JNull end
                       else JNull);
        ("totalIds", JNum (Z.of_nat (List.length allSyncedIds)));
        ("syncedIds", JArr (map JNum allSyncedIds))].

Definition syncAll (fuel : nat) (workflowId : option string) : M (W := W) SyncResult.t :=
  try_catch
    (files <- listAll fuel (Some "unsynced_") [] None ;;
     if List.length files =? 0 then
       ret {| SyncResult.success := true;
              SyncResult.error := None;
              SyncResult.syncedFiles := 0;
              SyncResult.totalFiles := None;
              SyncResult.totalRecords := 0;
              SyncResult.syncedIdsCount := None |}
     else
       let files := sort (fun a b => localeCompare (Key a) (Key b)) files in
       totals <- syncFiles files 0 0 [] ;;
       let '(totalSynced, successCount, allSyncedIds) := totals in
       (if 0 <? List.length allSyncedIds then
          timestamp <- read toISOString ;;
          let wfPrefix := if truthy workflowId
                          then match workflowId with Some w => (w ++ "_")%string | None => "" end
                          else "" in
          let syncLogPath :=
            ("log/sync_log_ids_" ++ wfPrefix ++ dashed timestamp ++ ".json")%string in
          now <- read toISOString ;;
          let content := syncLogContent now workflowId allSyncedIds in
          perform (S3Put syncLogPath content) (s3_put syncLogPath content)
        else ret tt) ;;;
       ret {| SyncResult.success := true;
              SyncResult.error := None;
              SyncResult.syncedFiles := successCount;
              SyncResult.totalFiles := Some (List.length files);
              SyncResult.totalRecords := totalSynced;
              SyncResult.syncedIdsCount := Some (List.length allSyncedIds) |})
    (fun message =>
       ret {| SyncResult.success := false;
              SyncResult.error := Some message;
              SyncResult.syncedFiles := 0;
              SyncResult.totalFiles := Some 0;
              SyncResult.totalRecords := 0;
              SyncResult.syncedIdsCount := None |}).
End WithWorld.
End Sync.

(* ===================================================================== *)
(** ** 03_test.js: the reconciler                                        *)
(* ===================================================================== *)

Module TestResult.
(** What [testSync] returns; absent properties are [None]. *)
Record t : Type := {
  success : bool;
  totalRecords : option Z;
  missing : option number;
  extra : option number;
  duplicates : option nat;
  error : option string;
  criticalMissing : option number
}.

Definition make (success : bool) (totalRecords : option Z) (missing extra : option number)
  : t :=
  {| success := success; totalRecords := totalRecords; missing := missing;
     extra := extra; duplicates := None; error := None; criticalMissing := None |}.
End TestResult.

Module Test.

(** The comparison of [summary.totalRecords] with [osCount.body.count]
    that ends [testSync]. *)
Definition countComparison (totalRecords : number) (count : Z) : TestResult.t :=
  let missing := Number.minus totalRecords (Int count) in
  if Number.strictEquals missing (Int 0) then
    TestResult.make true (Some count) (Some (Int 0)) None
  else if Number.greaterThan missing (Int 0) then
    TestResult.make false (Some count) (Some missing) None
  else
    if Number.strictEquals totalRecords (Int 0) then
      TestResult.make true (Some count) (Some (Int 0)) None
    else if Number.greaterThan (Int count) totalRecords then
      TestResult.make true (Some count) (Some (Int 0)) None
    else
      TestResult.make false (Some count) None (Some (Number.abs missing)).

Section WithWorld.
Context {W : Type} `{Collaborators W}.

Definition testSync : M (W := W) (E := event) TestResult.t :=
  try_catch
    (count <- perform OsCount os_count ;;
     perform OsSearchSample os_search_sample ;;;
     buckets <- perform OsSearchDuplicates os_search_duplicates ;;
     let duplicates := filter (fun doc_count => (1 <? doc_count)%Z) buckets in
     if 0 <? List.length duplicates then
       ret {| TestResult.success := false; TestResult.totalRecords := None;
              TestResult.missing := None; TestResult.extra := None;
              TestResult.duplicates := Some (List.length duplicates);
              TestResult.error := None; TestResult.criticalMissing := None |}
     else
       try_catch
         (listResponse <- perform (S3List (Some "log/download_summary_") None)
                                  (s3_list (Some "log/download_summary_") None) ;;
          let summaryFiles := match Contents listResponse with
                              | Some contents => contents
                              | None => []
                              end in
          if List.length summaryFiles =? 0 then
            ret (TestResult.make true (Some count) None None)
          else
            match sort (fun a b => Z.compare (LastModified b) (LastModified a))
                       summaryFiles with
            | [] => throw "Cannot read properties of undefined (reading 'Key')"
            | latestSummary :: _ =>
                parsed <- perform (S3Get (Key latestSummary))
                                  (s3_get_summary (Key latestSummary)) ;;
                match parsed with
                | None => throw "Unexpected token in JSON"
                | Some summary =>
                    ret (countComparison (manifest_totalRecords summary) count)
                end
            end)
         (fun _ => ret (TestResult.make true (Some count) None None)))
    (fun message =>
       ret {| TestResult.success := false; TestResult.totalRecords := None;
              TestResult.missing := None; TestResult.extra := None;
              TestResult.duplicates := None;
              TestResult.error := Some message; TestResult.criticalMissing := None |}).
End WithWorld.
End Test.

(* ===================================================================== *)
(** ** 04_mark_synced.js: the commit marker                              *)
(* ===================================================================== *)

Module MarkResult.
Record t : Type := {
  success : bool;
  error : option string;
  totalUpdated : option nat;
  totalIds : option nat;
  logFiles : option (list string);
  message : option string
}.
End MarkResult.

Module Mark.
Section WithWorld.
Context {W : Type} `{Collaborators W}.

(** The loop reading every checkpoint log into [allIdsSet]. *)
Fixpoint readLogs (logFiles : list S3Object) (allIdsSet : list Z)
  : M (W := W) (E := event) (list Z) :=
  match logFiles with
  | [] => ret allIdsSet
  | logFile :: rest =>
      parsed <- perform (S3Get (Key logFile)) (s3_get_sync_log (Key logFile)) ;;
      match parsed with
      | None => throw "Unexpected token in JSON"
      | Some syncLog =>
          let ids := match log_syncedIds syncLog with Some l => l | None => [] end in
          readLogs rest (fold_left (fun s x => setAdd x s) ids allIdsSet)
      end
  end.

(** [for (let i = 0; i < syncedIds.length; i += batchSize)]; the fuel
    bounds the number of turns. *)
Fixpoint updateBatches (fuel : nat) (syncedIds : list Z) (batchSize i totalUpdated : nat)
  : M (W := W) (E := event) nat :=
  if i <? List.length syncedIds then
    match fuel with
    | O => diverge
    | S fuel' =>
        let batch := slice syncedIds i (i + batchSize) in
        error <- perform (DbUpdate batch) (db_update batch) ;;
        match error with
        | Some _ => updateBatches fuel' syncedIds batchSize (i + batchSize) totalUpdated
        | None =>
            updateBatches fuel' syncedIds batchSize (i + batchSize)
                          (totalUpdated + List.length batch)
        end
    end
  else ret totalUpdated.

Definition markAsSynced (workflowId : option string) : M (W := W) MarkResult.t :=
  try_catch
    (let prefix := if truthy workflowId
                   then match workflowId with
                        | Some w => ("log/sync_log_ids_" ++ w ++ "_")%string
                        | None => "log/sync_log_ids_"
                        end
                   else "log/sync_log_ids_" in
     response <- perform (S3List (Some prefix) None) (s3_list (Some prefix) None) ;;
     let logFiles := match Contents response with Some c => c | None => [] end in
     if List.length logFiles =? 0 then
       ret {| MarkResult.success := false;
              MarkResult.error := Some "No sync log files found";
              MarkResult.totalUpdated := None; MarkResult.totalIds := None;
              MarkResult.logFiles := None; MarkResult.message := None |}
     else
       let logFiles := sort (fun a b => Z.compare (LastModified a) (LastModified b))
                            logFiles in
       syncedIds <- readLogs logFiles [] ;;
       let batchSize := 1000 in
       totalUpdated <- updateBatches (List.length syncedIds) syncedIds batchSize 0 0 ;;
       ret {| MarkResult.success := true; MarkResult.error := None;
              MarkResult.totalUpdated := Some totalUpdated;
              MarkResult.totalIds := Some (List.length syncedIds);
              MarkResult.logFiles := Some (map Key logFiles);
              MarkResult.message := None |})
    (fun message =>
       ret {| MarkResult.success := false; MarkResult.error := Some message;
              MarkResult.totalUpdated := Some 0; MarkResult.totalIds := None;
              MarkResult.logFiles := None; MarkResult.message := None |}).
End WithWorld.
End Mark.

(* ===================================================================== *)
(** ** 05_clean_s3.js: the janitor                                       *)
(* ===================================================================== *)

Module CleanResult.
Record t : Type := {
  success : bool;
  error : option string;
  totalFiles : option nat;
  filesDeleted : option nat;
  filesKept : option nat
}.
End CleanResult.

Module Clean.
Section WithWorld.
Context {W : Type} `{Collaborators W}.

Definition kept (file : S3Object) : bool :=
  (includes (Key file) "summary" || includes (Key file) "log/")%bool.

Definition discarded (file : S3Object) : bool :=
  (negb (includes (Key file) "summary") && negb (includes (Key file) "log/"))%bool.

(** [for (const file of filesToDelete)]: one awaited delete per file. *)
Fixpoint deleteFiles (filesToDelete : list S3Object) (deletedCount : nat)
  : M (W := W) (E := event) nat :=
  match filesToDelete with
  | [] => ret deletedCount
  | file :: rest =>
      perform (S3Delete (Key file)) (s3_delete (Key file)) ;;;
      deleteFiles rest (S deletedCount)
  end.

Definition cleanupLog (cleanedAt : string) (files filesToKeep : list S3Object)
           (deletedCount : nat) : json :=
  JObj [("cleanedAt", JStr cleanedAt);
        ("totalFiles", JNum (Z.of_nat (List.length files)));
        ("filesDeleted", JNum (Z.of_nat deletedCount));
        ("filesKept", JNum (Z.of_nat (List.length filesToKeep)));
        ("keptFiles", JArr (map (fun f => JStr (Key f)) filesToKeep));
        ("version", JStr "SYNC_SYSTEM_V1")].

Definition cleanS3 (fuel : nat) : M (W := W) CleanResult.t :=
  try_catch
    (files <- Sync.listAll fuel None [] None ;;
     let filesToKeep := filter kept files in
     let filesToDelete := filter discarded files in
     deletedCount <- deleteFiles filesToDelete 0 ;;
     cleanedAt <- read toISOString ;;
     let body := cleanupLog cleanedAt files filesToKeep deletedCount in
     stamp <- read toISOString ;;
     let key := ("log/cleanup_log_" ++ dashed stamp ++ ".json")%string in
     perform (S3Put key body) (s3_put key body) ;;;
     ret {| CleanResult.success := true; CleanResult.error := None;
            CleanResult.totalFiles := Some (List.length files);
            CleanResult.filesDeleted := Some deletedCount;
            CleanResult.filesKept := Some (List.length filesToKeep) |})
    (fun message =>
       ret {| CleanResult.success := false; CleanResult.error := Some message;
              CleanResult.totalFiles := None; CleanResult.filesDeleted := None;
              CleanResult.filesKept := None |}).
End WithWorld.
End Clean.

(* ===================================================================== *)
(** ** 06_orchestrate.js: the orchestrator                               *)
(* ===================================================================== *)

Module DownloadResult.
(** What [downloadToS3] returns. *)
Record t : Type := {
  success : bool;
  totalRecords : Z;
  fileCount : nat;
  files : list string
}.
End DownloadResult.

Module Summary.
(** The run summary handed to [saveTimestampLog].  A property whose
    value is [undefined] is [None]: [JSON.stringify] leaves it out of
    the artifact. *)
Record t : Type := {
  workflowId : option string;
  timestamp : option string;
  startTime : option Z;
  endTime : option Z;
  duration : option Z;
  download : DownloadResult.t;
  sync : SyncResult.t;
  test : TestResult.t;
  mark : option MarkResult.t;
  clean : CleanResult.t;
  success : bool
}.
End Summary.

Module Result.
(** What [orchestrate] returns. *)
Record t : Type := {
  success : bool;
  step : option string;
  error : option string;
  summary : option Summary.t;
  logFilename : option string
}.

Definition failed (step : option string) (error : option string) : t :=
  {| success := false; step := step; error := error;
     summary := None; logFilename := None |}.

Definition done (summary : Summary.t) (logFilename : string) : t :=
  {| success := true; step := None; error := None;
     summary := Some summary; logFilename := Some logFilename |}.
End Result.

(** The stage calls of a run with their answers, and the summary writes,
    recorded in the ghost trace. *)
Inductive stageEvent : Type :=
| CalledDownload (answer : outcome DownloadResult.t)
| CalledSync (answer : outcome SyncResult.t)
| CalledTest (answer : outcome TestResult.t)
| CalledResync (attempt : nat) (answer : outcome SyncResult.t)
| CalledRetest (attempt : nat) (answer : outcome TestResult.t)
| CalledMark (answer : outcome MarkResult.t)
| CalledClean (answer : outcome CleanResult.t)
| PutLog (logFilename : string) (summary : Summary.t) (answer : outcome unit).

(** The modules the orchestrator requires, the object store it writes the
    run summary to, and the clock. *)
Class Stages (W : Type) : Type := {
  downloadToS3 : W -> outcome DownloadResult.t * W;
  syncAll : string -> W -> outcome SyncResult.t * W;
  testSync : W -> outcome TestResult.t * W;
  markAsSynced : string -> W -> outcome MarkResult.t * W;
  cleanS3 : W -> outcome CleanResult.t * W;
  putLog : string -> Summary.t -> W -> outcome unit * W;
(** [Date.now().toString(36)] *)
newWorkflowId : W -> string * W;
(** [new Date()], in milliseconds *)
newDate : W -> Z * W;
(** [new Date().toISOString()] *)
isoNow : W -> string * W
}.

Module Orchestrate.

Definition MAX_RETRIES : nat := 3.

Section WithWorld.
Context {W : Type} `{Stages W}.

Abbreviation M := (M (W := W) (E := stageEvent)).

Definition saveTimestampLog (summary : Summary.t) : M string :=
  timestamp <- read isoNow ;;
  let logFilename := ("log/sync_log_" ++ dashed timestamp ++ ".json")%string in
  read isoNow ;;;
  observe (PutLog logFilename summary) (putLog logFilename summary) ;;;
  ret logFilename.

(** [while (!currentTestResult.success && retryCount < MAX_RETRIES)];
    the fuel bounds the number of turns.  The loop either returns from
    [orchestrate] ([inl]) or falls through with [currentTestResult]
    and whether it was reassigned ([inr]). *)
Fixpoint resyncLoop (fuel : nat) (workflowId : string) (retryCount : nat)
         (currentTestResult : TestResult.t) (reassigned : bool)
  : M (Result.t + TestResult.t * bool) :=
  if (negb (TestResult.success currentTestResult) && (retryCount <? MAX_RETRIES))%bool then
    match fuel with
    | O => diverge
    | S fuel' =>
        let retryCount := S retryCount in
        reSyncResult <- observe (CalledResync retryCount) (syncAll workflowId) ;;
        if negb (SyncResult.success reSyncResult) then
          if MAX_RETRIES <=? retryCount then
            ret (inl (Result.failed (Some "resync")
                                    (Some "Re-sync failed after max retries")))
          else resyncLoop fuel' workflowId retryCount currentTestResult reassigned
        else
          currentTestResult' <- observe (CalledRetest retryCount) testSync ;;
          resyncLoop fuel' workflowId retryCount currentTestResult' true
    end
  else ret (inr (currentTestResult, reassigned)).

(** [currentTestResult.criticalMissing = currentTestResult.missing],
    done when the test still fails and reports missing records. *)
Definition flagCriticalMissing (currentTestResult : TestResult.t) : TestResult.t :=
  if negb (TestResult.success currentTestResult) then
    match TestResult.missing currentTestResult with
    | Some missing =>
        if Number.greaterThan missing (Int 0) then
          {| TestResult.success := TestResult.success currentTestResult;
             TestResult.totalRecords := TestResult.totalRecords currentTestResult;
             TestResult.missing := TestResult.missing currentTestResult;
             TestResult.extra := TestResult.extra currentTestResult;
             TestResult.duplicates := TestResult.duplicates currentTestResult;
             TestResult.error := TestResult.error currentTestResult;
             TestResult.criticalMissing := Some missing |}
        else currentTestResult
    | None => currentTestResult
    end
  else currentTestResult.

Definition isNoLogsError (error : option string) : bool :=
  match error with
  | Some e => String.eqb e "No sync log files found"
  | None => false
  end.

(** [markResult.totalUpdated] in the final report, on the variable
    [markResult] of the function scope. *)
Definition readTotalUpdated (markResult : option MarkResult.t) : M (option nat) :=
  match markResult with
  | None => throw "Cannot read properties of undefined (reading 'totalUpdated')"
  | Some m => ret (MarkResult.totalUpdated m)
  end.

Definition orchestrate : M Result.t :=
  try_catch
    (workflowId <- read newWorkflowId ;;
     startTime <- read newDate ;;
(* Step 1: Download *)
downloaded <-
  try_catch (r <- observe CalledDownload downloadToS3 ;; ret (inr r))
            (fun message =>
               ret (inl (Result.failed (Some "download") (Some message)))) ;;
match downloaded with
| inl failure => ret failure
| inr downloadResult =>
if negb (DownloadResult.success downloadResult) then
  ret (Result.failed (Some "download") (Some "Download failed"))
else
(* Step 2: Sync *)
syncResult <- observe CalledSync (syncAll workflowId) ;;
if negb (SyncResult.success syncResult) then
  ret (Result.failed (Some "sync") (SyncResult.error syncResult))
else
(* Step 3: Test; [let markResult;] is declared here and never assigned *)
let markResult : option MarkResult.t := None in
testResult <- observe CalledTest testSync ;;
looped <- resyncLoop MAX_RETRIES workflowId 0 testResult false ;;
match looped with
| inl failure => ret failure
| inr (currentTestResult, reassigned) =>
(* the object [testResult] is the object [currentTestResult]
   unless the loop reassigned the latter *)
let testResult :=
  if reassigned then testResult else flagCriticalMissing currentTestResult in
(* Step 4: Mark; [const markResult] is local to the [try] block *)
marked <-
  try_catch
    (markResult <- observe CalledMark (markAsSynced workflowId) ;;
     if (negb (MarkResult.success markResult)
         && isNoLogsError (MarkResult.error markResult)
         && (DownloadResult.totalRecords downloadResult =? 0)%Z)%bool
     then
       timestamp <- read isoNow ;;
       let summary :=
         {| Summary.workflowId := Some workflowId;
            Summary.timestamp := Some timestamp;
            Summary.startTime := None;
            Summary.endTime := None;
            Summary.duration := None;
            Summary.download := downloadResult;
            Summary.sync := syncResult;
            Summary.test := testResult;
            Summary.mark :=
              Some {| MarkResult.success := true; MarkResult.error := None;
                      MarkResult.totalUpdated := Some 0;
                      MarkResult.totalIds := None; MarkResult.logFiles := None;
                      MarkResult.message := Some "No new data to sync" |};
            Summary.clean :=
              {| CleanResult.success := true; CleanResult.error := None;
                 CleanResult.totalFiles := None;
                 CleanResult.filesDeleted := Some 0;
                 CleanResult.filesKept := None |};
            Summary.success := true |} in
       logFilename <- saveTimestampLog summary ;;
       read newDate ;;;
       ret (inl (Result.done summary logFilename))
     else if negb (MarkResult.success markResult) then
       ret (inl (Result.failed (Some "mark") (MarkResult.error markResult)))
     else ret (inr tt))
    (fun message => ret (inl (Result.failed (Some "mark") (Some message)))) ;;
match marked with
| inl result => ret result
| inr _ =>
(* Step 5: Clean S3 *)
cleanResult <- observe CalledClean cleanS3 ;;
if negb (CleanResult.success cleanResult) then
  ret (Result.failed (Some "clean") (CleanResult.error cleanResult))
else
(* Step 6: Save log *)
endTime <- read newDate ;;
let duration := (endTime - startTime)%Z in
let summary :=
  {| Summary.workflowId := None;
     Summary.timestamp := None;
     Summary.startTime := Some startTime;
     Summary.endTime := Some endTime;
     Summary.duration := Some duration;
     Summary.download := downloadResult;
     Summary.sync := syncResult;
     Summary.test := testResult;
     Summary.mark := markResult;
     Summary.clean := cleanResult;
     Summary.success := true |} in
logFilename <- saveTimestampLog summary ;;
readTotalUpdated markResult ;;;
ret (Result.done summary logFilename)
end end end)
(fun message => ret (Result.failed None (Some message))).
End WithWorld.
End Orchestrate.

(** The older variant of the orchestrator (the unnamed source file). *)
Module OrchestrateOld.
Import Orchestrate.

Section WithWorld.
Context {W : Type} `{Stages W}.

Abbreviation M := (M (W := W) (E := stageEvent)).

Definition orchestrate : M Result.t :=
  try_catch
    (workflowId <- read newWorkflowId ;;
     startTime <- read newDate ;;
(* Step 1: Download *)
downloaded <-
  try_catch (r <- observe CalledDownload downloadToS3 ;; ret (inr r))
            (fun message =>
               ret (inl (Result.failed (Some "download") (Some message)))) ;;
match downloaded with
| inl failure => ret failure
| inr downloadResult =>
if negb (DownloadResult.success downloadResult) then
  ret (Result.failed (Some "download") (Some "Download failed"))
else
(* Step 2: Sync *)
syncResult <- observe CalledSync (syncAll workflowId) ;;
if negb (SyncResult.success syncResult) then
  ret (Result.failed (Some "sync") (SyncResult.error syncResult))
else
(* Step 3: Test *)
testResult <- observe CalledTest testSync ;;
looped <- resyncLoop MAX_RETRIES workflowId 0 testResult false ;;
match looped with
| inl failure => ret failure
| inr _ =>
(* Step 4: Mark as synced *)
markResult <- observe CalledMark (markAsSynced workflowId) ;;
if negb (MarkResult.success markResult) then
  ret (Result.failed (Some "mark") (MarkResult.error markResult))
else
(* Step 5: Clean S3 *)
cleanResult <- observe CalledClean cleanS3 ;;
if negb (CleanResult.success cleanResult) then
  ret (Result.failed (Some "clean") (CleanResult.error cleanResult))
else
(* Step 6: Save log *)
endTime <- read newDate ;;
let duration := (endTime - startTime)%Z in
let summary :=
  {| Summary.workflowId := None;
     Summary.timestamp := None;
     Summary.startTime := Some startTime;
     Summary.endTime := Some endTime;
     Summary.duration := Some duration;
     Summary.download := downloadResult;
     Summary.sync := syncResult;
     Summary.test := testResult;
     Summary.mark := Some markResult;
     Summary.clean := cleanResult;
     Summary.success := true |} in
logFilename <- saveTimestampLog summary ;;
ret (Result.done summary logFilename)
end end)
(fun message => ret (Result.failed None (Some message))).
End WithWorld.
End OrchestrateOld.

(* ===================================================================== *)
(** ** 01_download.js: the staging writer                                *)
(* ===================================================================== *)

(** What [uploadToS3] is given as [Body]: a text, or the text
    [JSON.stringify(value, null, 2)] of a value. *)
Inductive uploadBody : Type :=
| Text (content : string)
| Pretty (value : json).

(** The requests of the staging writer: the select of the rows not yet
    synced whose [id] is greater than [lastId], and the puts. *)
Inductive downloadEvent : Type :=
| DbSelect (lastId : Z)
| S3Upload (filename : string) (Body : uploadBody).

Module SelectAnswer.
(** The answer [{ data, error }] of the select ([error] as its
    [message]). *)
Record t : Type := {
  data : option (list record);
  error : option string
}.
End SelectAnswer.

(** The relational store, the object store, the clock and the
    environment of the staging writer. *)
Class Staging (W : Type) : Type := {
  db_select : Z -> W -> outcome SelectAnswer.t * W;
  s3_upload : string -> uploadBody -> W -> outcome unit * W;
  clockISO : W -> string * W;
(** [process.env.S3_BUCKET] *)
env_S3_BUCKET : option string
}.

(** [parts.join(sep)] *)
Fixpoint join (sep : string) (parts : list string) : string :=
  match parts with
  | [] => EmptyString
  | p :: rest =>
      match rest with
      | [] => p
      | _ :: _ => (p ++ sep ++ join sep rest)%string
      end
  end.

(** [s.split(sep)] for a separator of one character. *)
Fixpoint split (sep : ascii) (s : string) : list string :=
  match s with
  | EmptyString => [EmptyString]
  | String c s' =>
      if Ascii.eqb c sep then EmptyString :: split sep s'
      else match split sep s' with
           | [] => [String c EmptyString]
           | part :: parts => String c part :: parts
           end
  end.

(** [padString.repeat(count)] for a pad of one character. *)
Fixpoint repeatChar (pad : ascii) (count : nat) : string :=
  match count with
  | O => EmptyString
  | S count' => String pad (repeatChar pad count')
  end.

(** [s.padStart(targetLength, padString)] for a pad of one character. *)
Definition padStart (s : string) (targetLength : nat) (padString : ascii) : string :=
  (repeatChar padString (targetLength - String.length s) ++ s)%string.

Module Download.

Definition RECORDS_PER_FILE : nat := 100.

Definition newline : string := String "010" EmptyString.

(** [records.map(record => JSON.stringify(record)).join('\n') + '\n'] *)
Definition jsonlContent (records : list record) : string :=
  (join newline (map (fun record => stringify (Sync.recordToJson record)) records)
   ++ newline)%string.

(** [`unsynced_${String(fileCount + 1).padStart(4, '0')}.jsonl`] *)
Definition blobName (fileCount : nat) : string :=
  ("unsynced_" ++ padStart (numberToString (Z.of_nat (fileCount + 1))) 4 "0" ++ ".jsonl")%string.

Section WithWorld.
Context {W : Type} `{Staging W}.

Definition S3_BUCKET : string :=
  match env_S3_BUCKET with
  | Some (String c rest) => String c rest
  | _ => "scamtify-pageseeker-data"
  end.

Definition uploadToS3 (content : uploadBody) (filename : string)
  : M (W := W) (E := downloadEvent) unit :=
  perform (S3Upload filename content) (s3_upload filename content).

(** The loop [while (true)] carrying
    [(totalRecords, fileCount, lastId, s3Files)]; it is left by [break]
    on an empty page.  The fuel bounds the number of pages. *)
Fixpoint fetchPages (fuel : nat) (totalRecords : Z) (fileCount : nat) (lastId : Z)
         (s3Files : list string)
  : M (W := W) (E := downloadEvent) (Z * nat * list string) :=
  match fuel with
  | O => diverge
  | S fuel' =>
      answer <- perform (DbSelect lastId) (db_select lastId) ;;
      match SelectAnswer.error answer with
      | Some message => throw message
      | None =>
          match SelectAnswer.data answer with
          | None => throw "Cannot read properties of null (reading 'length')"
          | Some records =>
              if List.length records =? 0 then ret (totalRecords, fileCount, s3Files)
              else
                let content := jsonlContent records in
                let filename := blobName fileCount in
                uploadToS3 (Text content) filename ;;;
                match nth_error records (List.length records - 1) with
                | None => throw "Cannot read properties of undefined (reading 'id')"
                | Some lastRecord =>
                    fetchPages fuel'
                               (totalRecords + Z.of_nat (List.length records))%Z
                               (S fileCount) (id lastRecord) (s3Files ++ [filename])
                end
          end
      end
  end.

Definition summaryJson (totalRecords : Z) (downloadedAt : string) (s3Files : list string)
           (fileCount : nat) : json :=
  JObj [("totalRecords", JNum totalRecords);
        ("downloadedAt", JStr downloadedAt);
        ("s3Bucket", JStr S3_BUCKET);
        ("s3Files", JArr (map JStr s3Files));
        ("fileCount", JNum (Z.of_nat fileCount));
        ("recordsPerFile", JNum (Z.of_nat RECORDS_PER_FILE));
        ("version", JStr "SYNC_SYSTEM_V1")].

Definition downloadToS3 (fuel : nat) : M (W := W) (E := downloadEvent) DownloadResult.t :=
  try_catch
    (fetched <- fetchPages fuel 0 0 0 [] ;;
     let '(totalRecords, fileCount, s3Files) := fetched in
     downloadedAt <- read clockISO ;;
     let summary := summaryJson totalRecords downloadedAt s3Files fileCount in
     timestamp <- read clockISO ;;
     let logSummaryPath := ("log/download_summary_" ++ dashed timestamp ++ ".json")%string in
     uploadToS3 (Pretty summary) logSummaryPath ;;;
     ret {| DownloadResult.success := true;
            DownloadResult.totalRecords := totalRecords;
            DownloadResult.fileCount := fileCount;
            DownloadResult.files := s3Files |})
    (fun message => throw message).
End WithWorld.
End Download.
(* ===================================================================== *)
(** ** Vocabulary of the statements                                      *)
(* ===================================================================== *)

(** Sizes, traces and outcomes named by the theorems below. *)

Section ProbeVocabulary.
Import Sync.

(** The ceiling in bytes: 2 MB. *)
Definition ceilingBytes : Z := 2 * 1024 * 1024.

(** "The serialized bulk payload of [batch] is at or under the ceiling". *)
Definition fitsCeiling (batch : list record) : Prop :=
  (Z.of_nat (payloadSize (bulkBody batch)) <= ceilingBytes)%Z.

Definition sumLengths (parts : list string) : nat :=
  fold_right (fun p n => String.length p + n) 0 parts.

(** The bytes one record adds to a bulk body, separators apart: its
    action line and its document. *)
Definition actionOf (r : record) : json :=
  JObj [("index", JObj [("_index", JStr INDEX_NAME);
                        ("_id", JStr (numberToString (id r)))])].

Definition wireSize (r : record) : nat :=
  String.length (stringify (actionOf r)) + String.length (stringify (recordToJson r)).

Definition sumWire (batch : list record) : nat :=
  fold_right (fun r n => wireSize r + n) 0 batch.

(** All records of the blob have the serialized size [size]. *)
Definition uniformSize (size : nat) (records : list record) : Prop :=
  forall r, In r records -> wireSize r = size.

(** The probe's contract as the specification words it: the selected
    size is within the cap, fits, is the largest such, and one more
    record of the blob's size would not fit. *)
Definition probeContractAsWorded (records : list record) : Prop :=
  let B := findBatchSize records in
  let cap := Nat.min 25 (List.length records) in
  B <= cap
  /\ fitsCeiling (firstn B records)
  /\ (forall k, k <= cap -> fitsCeiling (firstn k records) -> k <= B)
  /\ (forall size batch,
        uniformSize size records -> uniformSize size batch ->
        List.length batch = S B -> ~ fitsCeiling batch).

End ProbeVocabulary.

Section IndexerVocabulary.
Context {W : Type} `{Collaborators W}.
Import Sync.

(** What one answered bulk request adds to [syncedCount]. *)
Definition counted (batch : list record) (response : bulkResponse) : nat :=
  if errors response then List.length (successItems response) else List.length batch.

(** The requests of the indexing loop: bulk requests and pauses. *)
Definition indexingEvent (e : event) : Prop :=
  match e with
  | OsBulk _ | Sleep _ | OsIndicesExists | OsIndicesCreate => True
  | _ => False
  end.

(** Every answered bulk request lists at most one item per record sent
    (the contract of the bulk API). *)
Definition oneItemPerRecord : Prop :=
  forall batch w response w',
    os_bulk (bulkBody batch) w = (Ok response, w') ->
    List.length (match items response with Some l => l | None => [] end)
    <= List.length batch.

(** The bulk handler always settles. *)
Definition bulkSettles : Prop :=
  forall body (w : W), fst (os_bulk body w) <> Diverge.

Definition fileSynced (syncedCount : nat) (records : list record) : FileResult.t :=
  {| FileResult.success := true; FileResult.error := None;
     FileResult.syncedRecords := syncedCount; FileResult.syncedIds := map id records |}.

Definition fileFailed (message : string) : FileResult.t :=
  {| FileResult.success := false; FileResult.error := Some message;
     FileResult.syncedRecords := 0; FileResult.syncedIds := [] |}.

(** Ensuring the index and indexing the records of a blob. *)
Definition indexing (records : list record) : M (W := W) (E := event) nat :=
  ensureIndex ;;; dynamicMicroBatch records.

End IndexerVocabulary.

Definition deleteRequests (files : list S3Object) : list event :=
  map (fun file => S3Delete (Key file)) files.



(** The re-sync attempts and the re-tests recorded in a trace. *)
Definition resyncs (events : list stageEvent) : nat :=
  List.length (filter (fun e => match e with CalledResync _ _ => true | _ => false end) events).

Definition retests (events : list stageEvent) : nat :=
  List.length (filter (fun e => match e with CalledRetest _ _ => true | _ => false end) events).

Definition loopEvent (e : stageEvent) : Prop :=
  match e with
  | CalledResync _ _ | CalledRetest _ _ => True
  | _ => False
  end.

Definition resyncFailed : Result.t :=
  Result.failed (Some "resync") (Some "Re-sync failed after max retries").

(** The runs of the re-sync loop, as a relation between the loop's state
    at entry ([retryCount], [currentTestResult], whether it was
    reassigned), the stage calls it makes and what it yields. *)
Inductive loopRun :
  nat -> TestResult.t -> bool -> list stageEvent ->
  outcome (Result.t + TestResult.t * bool) -> Prop :=
| LoopExit retryCount current reassigned :
    TestResult.success current = true \/ 3 <= retryCount ->
    loopRun retryCount current reassigned [] (Ok (inr (current, reassigned)))
| LoopResyncThrew retryCount current reassigned message :
    TestResult.success current = false -> retryCount < 3 ->
    loopRun retryCount current reassigned
            [CalledResync (S retryCount) (Throw message)] (Throw message)
| LoopResyncHung retryCount current reassigned :
    TestResult.success current = false -> retryCount < 3 ->
    loopRun retryCount current reassigned [CalledResync (S retryCount) Diverge] Diverge
| LoopResyncFatal retryCount current reassigned reSyncResult :
    TestResult.success current = false -> retryCount = 2 ->
    SyncResult.success reSyncResult = false ->
    loopRun retryCount current reassigned
            [CalledResync 3 (Ok reSyncResult)] (Ok (inl resyncFailed))
| LoopResyncSkipped retryCount current reassigned reSyncResult post r :
    TestResult.success current = false -> retryCount < 2 ->
    SyncResult.success reSyncResult = false ->
    loopRun (S retryCount) current reassigned post r ->
    loopRun retryCount current reassigned
            (CalledResync (S retryCount) (Ok reSyncResult) :: post) r
| LoopRetestThrew retryCount current reassigned reSyncResult message :
    TestResult.success current = false -> retryCount < 3 ->
    SyncResult.success reSyncResult = true ->
    loopRun retryCount current reassigned
            [CalledResync (S retryCount) (Ok reSyncResult);
             CalledRetest (S retryCount) (Throw message)] (Throw message)
| LoopRetestHung retryCount current reassigned reSyncResult :
    TestResult.success current = false -> retryCount < 3 ->
    SyncResult.success reSyncResult = true ->
    loopRun retryCount current reassigned
            [CalledResync (S retryCount) (Ok reSyncResult);
             CalledRetest (S retryCount) Diverge] Diverge
| LoopRetested retryCount current reassigned reSyncResult retested post r :
    TestResult.success current = false -> retryCount < 3 ->
    SyncResult.success reSyncResult = true ->
    loopRun (S retryCount) retested true post r ->
    loopRun retryCount current reassigned
            (CalledResync (S retryCount) (Ok reSyncResult)
               :: CalledRetest (S retryCount) (Ok retested) :: post) r.

Definition attemptOf (e : stageEvent) : nat :=
  match e with
  | CalledResync n _ | CalledRetest n _ => n
  | _ => 0
  end.

(** The zero-work mark result of a run that had nothing to do. *)
Definition zeroWork : MarkResult.t :=
  {| MarkResult.success := true; MarkResult.error := None;
     MarkResult.totalUpdated := Some 0; MarkResult.totalIds := None;
     MarkResult.logFiles := None; MarkResult.message := Some "No new data to sync" |}.

(** C4 as worded: whenever the mark step answers "No sync log files
    found" and the download reported zero records, the run ends in
    success with a zero-work summary. *)
Definition noNewDataAsWorded {W : Type} `{Stages W} (w : W) : Prop :=
  forall r w' events downloadResult markResult,
    Orchestrate.orchestrate (w, []) = (r, (w', events)) ->
    In (CalledDownload (Ok downloadResult)) events ->
    DownloadResult.totalRecords downloadResult = 0%Z ->
    In (CalledMark (Ok markResult)) events ->
    MarkResult.success markResult = false ->
    MarkResult.error markResult = Some "No sync log files found" ->
    exists summary logFilename,
      r = Ok (Result.done summary logFilename)
      /\ Summary.mark summary = Some zeroWork.

Definition typeErrorMessage : string :=
  "Cannot read properties of undefined (reading 'totalUpdated')".


(* ===================================================================== *)
(** ** More vocabulary: traces of the stages                             *)
(* ===================================================================== *)

(** [c] occurs in [s]. *)
Fixpoint occurs (c : ascii) (s : string) : bool :=
  match s with
  | EmptyString => false
  | String d s' => (Ascii.eqb c d || occurs c s')%bool
  end.

(** The requests of a run of the staging writer that fetched the
    non-empty [pages] in turn, starting from the cursor [lastId] with
    [fileCount] blobs written, and then an empty page: each select asks
    for the rows after the last one of the page before it. *)
Fixpoint stagingTrace (lastId : Z) (fileCount : nat) (pages : list (list record))
  : list downloadEvent :=
  match pages with
  | [] => [DbSelect lastId]
  | page :: rest =>
      DbSelect lastId
        :: S3Upload (Download.blobName fileCount) (Text (Download.jsonlContent page))
        :: stagingTrace (List.last (map id page) lastId) (S fileCount) rest
  end.

(** The identifiers of a checkpoint log ([syncLog.syncedIds || []]). *)
Definition idsOf (log : syncLog) : list Z :=
  match log_syncedIds log with Some l => l | None => [] end.

(** The batches of the update requests recorded in a trace. *)
Definition updatesOf (events : list event) : list (list Z) :=
  flat_map (fun e => match e with DbUpdate ids => [ids] | _ => [] end) events.

(** The keys of the get requests recorded in a trace. *)
Definition getsOf (events : list event) : list string :=
  flat_map (fun e => match e with S3Get key => [key] | _ => [] end) events.

(** The prefix under which [markAsSynced] looks for checkpoint logs. *)
Definition checkpointPrefix (workflowId : option string) : string :=
  if truthy workflowId
  then match workflowId with
       | Some w => ("log/sync_log_ids_" ++ w ++ "_")%string
       | None => "log/sync_log_ids_"
       end
  else "log/sync_log_ids_".

(** [response.Contents], when present. *)
Definition contentsOf (page : ListObjectsV2Output) : list S3Object :=
  match Contents page with Some contents => contents | None => [] end.

(** The paginated listing goes on after [page]: the page is truncated
    and carries a continuation token that is not empty. *)
Definition continues (page : ListObjectsV2Output) : bool :=
  truthy (if IsTruncated page then NextContinuationToken page else None).

(** The requests of a paginated listing that received [pages] in turn. *)
Fixpoint listingTrace (Prefix continuationToken : option string)
         (pages : list ListObjectsV2Output) : list event :=
  match pages with
  | [] => []
  | page :: rest =>
      S3List Prefix continuationToken
        :: listingTrace Prefix (NextContinuationToken page) rest
  end.

(** The store answered a paginated listing with [pages] in turn: the
    request sent in the world [w] with [continuationToken] received the
    first page, each later request was sent with the
    [NextContinuationToken] of the page before it, and [w'] is the world
    after the last answer. *)
Fixpoint listingAnswers {W : Type} `{Collaborators W}
         (Prefix continuationToken : option string) (w : W)
         (pages : list ListObjectsV2Output) (w' : W) : Prop :=
  match pages with
  | [] => w' = w
  | page :: rest =>
      exists w1,
        s3_list Prefix continuationToken w = (Ok page, w1)
        /\ listingAnswers Prefix (NextContinuationToken page) w1 rest w'
  end.


(** The keys of the delete requests recorded in a trace. *)
Definition deletesOf (events : list event) : list string :=
  flat_map (fun e => match e with S3Delete key => [key] | _ => [] end) events.

(** The stage call or summary write recorded as [e] threw [message]. *)
Definition threw (e : stageEvent) (message : string) : Prop :=
  match e with
  | CalledDownload (Throw m) | CalledSync (Throw m) | CalledTest (Throw m)
  | CalledResync _ (Throw m) | CalledRetest _ (Throw m)
  | CalledMark (Throw m) | CalledClean (Throw m) | PutLog _ _ (Throw m) => m = message
  | _ => False
  end.

(** The requests of one window of the indexing loop: the bulk request,
    and when it threw, the pause and the single retry. *)
Definition windowTrace (window : list record) (retried : bool) : list event :=
  let body := Sync.bulkBody window in
  if retried then [OsBulk body; Sleep 2000; OsBulk body] else [OsBulk body].

(** The requests of the windows of a run, each with whether it was
    retried. *)
Definition windowsTrace (windows : list (list record * bool)) : list event :=
  flat_map (fun window => windowTrace (fst window) (snd window)) windows.

(** A stage run as the orchestrator calls it: from an empty trace, its
    requests being seen by the stage's own collaborators only. *)
Definition detach {W E A : Type} (stage : M (W := W) (E := E) A) (w : W) : outcome A * W :=
  let (r, st) := stage (w, []) in (r, fst st).


(* ===================================================================== *)
(** ** Sample blobs                                                      *)
(* ===================================================================== *)

Module Samples.

(** A record with the given identifier and caption, the other columns
    null. *)
Definition mkRecord (n : Z) (caption : json) : record :=
  {| id := n; keyword := JNull; ad_id := JNull; ad_name := JNull;
     ad_caption := caption; ad_risk_reason := JNull; collected_at := JNull |}.

(** Thirty small records of one serialized size (ids 100..129). *)
Definition smallBlob : list record :=
  map (fun n => mkRecord (Z.of_nat n) (JStr "sale")) (seq 100 30).

(** A text of [n] bytes. *)
Definition filler (n : N) : string := N.iter n (String "a") EmptyString.

(** A record whose caption alone is 2 MB long. *)
Definition hugeRecord : record := mkRecord 7 (JStr (filler (2 * 1024 * 1024))).

(** Four records of 700000 bytes of caption each: two of them are under
    the ceiling together, three are not. *)
Definition heavyBlob : list record :=
  map (fun n => mkRecord (Z.of_nat n) (JStr (filler 700000))) (seq 1 4).

End Samples.

(* ===================================================================== *)
(** ** A scripted world                                                  *)
(* ===================================================================== *)

(** Collaborators that answer from a script: the listing pages, the bulk
    answers, the delete answers and the put answers are consumed in order
    (when a script is used up the call succeeds with an empty answer);
    blobs and checkpoint logs are looked up by key. *)
Module Scripted.

Record world : Type := {
  pages : list (outcome ListObjectsV2Output);
  blobs : list (string * outcome (list (option record)));
  logs : list (string * outcome (option syncLog));
  bulks : list (outcome bulkResponse);
  deletes : list (outcome unit);
  puts : list (outcome unit)
}.

Definition emptyPage : ListObjectsV2Output :=
  {| Contents := None; IsTruncated := false; NextContinuationToken := None |}.

Fixpoint lookup {A} (key : string) (table : list (string * outcome A)) : outcome A :=
  match table with
  | [] => Throw "NoSuchKey"
  | (k, answer) :: rest => if String.eqb k key then answer else lookup key rest
  end.

Definition nextPage (w : world) : outcome ListObjectsV2Output * world :=
  match pages w with
  | [] => (Ok emptyPage, w)
  | answer :: rest =>
      (answer, {| pages := rest; blobs := blobs w; logs := logs w; bulks := bulks w;
                  deletes := deletes w; puts := puts w |})
  end.

Definition nextBulk (w : world) : outcome bulkResponse * world :=
  match bulks w with
  | [] => (Ok {| errors := false; items := None |}, w)
  | answer :: rest =>
      (answer, {| pages := pages w; blobs := blobs w; logs := logs w; bulks := rest;
                  deletes := deletes w; puts := puts w |})
  end.

Definition nextDelete (w : world) : outcome unit * world :=
  match deletes w with
  | [] => (Ok tt, w)
  | answer :: rest =>
      (answer, {| pages := pages w; blobs := blobs w; logs := logs w; bulks := bulks w;
                  deletes := rest; puts := puts w |})
  end.

Definition nextPut (w : world) : outcome unit * world :=
  match puts w with
  | [] => (Ok tt, w)
  | answer :: rest =>
      (answer, {| pages := pages w; blobs := blobs w; logs := logs w; bulks := bulks w;
                  deletes := deletes w; puts := rest |})
  end.

#[global] Instance collaborators : Collaborators world := {
  s3_list := fun _ _ w => nextPage w;
  s3_get_jsonl := fun key w => (lookup key (blobs w), w);
  s3_get_sync_log := fun key w => (lookup key (logs w), w);
  s3_get_summary := fun _ w => (Ok None, w);
  s3_delete := fun _ w => nextDelete w;
  s3_put := fun _ _ w => nextPut w;
  os_indices_exists := fun w => (Ok true, w);
  os_indices_create := fun w => (Ok tt, w);
  os_bulk := fun _ w => nextBulk w;
  os_count := fun w => (Ok 0%Z, w);
  os_search_sample := fun w => (Ok tt, w);
  os_search_duplicates := fun w => (Ok [], w);
  db_update := fun _ w => (Ok None, w);
  toISOString := fun w => ("2024-01-01T00:00:00.000Z", w);
  localeCompare := String.compare
}.


Definition created : item :=
  {| index := Some {| status := 201 |}; create := None; update := None |}.

Definition rejected : item :=
  {| index := Some {| status := 400 |}; create := None; update := None |}.

(** Two small records staged as one blob. *)
Definition twoRecords : list record :=
  [Samples.mkRecord 1 (JStr "first"); Samples.mkRecord 2 (JStr "second")].

Definition stagedBlob : string * outcome (list (option record)) :=
  ("unsynced_0001.jsonl", Ok (map Some twoRecords)).

(** The first bulk request is rejected; its retry answers with one item
    indexed and one refused. *)
Definition retryPartial : world :=
  {| pages := []; blobs := [stagedBlob]; logs := [];
     bulks := [Throw "socket hang up";
               Ok {| errors := true; items := Some [created; rejected] |}];
     deletes := []; puts := [] |}.

(** The first bulk request and its retry are both rejected. *)
Definition retryRejected : world :=
  {| pages := []; blobs := [stagedBlob]; logs := [];
     bulks := [Throw "socket hang up"; Throw "socket hang up"];
     deletes := []; puts := [] |}.

(** Two staged blobs are listed; the first cannot be read, the second
    holds a line that is not JSON. *)
Definition brokenBlobs : world :=
  {| pages := [Ok {| Contents := Some [ {| Key := "unsynced_0001.jsonl"; LastModified := 1 |};
                                        {| Key := "unsynced_0002.jsonl"; LastModified := 2 |} ];
                     IsTruncated := false; NextContinuationToken := None |}];
     blobs := [("unsynced_0001.jsonl", Throw "AccessDenied");
               ("unsynced_0002.jsonl", Ok [Some (Samples.mkRecord 3 JNull); None])];
     logs := []; bulks := []; deletes := []; puts := [] |}.

(** Three objects to clean; the first delete is rejected. *)
Definition deleteRejected : world :=
  {| pages := [Ok {| Contents := Some [ {| Key := "unsynced_0001.jsonl"; LastModified := 1 |};
                                        {| Key := "unsynced_0002.jsonl"; LastModified := 2 |};
                                        {| Key := "log/sync_log_ids_x.json"; LastModified := 3 |} ];
                     IsTruncated := false; NextContinuationToken := None |}];
     blobs := []; logs := []; bulks := [];
     deletes := [Throw "SlowDown"]; puts := [] |}.

End Scripted.

(* ===================================================================== *)
(** ** Scripted stages                                                   *)
(* ===================================================================== *)

(** Stages that answer from a script: [syncAll], [testSync] and the write
    of the run summary consume their answers in order (when a script is
    used up, the call succeeds). *)
Module Staged.

Record world : Type := {
  download : outcome DownloadResult.t;
  syncs : list (outcome SyncResult.t);
  tests : list (outcome TestResult.t);
  mark : outcome MarkResult.t;
  clean : outcome CleanResult.t;
  logWrites : list (outcome unit)
}.

Definition downloaded (totalRecords : Z) : DownloadResult.t :=
  {| DownloadResult.success := true; DownloadResult.totalRecords := totalRecords;
     DownloadResult.fileCount := 0; DownloadResult.files := [] |}.

Definition synced (totalRecords : nat) : SyncResult.t :=
  {| SyncResult.success := true; SyncResult.error := None;
     SyncResult.syncedFiles := 0; SyncResult.totalFiles := Some 0;
     SyncResult.totalRecords := totalRecords; SyncResult.syncedIdsCount := Some 0 |}.

Definition passed (count : Z) : TestResult.t :=
  TestResult.make true (Some count) (Some (Int 0)) None.

Definition missingRecords (count missing : Z) : TestResult.t :=
  TestResult.make false (Some count) (Some (Int missing)) None.

Definition marked (totalUpdated : nat) : MarkResult.t :=
  {| MarkResult.success := true; MarkResult.error := None;
     MarkResult.totalUpdated := Some totalUpdated; MarkResult.totalIds := Some totalUpdated;
     MarkResult.logFiles := Some []; MarkResult.message := None |}.

Definition noLogs : MarkResult.t :=
  {| MarkResult.success := false; MarkResult.error := Some "No sync log files found";
     MarkResult.totalUpdated := None; MarkResult.totalIds := None;
     MarkResult.logFiles := None; MarkResult.message := None |}.

Definition cleaned (filesDeleted : nat) : CleanResult.t :=
  {| CleanResult.success := true; CleanResult.error := None;
     CleanResult.totalFiles := Some filesDeleted;
     CleanResult.filesDeleted := Some filesDeleted; CleanResult.filesKept := Some 0 |}.

Definition nextSync (w : world) : outcome SyncResult.t * world :=
  match syncs w with
  | [] => (Ok (synced 0), w)
  | answer :: rest =>
      (answer, {| download := download w; syncs := rest; tests := tests w;
                  mark := mark w; clean := clean w; logWrites := logWrites w |})
  end.

Definition nextTest (w : world) : outcome TestResult.t * world :=
  match tests w with
  | [] => (Ok (passed 0), w)
  | answer :: rest =>
      (answer, {| download := download w; syncs := syncs w; tests := rest;
                  mark := mark w; clean := clean w; logWrites := logWrites w |})
  end.

Definition nextLogWrite (w : world) : outcome unit * world :=
  match logWrites w with
  | [] => (Ok tt, w)
  | answer :: rest =>
      (answer, {| download := download w; syncs := syncs w; tests := tests w;
                  mark := mark w; clean := clean w; logWrites := rest |})
  end.

#[global] Instance stages : Stages world := {
  downloadToS3 := fun w => (download w, w);
  syncAll := fun _ w => nextSync w;
  testSync := fun w => nextTest w;
  markAsSynced := fun _ w => (mark w, w);
  cleanS3 := fun w => (clean w, w);
  putLog := fun _ _ w => nextLogWrite w;
  newWorkflowId := fun w => ("lr2k9x3f", w);
  newDate := fun w => (1700000000000%Z, w);
  isoNow := fun w => ("2024-01-01T00:00:00.000Z", w)
}.

(** Every stage reports success. *)
Definition allSucceed : world :=
  {| download := Ok (downloaded 150); syncs := [Ok (synced 150)];
     tests := [Ok (passed 150)]; mark := Ok (marked 150); clean := Ok (cleaned 2);
     logWrites := [] |}.

(** The run summary that 06_orchestrate.js writes in that world. *)
Definition allSucceedSummary : Summary.t :=
  {| Summary.workflowId := None;
     Summary.timestamp := None;
     Summary.startTime := Some 1700000000000%Z;
     Summary.endTime := Some 1700000000000%Z;
     Summary.duration := Some 0%Z;
     Summary.download := downloaded 150;
     Summary.sync := synced 150;
     Summary.test := passed 150;
     Summary.mark := None;
     Summary.clean := cleaned 2;
     Summary.success := true |}.

(** Nothing new was staged and no checkpoint log exists. *)
Definition noNewData : world :=
  {| download := Ok (downloaded 0); syncs := []; tests := [];
     mark := Ok noLogs; clean := Ok (cleaned 0); logWrites := [] |}.

(** The same, but the write of the run summary is rejected. *)
Definition noNewDataLogRejected : world :=
  {| download := Ok (downloaded 0); syncs := []; tests := [];
     mark := Ok noLogs; clean := Ok (cleaned 0); logWrites := [Throw "AccessDenied"] |}.

(** The first test reports 20 missing records; the test after the first
    re-sync passes. *)
Definition failThenPass : world :=
  {| download := Ok (downloaded 100); syncs := [Ok (synced 80); Ok (synced 20)];
     tests := [Ok (missingRecords 80 20); Ok (passed 100)];
     mark := Ok (marked 100); clean := Ok (cleaned 1); logWrites := [] |}.

(** The test never passes. *)
Definition neverPasses : world :=
  {| download := Ok (downloaded 100); syncs := [];
     tests := [Ok (missingRecords 80 20); Ok (missingRecords 80 20);
               Ok (missingRecords 80 20); Ok (missingRecords 80 20)];
     mark := Ok (marked 100); clean := Ok (cleaned 1); logWrites := [] |}.

End Staged.

(* ===================================================================== *)
(** ** A scripted relational store                                       *)
(* ===================================================================== *)

(** A store that answers the selects and the uploads from a script, in
    order (when a script is used up, a select answers an empty page and
    an upload succeeds). *)
Module Warehouse.

Record world : Type := {
  selects : list (outcome SelectAnswer.t);
  uploads : list (outcome unit)
}.

Definition page (records : list record) : SelectAnswer.t :=
  {| SelectAnswer.data := Some records; SelectAnswer.error := None |}.

Definition refused (message : string) : SelectAnswer.t :=
  {| SelectAnswer.data := None; SelectAnswer.error := Some message |}.

Definition nextSelect (w : world) : outcome SelectAnswer.t * world :=
  match selects w with
  | [] => (Ok (page []), w)
  | answer :: rest => (answer, {| selects := rest; uploads := uploads w |})
  end.

Definition nextUpload (w : world) : outcome unit * world :=
  match uploads w with
  | [] => (Ok tt, w)
  | answer :: rest => (answer, {| selects := selects w; uploads := rest |})
  end.

#[global] Instance staging : Staging world := {
  db_select := fun _ w => nextSelect w;
  s3_upload := fun _ _ w => nextUpload w;
  clockISO := fun w => ("2024-01-01T00:00:00.000Z", w);
  env_S3_BUCKET := None
}.

Definition firstPage : list record :=
  [Samples.mkRecord 4 (JStr "first"); Samples.mkRecord 9 (JStr "second")].

Definition secondPage : list record := [Samples.mkRecord 12 (JStr "third")].

(** Three rows wait, fetched as a page of two and a page of one. *)
Definition threeRows : world :=
  {| selects := [Ok (page firstPage); Ok (page secondPage)]; uploads := [] |}.

(** The second select is refused. *)
Definition secondSelectRefused : world :=
  {| selects := [Ok (page firstPage); Ok (refused "canceling statement due to statement timeout")];
     uploads := [] |}.

End Warehouse.

(* ===================================================================== *)
(** ** A scripted index and checkpoint store                             *)
(* ===================================================================== *)

(** Collaborators for the reconciler and the commit marker: the count
    and the duplicate buckets of the index are fixed, the listings and
    the answers of the updates are consumed in order (when a script is
    used up, a listing is empty and an update succeeds), manifests and
    checkpoint logs are looked up by key. *)
Module Ledger.

Record world : Type := {
  count : outcome Z;
  buckets : outcome (list Z);
  listings : list (outcome ListObjectsV2Output);
  manifests : list (string * outcome (option downloadSummary));
  logs : list (string * outcome (option syncLog));
  updates : list (outcome (option string))
}.

Definition nextListing (w : world) : outcome ListObjectsV2Output * world :=
  match listings w with
  | [] => (Ok Scripted.emptyPage, w)
  | answer :: rest =>
      (answer, {| count := count w; buckets := buckets w; listings := rest;
                  manifests := manifests w; logs := logs w; updates := updates w |})
  end.

Definition nextUpdate (w : world) : outcome (option string) * world :=
  match updates w with
  | [] => (Ok None, w)
  | answer :: rest =>
      (answer, {| count := count w; buckets := buckets w; listings := listings w;
                  manifests := manifests w; logs := logs w; updates := rest |})
  end.

#[global] Instance collaborators : Collaborators world := {
  s3_list := fun _ _ w => nextListing w;
  s3_get_jsonl := fun _ w => (Throw "NoSuchKey", w);
  s3_get_sync_log := fun key w => (Scripted.lookup key (logs w), w);
  s3_get_summary := fun key w => (Scripted.lookup key (manifests w), w);
  s3_delete := fun _ w => (Ok tt, w);
  s3_put := fun _ _ w => (Ok tt, w);
  os_indices_exists := fun w => (Ok true, w);
  os_indices_create := fun w => (Ok tt, w);
  os_bulk := fun _ w => (Ok {| errors := false; items := None |}, w);
  os_count := fun w => (count w, w);
  os_search_sample := fun w => (Ok tt, w);
  os_search_duplicates := fun w => (buckets w, w);
  db_update := fun _ w => nextUpdate w;
  toISOString := fun w => ("2024-01-01T00:00:00.000Z", w);
  localeCompare := String.compare
}.

Definition onePage (files : list S3Object) : ListObjectsV2Output :=
  {| Contents := Some files; IsTruncated := false; NextContinuationToken := None |}.

(** The index holds 80 documents, two identifiers of which are
    indexed twice. *)
Definition duplicated : world :=
  {| count := Ok 80%Z; buckets := Ok [1; 2; 1; 3]%Z; listings := [];
     manifests := []; logs := []; updates := [] |}.

(** Two manifests are listed, the older one first; the index holds 80
    documents, the latest manifest announces 100. *)
Definition twoManifests : world :=
  {| count := Ok 80%Z; buckets := Ok [1; 1]%Z;
     listings := [Ok (onePage [ {| Key := "log/download_summary_a.json"; LastModified := 10 |};
                                {| Key := "log/download_summary_b.json"; LastModified := 20 |} ])];
     manifests := [("log/download_summary_a.json", Ok (Some {| manifest_totalRecords := Int 7 |}));
                   ("log/download_summary_b.json", Ok (Some {| manifest_totalRecords := Int 100 |}))];
     logs := []; updates := [] |}.

(** The listed manifest parses, but holds no [totalRecords]. *)
Definition manifestWithoutCount : world :=
  {| count := Ok 80%Z; buckets := Ok []%Z;
     listings := [Ok (onePage [ {| Key := "log/download_summary_a.json"; LastModified := 10 |} ])];
     manifests := [("log/download_summary_a.json", Ok (Some {| manifest_totalRecords := NaN |}))];
     logs := []; updates := [] |}.

(** The listed manifest cannot be read. *)
Definition manifestUnreadable : world :=
  {| count := Ok 80%Z; buckets := Ok []%Z;
     listings := [Ok (onePage [ {| Key := "log/download_summary_a.json"; LastModified := 10 |} ])];
     manifests := [("log/download_summary_a.json", Throw "AccessDenied")];
     logs := []; updates := [] |}.

Definition logA : S3Object := {| Key := "log/sync_log_ids_w1_a.json"; LastModified := 10 |}.



End Ledger.

(** A relational store that answers every update with an error. *)
Module ReadOnly.

Record world : Type := { listing : ListObjectsV2Output;
                         logs : list (string * outcome (option syncLog)) }.

#[global] Instance collaborators : Collaborators world := {
  s3_list := fun _ _ w => (Ok (listing w), w);
  s3_get_jsonl := fun _ w => (Throw "NoSuchKey", w);
  s3_get_sync_log := fun key w => (Scripted.lookup key (logs w), w);
  s3_get_summary := fun _ w => (Throw "NoSuchKey", w);
  s3_delete := fun _ w => (Ok tt, w);
  s3_put := fun _ _ w => (Ok tt, w);
  os_indices_exists := fun w => (Ok true, w);
  os_indices_create := fun w => (Ok tt, w);
  os_bulk := fun _ w => (Ok {| errors := false; items := None |}, w);
  os_count := fun w => (Ok 0%Z, w);
  os_search_sample := fun w => (Ok tt, w);
  os_search_duplicates := fun w => (Ok [], w);
  db_update := fun _ w => (Ok (Some "permission denied for table"), w);
  toISOString := fun w => ("2024-01-01T00:00:00.000Z", w);
  localeCompare := String.compare
}.

Definition oneLog : world :=
  {| listing := Ledger.onePage [Ledger.logA];
     logs := [(Key Ledger.logA, Ok (Some {| log_timestamp := "2024-01-01T00:00:00.000Z";
                                            log_syncedIds := Some [1; 2]%Z |}))] |}.

End ReadOnly.

(* ===================================================================== *)
(** ** More scripted runs                                                *)
(* ===================================================================== *)

Module Runs.

(** The first [syncAll] reports failure. *)
Definition syncRejected : Staged.world :=
  {| Staged.download := Ok (Staged.downloaded 100);
     Staged.syncs := [Ok {| SyncResult.success := false;
                            SyncResult.error := Some "ExpiredToken";
                            SyncResult.syncedFiles := 0; SyncResult.totalFiles := Some 0;
                            SyncResult.totalRecords := 0;
                            SyncResult.syncedIdsCount := None |}];
     Staged.tests := []; Staged.mark := Ok (Staged.marked 0);
     Staged.clean := Ok (Staged.cleaned 0); Staged.logWrites := [] |}.

(** The run summary that 06_orchestrate.js writes in the world
    [Staged.neverPasses]. *)
Definition neverPassesSummary : Summary.t :=
  {| Summary.workflowId := None;
     Summary.timestamp := None;
     Summary.startTime := Some 1700000000000%Z;
     Summary.endTime := Some 1700000000000%Z;
     Summary.duration := Some 0%Z;
     Summary.download := Staged.downloaded 100;
     Summary.sync := Staged.synced 0;
     Summary.test := Staged.missingRecords 80 20;
     Summary.mark := None;
     Summary.clean := Staged.cleaned 1;
     Summary.success := true |}.

End Runs.

(* ===================================================================== *)
(** ** More scripted worlds                                              *)
(* ===================================================================== *)

(** Worlds of the scripted collaborators with something listed. *)
Module Listed.

Definition blob1 : S3Object := {| Key := "unsynced_0001.jsonl"; LastModified := 1 |}.
Definition blob2 : S3Object := {| Key := "unsynced_0002.jsonl"; LastModified := 2 |}.
Definition manifest : S3Object :=
  {| Key := "log/download_summary_2024-01-01T00-00-00-000Z.json"; LastModified := 3 |}.

(** The listing comes in two pages, the first truncated. *)
Definition twoListingPages : Scripted.world :=
  {| Scripted.pages :=
       [Ok {| Contents := Some [blob1]; IsTruncated := true;
              NextContinuationToken := Some "token-1" |};
        Ok {| Contents := Some [blob2; manifest]; IsTruncated := false;
              NextContinuationToken := None |}];
     Scripted.blobs := []; Scripted.logs := []; Scripted.bulks := [];
     Scripted.deletes := []; Scripted.puts := [] |}.


(** The staged blob is listed and indexed in full, but its delete is
    refused. *)
Definition deleteRefused : Scripted.world :=
  {| Scripted.pages :=
       [Ok {| Contents := Some [blob1]; IsTruncated := false;
              NextContinuationToken := None |}];
     Scripted.blobs := [Scripted.stagedBlob]; Scripted.logs := []; Scripted.bulks := [];
     Scripted.deletes := [Throw "AccessDenied"]; Scripted.puts := [] |}.

End Listed.

(** Collaborators whose index check is refused: the request that checks
    the index throws; every other call succeeds, and each get returns
    the staged lines. *)
Module Unchecked.

Record world : Type := { staged : list (option record) }.

#[global] Instance collaborators : Collaborators world := {
  s3_list := fun _ _ w => (Ok Scripted.emptyPage, w);
  s3_get_jsonl := fun _ w => (Ok (staged w), w);
  s3_get_sync_log := fun _ w => (Throw "NoSuchKey", w);
  s3_get_summary := fun _ w => (Throw "NoSuchKey", w);
  s3_delete := fun _ w => (Ok tt, w);
  s3_put := fun _ _ w => (Ok tt, w);
  os_indices_exists := fun w => (Throw "security_exception", w);
  os_indices_create := fun w => (Ok tt, w);
  os_bulk := fun _ w => (Ok {| errors := false; items := None |}, w);
  os_count := fun w => (Ok 0%Z, w);
  os_search_sample := fun w => (Ok tt, w);
  os_search_duplicates := fun w => (Ok [], w);
  db_update := fun _ w => (Ok None, w);
  toISOString := fun w => ("2024-01-01T00:00:00.000Z", w);
  localeCompare := String.compare
}.

Definition twoStaged : world := {| staged := map Some Scripted.twoRecords |}.

End Unchecked.

(** Collaborators whose index answers each bulk request with one item
    per document sent: the first [quota] documents of a request are
    created, the others are rejected with status 429.  Each get returns
    the staged lines; every other call succeeds. *)
Module Throttled.

Record world : Type := { staged : list (option record); quota : nat }.

(** The number of documents of a bulk body: one action line and one
    source line each. *)
Definition documents (body : json) : nat :=
  match body with
  | JArr entries => Nat.div2 (List.length entries)
  | _ => 0
  end.

Definition answered (status : Z) : item :=
  {| index := Some {| status := status |}; create := None; update := None |}.

Definition answer (quota : nat) (body : json) : bulkResponse :=
  {| errors := quota <? documents body;
     items := Some (map (fun k => answered (if k <? quota then 201%Z else 429%Z))
                        (seq 0 (documents body))) |}.

#[global] Instance collaborators : Collaborators world := {
  s3_list := fun _ _ w => (Ok Scripted.emptyPage, w);
  s3_get_jsonl := fun _ w => (Ok (staged w), w);
  s3_get_sync_log := fun _ w => (Throw "NoSuchKey", w);
  s3_get_summary := fun _ w => (Throw "NoSuchKey", w);
  s3_delete := fun _ w => (Ok tt, w);
  s3_put := fun _ _ w => (Ok tt, w);
  os_indices_exists := fun w => (Ok true, w);
  os_indices_create := fun w => (Ok tt, w);
  os_bulk := fun body w => (Ok (answer (quota w) body), w);
  os_count := fun w => (Ok 0%Z, w);
  os_search_sample := fun w => (Ok tt, w);
  os_search_duplicates := fun w => (Ok [], w);
  db_update := fun _ w => (Ok None, w);
  toISOString := fun w => ("2024-01-01T00:00:00.000Z", w);
  localeCompare := String.compare
}.

Definition tenRecords : list record := firstn 10 Samples.smallBlob.

(** A blob of ten records, of which the index confirms seven. *)
Definition sevenOfTen : world := {| staged := map Some tenRecords; quota := 7 |}.

(** The same blob, all ten records confirmed. *)
Definition tenOfTen : world := {| staged := map Some tenRecords; quota := 10 |}.

End Throttled.

(** The staging writer as the download stage of the orchestrator; the
    other stages answer success. *)
Module Plant.

#[global] Instance stages : Stages Warehouse.world := {
  downloadToS3 := detach (Download.downloadToS3 5);
  syncAll := fun _ w => (Ok (Staged.synced 0), w);
  testSync := fun w => (Ok (Staged.passed 0), w);
  markAsSynced := fun _ w => (Ok (Staged.marked 0), w);
  cleanS3 := fun w => (Ok (Staged.cleaned 0), w);
  putLog := fun _ _ w => (Ok tt, w);
  newWorkflowId := fun w => ("lr2k9x3f", w);
  newDate := fun w => (1700000000000%Z, w);
  isoNow := fun w => ("2024-01-01T00:00:00.000Z", w)
}.

End Plant.


(* ===================================================================== *)
(** ** Properties of the batch-size probe                                *)
(* ===================================================================== *)

Section ProbeFacts.
Import Sync.

Lemma slice_from_0 {A} (l : list A) (n : nat) : slice l 0 n = firstn n l.
Proof. unfold slice. rewrite Nat.sub_0_r. reflexivity. Qed.

(** Dividing by [1024 * 1024] and comparing with 2 is comparing the byte
    count with [2 * 1024 * 1024]. *)
Lemma underCeiling_spec (records : list record) (testSize : nat) :
  underCeiling records testSize = true <-> fitsCeiling (firstn testSize records).
Proof.
  unfold underCeiling, fitsCeiling, payloadSizeMB, MAX_PAYLOAD_MB, ceilingBytes.
  rewrite slice_from_0.
  generalize (Z.of_nat (payloadSize (bulkBody (firstn testSize records)))).
  intros z. rewrite Qle_bool_iff.
  unfold Qle, Qdiv, Qmult, Qinv, inject_Z. simpl. lia.
Qed.

Lemma length_append (s1 s2 : string) :
  String.length (s1 ++ s2)%string = String.length s1 + String.length s2.
Proof. induction s1 as [|c s1 IH]; simpl; [reflexivity | now rewrite IH]. Qed.

Lemma joinComma_length (parts : list string) :
  String.length (joinComma parts) = sumLengths parts + (List.length parts - 1).
Proof.
  induction parts as [|p rest IH]; [reflexivity|].
  destruct rest as [|q rest].
  - simpl. lia.
  - change (joinComma (p :: q :: rest)) with (p ++ "," ++ joinComma (q :: rest))%string.
    rewrite !length_append, IH. simpl. lia.
Qed.

Lemma stringify_JArr (elements : list json) :
  stringify (JArr elements) = ("[" ++ joinComma (map stringify elements) ++ "]")%string.
Proof. reflexivity. Qed.

Lemma stringify_JObj (members : list (string * json)) :
  stringify (JObj members) =
  ("{" ++ joinComma (map (fun kv => quote (fst kv) ++ ":" ++ stringify (snd kv)) members)
       ++ "}")%string.
Proof. reflexivity. Qed.

Lemma bulkBody_parts (batch : list record) :
  sumLengths (map stringify
    (flat_map (fun r => [actionOf r; recordToJson r]) batch)) = sumWire batch
  /\ List.length (map stringify
    (flat_map (fun r => [actionOf r; recordToJson r]) batch)) = 2 * List.length batch.
Proof.
  induction batch as [|r batch [IH1 IH2]]; [split; reflexivity|].
  split.
  - change (sumWire (r :: batch)) with (wireSize r + sumWire batch).
    cbn [flat_map app map sumLengths fold_right].
    fold (sumLengths (map stringify (flat_map (fun r => [actionOf r; recordToJson r]) batch))).
    rewrite IH1. unfold wireSize. lia.
  - cbn [flat_map app map List.length]. rewrite IH2. simpl. lia.
Qed.

(** The size of a bulk payload: brackets, the records' bytes, commas. *)
Lemma payloadSize_bulkBody (batch : list record) :
  payloadSize (bulkBody batch) = 2 + sumWire batch + (2 * List.length batch - 1).
Proof.
  unfold payloadSize, byteLength, bulkBody.
  change (fun r : record =>
            [JObj [("index", JObj [("_index", JStr INDEX_NAME);
                                   ("_id", JStr (numberToString (id r)))])];
             recordToJson r])
    with (fun r => [actionOf r; recordToJson r]).
  rewrite stringify_JArr, !length_append, joinComma_length.
  destruct (bulkBody_parts batch) as [-> ->]. simpl. lia.
Qed.

Lemma sumWire_app (b1 b2 : list record) : sumWire (b1 ++ b2) = sumWire b1 + sumWire b2.
Proof. induction b1 as [|r b1 IH]; simpl; [reflexivity | rewrite IH; lia]. Qed.

Lemma payloadSize_app (b1 b2 : list record) :
  payloadSize (bulkBody b1) <= payloadSize (bulkBody (b1 ++ b2)).
Proof.
  rewrite !payloadSize_bulkBody, sumWire_app, length_app. lia.
Qed.

Lemma payloadSize_app_lt (b1 b2 : list record) :
  b2 <> [] -> payloadSize (bulkBody b1) < payloadSize (bulkBody (b1 ++ b2)).
Proof.
  intros Hne. rewrite !payloadSize_bulkBody, sumWire_app, length_app.
  destruct b2 as [|r b2]; [congruence|]. simpl. lia.
Qed.

(** A shorter prefix of the blob fits whenever a longer one does. *)
Lemma fitsCeiling_prefix (records : list record) (j k : nat) :
  j <= k -> fitsCeiling (firstn k records) -> fitsCeiling (firstn j records).
Proof.
  unfold fitsCeiling. intros Hjk Hk.
  pose proof (payloadSize_app (firstn j (firstn k records)) (skipn j (firstn k records))) as Hle.
  rewrite firstn_skipn in Hle.
  rewrite firstn_firstn, Nat.min_l in Hle by exact Hjk. lia.
Qed.

(** What the probing loop returns: either it never advanced, or it
    stopped at the last size of an unbroken run of fitting sizes. *)
Lemma probe_spec (records : list record) (left testSize finalBatchSize : nat) :
  let B := probe records left testSize finalBatchSize in
  (B = finalBatchSize /\ (left = 0 \/ underCeiling records testSize = false))
  \/ (testSize <= B < testSize + left
      /\ (forall k, testSize <= k <= B -> underCeiling records k = true)
      /\ (S B < testSize + left -> underCeiling records (S B) = false)).
Proof.
  revert testSize finalBatchSize.
  induction left as [|left IH]; intros testSize finalBatchSize; simpl.
  - left. split; [reflexivity | now left].
  - destruct (underCeiling records testSize) eqn:Hfit.
    + right.
      destruct (IH (S testSize) testSize) as [[HB Hstop] | (Hrange & Hall & Hnext)].
      * rewrite HB. split; [lia|]. split.
        -- intros k Hk. replace k with testSize by lia. exact Hfit.
        -- intros Hlt. destruct Hstop as [-> | Hstop]; [lia | exact Hstop].
      * split; [lia|]. split.
        -- intros k Hk. destruct (Nat.eq_dec k testSize) as [-> | Hne];
             [exact Hfit | apply Hall; lia].
        -- intros Hlt. apply Hnext. lia.
    + left. split; [reflexivity | now right].
Qed.

(** The selected batch size is never below 1. *)
Lemma findBatchSize_pos (records : list record) : 1 <= findBatchSize records.
Proof.
  unfold findBatchSize.
  destruct (probe_spec records (Nat.min INITIAL_BATCH_SIZE (List.length records)) 1 1)
    as [[-> _] | [Hrange _]]; lia.
Qed.

(** When the first record alone is over the ceiling the probe stops at
    once and keeps its initial value. *)
Lemma findBatchSize_floor (records : list record) :
  ~ fitsCeiling (firstn 1 records) -> findBatchSize records = 1.
Proof.
  intros Hover. unfold findBatchSize.
  destruct (probe_spec records (Nat.min INITIAL_BATCH_SIZE (List.length records)) 1 1)
    as [[-> _] | (Hrange & Hall & _)]; [reflexivity|].
  exfalso. apply Hover. apply underCeiling_spec. apply Hall. lia.
Qed.

End ProbeFacts.

(** The sample records' sizes. *)
Lemma escapeChar_nonempty (c : ascii) : 1 <= String.length (escapeChar c).
Proof.
  unfold escapeChar.
  repeat match goal with
         | |- context [if ?b then _ else _] => destruct b
         end; simpl; lia.
Qed.

Lemma escape_length (s : string) : String.length s <= String.length (escape s).
Proof.
  induction s as [|c s IH]; simpl; [lia|].
  rewrite length_append. pose proof (escapeChar_nonempty c). lia.
Qed.

Lemma caption_le_wireSize (r : record) (s : string) :
  ad_caption r = JStr s -> String.length s <= wireSize r.
Proof.
  intros Hcap. unfold wireSize, Sync.recordToJson.
  rewrite (stringify_JObj (_ :: _)), !length_append, joinComma_length.
  cbn [map sumLengths fold_right fst snd]. rewrite !length_append, Hcap.
  change (stringify (JStr s)) with (quote s). unfold quote.
  cbn [String.length]. rewrite !length_append.
  pose proof (escape_length s). lia.
Qed.

Lemma filler_length (n : N) : String.length (Samples.filler n) = N.to_nat n.
Proof.
  unfold Samples.filler.
  apply (N.iter_ind string (String "a") EmptyString (fun n s => String.length s = N.to_nat n)).
  - reflexivity.
  - intros k s Hs. simpl. rewrite Hs. lia.
Qed.

Lemma hugeRecord_over_ceiling : ~ fitsCeiling [Samples.hugeRecord].
Proof.
  unfold fitsCeiling, ceilingBytes. rewrite payloadSize_bulkBody.
  pose proof (caption_le_wireSize Samples.hugeRecord
                (Samples.filler (2 * 1024 * 1024)) eq_refl) as Hle.
  rewrite filler_length in Hle.
  change (sumWire [Samples.hugeRecord]) with (wireSize Samples.hugeRecord + 0).
  generalize dependent (wireSize Samples.hugeRecord). intros size Hle.
  cbn [List.length]. lia.
Qed.

Lemma smallBlob_uniform :
  uniformSize (wireSize (Samples.mkRecord 100 (JStr "sale"))) Samples.smallBlob.
Proof.
  intros r Hin. unfold Samples.smallBlob in Hin. cbn [seq map] in Hin.
  repeat (destruct Hin as [<- | Hin]; [vm_compute; reflexivity |]).
  destruct Hin.
Qed.

(** C1, as worded, fails on the code.  On thirty small records of one
    size the probe stops at the cap of 25 although 26 of them are far
    under the ceiling; on a blob whose only record is over the ceiling
    the probe still selects 1, a size that does not fit. *)
Lemma probe_contract_as_worded_fails :
  ~ probeContractAsWorded Samples.smallBlob
  /\ ~ probeContractAsWorded [Samples.hugeRecord].
Proof.
  split.
  - intros (_ & _ & _ & Hnext).
    apply (Hnext (wireSize (Samples.mkRecord 100 (JStr "sale")))
                 (firstn 26 Samples.smallBlob)).
    + exact smallBlob_uniform.
    + intros r Hin. apply smallBlob_uniform.
      rewrite <- (firstn_skipn 26 Samples.smallBlob). apply in_or_app. now left.
    + vm_compute. reflexivity.
    + unfold fitsCeiling. vm_compute. discriminate.
  - intros (_ & Hfit & _).
    rewrite (findBatchSize_floor [Samples.hugeRecord]) in Hfit
      by exact hugeRecord_over_ceiling.
    exact (hugeRecord_over_ceiling Hfit).
Qed.

(** C1 (amended): for a non-empty blob the probe selects a size [B]
    with [1 <= B <= min(25, n)].  When the first record fits under the
    2 MB ceiling, the payload of the first [B] records is at or under the
    ceiling and [B] is the largest such size; when [B] is below
    [min(25, n)], the payload of the first [B+1] records is over the
    ceiling.  When the first record alone is over the ceiling, the probe
    keeps its initial value [B = 1], whose payload does not fit. *)
Theorem probe_selects_largest_fitting (records : list record) :
  records <> [] ->
  let B := Sync.findBatchSize records in
  let cap := Nat.min Sync.INITIAL_BATCH_SIZE (List.length records) in
  1 <= B <= cap
  /\ (fitsCeiling (firstn 1 records) ->
      fitsCeiling (firstn B records)
      /\ (forall k, k <= cap -> fitsCeiling (firstn k records) -> k <= B)
      /\ (B < cap -> ~ fitsCeiling (firstn (S B) records)))
  /\ (~ fitsCeiling (firstn 1 records) ->
      B = 1 /\ ~ fitsCeiling (firstn B records)).
Proof.
  intros Hne B cap.
  assert (Hcap : 1 <= cap).
  { unfold cap, Sync.INITIAL_BATCH_SIZE. destruct records; [congruence | simpl; lia]. }
  assert (Hfloor : ~ fitsCeiling (firstn 1 records) -> B = 1).
  { intros Hover. apply findBatchSize_floor. exact Hover. }
  assert (Hfits : fitsCeiling (firstn 1 records) ->
                  1 <= B <= cap
                  /\ fitsCeiling (firstn B records)
                  /\ (forall k, k <= cap -> fitsCeiling (firstn k records) -> k <= B)
                  /\ (B < cap -> ~ fitsCeiling (firstn (S B) records))).
  { intros Hfirst. subst B. unfold Sync.findBatchSize. fold cap.
    destruct (probe_spec records cap 1 1) as [[_ [Hzero | Hstop]] | (Hrange & Hall & Hnext)].
    - lia.
    - apply underCeiling_spec in Hfirst. congruence.
    - set (B := Sync.probe records cap 1 1) in *.
      split; [lia|]. split; [apply underCeiling_spec, Hall; lia|]. split.
      + intros k Hk Hfit.
        destruct (Nat.le_gt_cases k B) as [Hle | Hgt]; [exact Hle | exfalso].
        assert (Hfalse : Sync.underCeiling records (S B) = false) by (apply Hnext; lia).
        assert (Htrue : Sync.underCeiling records (S B) = true).
        { apply underCeiling_spec. apply fitsCeiling_prefix with (k := k); [lia | exact Hfit]. }
        congruence.
      + intros Hlt Hfit. apply underCeiling_spec in Hfit.
        rewrite Hnext in Hfit by lia. discriminate. }
  split.
  - destruct (underCeiling_spec records 1) as [Hyes Hno].
    destruct (Sync.underCeiling records 1) eqn:Hfirst.
    + apply Hfits. apply Hyes. reflexivity.
    + rewrite Hfloor; [lia|]. intros Hfit. apply Hno in Hfit. discriminate.
  - split.
    + intros Hfirst. apply Hfits. exact Hfirst.
    + intros Hover. split; [apply Hfloor; exact Hover|].
      rewrite (Hfloor Hover). exact Hover.
Qed.

Lemma probe_selects_largest_fitting_witness :
  Sync.findBatchSize Samples.heavyBlob = 2
  /\ Nat.min Sync.INITIAL_BATCH_SIZE (List.length Samples.heavyBlob) = 4
  /\ fitsCeiling (firstn 2 Samples.heavyBlob)
  /\ (forall k, k <= 4 -> fitsCeiling (firstn k Samples.heavyBlob) -> k <= 2)
  /\ ~ fitsCeiling (firstn 3 Samples.heavyBlob).
Proof.
  assert (HB : Sync.findBatchSize Samples.heavyBlob = 2) by (vm_compute; reflexivity).
  assert (Hfirst : fitsCeiling (firstn 1 Samples.heavyBlob)).
  { unfold fitsCeiling. vm_compute. discriminate. }
  destruct (probe_selects_largest_fitting Samples.heavyBlob ltac:(discriminate))
    as (_ & Hfits & _).
  destruct (Hfits Hfirst) as (Hfit & Hlargest & Hnext).
  rewrite HB in Hfit, Hlargest, Hnext.
  split; [exact HB|]. split; [reflexivity|]. split; [exact Hfit|].
  split; [exact Hlargest|]. apply Hnext. cbv. lia.
Defined.

(* ===================================================================== *)
(** ** Properties of the bulk indexer (02_sync.js)                       *)
(* ===================================================================== *)

Section IndexerFacts.
Context {W : Type} `{Collaborators W}.
Import Sync.

(** An item is counted when its first present action has a status in
    200..299. *)
Lemma isSuccessItem_spec (it : item) :
  isSuccessItem it = true <->
  exists a, orElse (index it) (orElse (create it) (update it)) = Some a
            /\ (200 <= status a < 300)%Z.
Proof.
  unfold isSuccessItem.
  destruct (orElse (index it) (orElse (create it) (update it))) as [a|].
  - rewrite andb_true_iff, Z.leb_le, Z.ltb_lt. split.
    + intros Hrange. exists a. split; [reflexivity | lia].
    + intros (a' & Heq & Hrange). injection Heq as <-. lia.
  - split; [discriminate | intros (a & Heq & _); discriminate].
Qed.

Lemma bulkWindow_answered (batch : list record) (n : nat) (w w1 : W) (tr : list event)
      (response : bulkResponse) :
  os_bulk (bulkBody batch) w = (Ok response, w1) ->
  bulkWindow batch n (w, tr) =
  (Ok (n + counted batch response), (w1, tr ++ [OsBulk (bulkBody batch)])).
Proof.
  intros Hbulk. unfold bulkWindow, try_catch, bind, perform, ret, counted. simpl.
  rewrite Hbulk. destruct (errors response); reflexivity.
Qed.

Lemma bulkWindow_hangs (batch : list record) (n : nat) (w w1 : W) (tr : list event) :
  os_bulk (bulkBody batch) w = (Diverge, w1) ->
  bulkWindow batch n (w, tr) = (Diverge, (w1, tr ++ [OsBulk (bulkBody batch)])).
Proof.
  intros Hbulk. unfold bulkWindow, try_catch, bind, perform, ret. simpl.
  rewrite Hbulk. reflexivity.
Qed.

Lemma bulkWindow_retry_answered (batch : list record) (n : nat) (w w1 w2 : W)
      (tr : list event) (message : string) (response : bulkResponse) :
  os_bulk (bulkBody batch) w = (Throw message, w1) ->
  os_bulk (bulkBody batch) w1 = (Ok response, w2) ->
  bulkWindow batch n (w, tr) =
  (Ok (n + counted batch response),
   (w2, tr ++ [OsBulk (bulkBody batch); Sleep 2000; OsBulk (bulkBody batch)])).
Proof.
  intros Hbulk Hretry. unfold bulkWindow, try_catch, bind, perform, note, ret, counted.
  simpl. rewrite Hbulk. simpl. rewrite Hretry. rewrite <- !app_assoc. simpl.
  destruct (errors response); reflexivity.
Qed.

Lemma bulkWindow_retry_rejected (batch : list record) (n : nat) (w w1 w2 : W)
      (tr : list event) (message message' : string) :
  os_bulk (bulkBody batch) w = (Throw message, w1) ->
  os_bulk (bulkBody batch) w1 = (Throw message', w2) ->
  bulkWindow batch n (w, tr) =
  (Ok n, (w2, tr ++ [OsBulk (bulkBody batch); Sleep 2000; OsBulk (bulkBody batch)])).
Proof.
  intros Hbulk Hretry. unfold bulkWindow, try_catch, bind, perform, note, ret.
  simpl. rewrite Hbulk. simpl. rewrite Hretry. rewrite <- !app_assoc. reflexivity.
Qed.

Lemma bulkWindow_retry_hangs (batch : list record) (n : nat) (w w1 w2 : W)
      (tr : list event) (message : string) :
  os_bulk (bulkBody batch) w = (Throw message, w1) ->
  os_bulk (bulkBody batch) w1 = (Diverge, w2) ->
  bulkWindow batch n (w, tr) =
  (Diverge, (w2, tr ++ [OsBulk (bulkBody batch); Sleep 2000; OsBulk (bulkBody batch)])).
Proof.
  intros Hbulk Hretry. unfold bulkWindow, try_catch, bind, perform, note, ret.
  simpl. rewrite Hbulk. simpl. rewrite Hretry. rewrite <- !app_assoc. reflexivity.
Qed.

Lemma counted_le (batch : list record) (response : bulkResponse) :
  List.length (match items response with Some l => l | None => [] end) <= List.length batch ->
  counted batch response <= List.length batch.
Proof.
  intros Hle. unfold counted, successItems. destruct (errors response); [|lia].
  eapply Nat.le_trans; [apply filter_length_le | exact Hle].
Qed.

(** One window: the trace grows by the request (and on a throw by the
    pause and the retry), the window never throws, and the count never
    goes down. *)
Lemma bulkWindow_shape (batch : list record) (n : nat) (st : state (W := W) (E := event)) :
  exists post,
    snd (snd (bulkWindow batch n st)) = snd st ++ OsBulk (bulkBody batch) :: post
    /\ Forall indexingEvent post
    /\ (fst (bulkWindow batch n st) = Diverge
        \/ exists n', fst (bulkWindow batch n st) = Ok n'
                      /\ n <= n'
                      /\ (oneItemPerRecord -> n' <= n + List.length batch)).
Proof.
  destruct st as [w tr].
  destruct (os_bulk (bulkBody batch) w) as [[response | message |] w1] eqn:Hbulk.
  - rewrite (bulkWindow_answered _ _ _ _ _ _ Hbulk). exists []. simpl.
    split; [reflexivity|]. split; [constructor|]. right.
    exists (n + counted batch response). split; [reflexivity|]. split; [lia|].
    intros Hone. pose proof (counted_le batch response (Hone _ _ _ _ Hbulk)). lia.
  - destruct (os_bulk (bulkBody batch) w1) as [[response | message' |] w2] eqn:Hretry.
    + rewrite (bulkWindow_retry_answered _ _ _ _ _ _ _ _ Hbulk Hretry).
      exists [Sleep 2000; OsBulk (bulkBody batch)]. simpl.
      split; [reflexivity|]. split; [repeat constructor|]. right.
      exists (n + counted batch response). split; [reflexivity|]. split; [lia|].
      intros Hone. pose proof (counted_le batch response (Hone _ _ _ _ Hretry)). lia.
    + rewrite (bulkWindow_retry_rejected _ _ _ _ _ _ _ _ Hbulk Hretry).
      exists [Sleep 2000; OsBulk (bulkBody batch)]. simpl.
      split; [reflexivity|]. split; [repeat constructor|]. right.
      exists n. split; [reflexivity|]. split; lia.
    + rewrite (bulkWindow_retry_hangs _ _ _ _ _ _ _ Hbulk Hretry).
      exists [Sleep 2000; OsBulk (bulkBody batch)]. simpl.
      split; [reflexivity|]. split; [repeat constructor|]. now left.
  - rewrite (bulkWindow_hangs _ _ _ _ _ Hbulk). exists []. simpl.
    split; [reflexivity|]. split; [constructor|]. now left.
Qed.

Lemma slice_length {A} (l : list A) (i j : nat) :
  List.length (slice l i j) = Nat.min (j - i) (List.length l - i).
Proof. unfold slice. rewrite length_firstn, length_skipn. reflexivity. Qed.

(** One turn of the loop. *)
Lemma processBatches_step (fuel : nat) (records : list record) (B i n : nat)
      (st : state (W := W) (E := event)) :
  i < List.length records ->
  processBatches (S fuel) records B i n st =
  match bulkWindow (slice records i (i + B)) n st with
  | (Ok n', st') => processBatches fuel records B (i + B) n' st'
  | (Throw message, st') => (Throw message, st')
  | (Diverge, st') => (Diverge, st')
  end.
Proof.
  intros Hlt. cbn [processBatches].
  destruct (Nat.ltb_spec i (List.length records)) as [_ | Hge]; [|lia].
  unfold bind. destruct (bulkWindow (slice records i (i + B)) n st) as [[n' | m |] st'];
    reflexivity.
Qed.

Lemma processBatches_done (fuel : nat) (records : list record) (B i n : nat)
      (st : state (W := W) (E := event)) :
  List.length records <= i ->
  processBatches fuel records B i n st = (Ok n, st).
Proof.
  intros Hge. destruct fuel; cbn [processBatches];
    destruct (Nat.ltb_spec i (List.length records)); try lia; reflexivity.
Qed.

(** The whole loop: it only sends indexing requests, never throws, and
    under the bulk contract confirms at most as many records as the blob
    holds. *)
Lemma processBatches_shape (fuel : nat) (records : list record) (B i n : nat)
      (st : state (W := W) (E := event)) :
  exists post,
    snd (snd (processBatches fuel records B i n st)) = snd st ++ post
    /\ Forall indexingEvent post
    /\ (forall message, fst (processBatches fuel records B i n st) <> Throw message)
    /\ (forall n',
          fst (processBatches fuel records B i n st) = Ok n' ->
          n <= n'
          /\ (oneItemPerRecord -> n <= Nat.min i (List.length records) ->
              n' <= List.length records)).
Proof.
  revert i n st. induction fuel as [|fuel IH]; intros i n st.
  - cbn [processBatches]. destruct (Nat.ltb_spec i (List.length records)) as [Hlt | Hge].
    + exists []. rewrite app_nil_r. repeat split; try constructor; simpl; try discriminate.
    + exists []. rewrite app_nil_r. repeat split; try constructor; simpl; try discriminate;
        injection H0 as <-; lia.
  - destruct (Nat.lt_ge_cases i (List.length records)) as [Hlt | Hge].
    + rewrite (processBatches_step _ _ _ _ _ _ Hlt).
      destruct (bulkWindow_shape (slice records i (i + B)) n st)
        as (post1 & Htr1 & Hev1 & Hres1).
      destruct (bulkWindow (slice records i (i + B)) n st) as [[n1 | m |] st1] eqn:Hwin;
        simpl in Htr1, Hres1.
      * destruct Hres1 as [Hdiv | (n1' & Heq & Hle & Hbound)]; [discriminate|].
        injection Heq as <-.
        destruct (IH (i + B) n1 st1) as (post2 & Htr2 & Hev2 & Hnothrow & Hres2).
        exists ((OsBulk (bulkBody (slice records i (i + B))) :: post1) ++ post2).
        split; [rewrite Htr2, Htr1, app_assoc; reflexivity|].
        split; [apply Forall_app; split; [constructor; [exact I | exact Hev1] | exact Hev2]|].
        split; [exact Hnothrow|].
        intros n' Hn'. destruct (Hres2 n' Hn') as [Hle' Hbound'].
        split; [lia|]. intros Hone Hinv. apply Hbound'; [exact Hone|].
        specialize (Hbound Hone). rewrite slice_length in Hbound. lia.
      * destruct Hres1 as [Hdiv | (n1' & Heq & _)]; discriminate.
      * exists (OsBulk (bulkBody (slice records i (i + B))) :: post1).
        split; [exact Htr1|]. split; [constructor; [exact I | exact Hev1]|].
        split; simpl; intros; discriminate.
    + rewrite (processBatches_done _ _ _ _ _ _ Hge).
      exists []. rewrite app_nil_r. repeat split; try constructor; simpl; try discriminate;
        injection H0 as <-; lia.
Qed.

(** With a batch size of at least 1 the loop ends within
    [records.length] turns: it returns unless a request never settles. *)
Lemma processBatches_returns (fuel : nat) (records : list record) (B i n : nat)
      (st : state (W := W) (E := event)) :
  bulkSettles -> 1 <= B -> List.length records - i <= fuel ->
  exists n' st', processBatches fuel records B i n st = (Ok n', st').
Proof.
  intros Hsettles HB. revert i n st.
  induction fuel as [|fuel IH]; intros i n st Hfuel.
  - rewrite processBatches_done by lia. eauto.
  - destruct (Nat.lt_ge_cases i (List.length records)) as [Hlt | Hge].
    + rewrite (processBatches_step _ _ _ _ _ _ Hlt). destruct st as [w tr].
      set (batch := slice records i (i + B)).
      destruct (os_bulk (bulkBody batch) w) as [[response | message |] w1] eqn:Hbulk.
      * rewrite (bulkWindow_answered _ _ _ _ _ _ Hbulk). apply IH. lia.
      * destruct (os_bulk (bulkBody batch) w1) as [[response | message' |] w2] eqn:Hretry.
        -- rewrite (bulkWindow_retry_answered _ _ _ _ _ _ _ _ Hbulk Hretry). apply IH. lia.
        -- rewrite (bulkWindow_retry_rejected _ _ _ _ _ _ _ _ Hbulk Hretry). apply IH. lia.
        -- exfalso. apply (Hsettles (bulkBody batch) w1). rewrite Hretry. reflexivity.
      * exfalso. apply (Hsettles (bulkBody batch) w). rewrite Hbulk. reflexivity.
    + rewrite processBatches_done by lia. eauto.
Qed.

(** [dynamicMicroBatch] returns whenever the bulk requests settle. *)
Lemma dynamicMicroBatch_returns (records : list record) (st : state (W := W) (E := event)) :
  bulkSettles -> exists n st', dynamicMicroBatch records st = (Ok n, st').
Proof.
  intros Hsettles. unfold dynamicMicroBatch.
  apply processBatches_returns; [exact Hsettles | apply findBatchSize_pos | lia].
Qed.

End IndexerFacts.

(** C6: when the bulk request of a window throws, the same body is sent
    once more after the 2000 ms pause and never a third time; a retry
    that answers with [errors] set adds only its items whose status is in
    200..299; a retry that throws adds nothing; and in each of these
    cases the loop goes on with the next window. *)
Theorem failed_window_retried_once {W : Type} `{Collaborators W}
        (batch : list record) (syncedCount : nat) (w w1 : W) (tr : list event)
        (message : string) :
  os_bulk (Sync.bulkBody batch) w = (Throw message, w1) ->
  let body := Sync.bulkBody batch in
  snd (snd (Sync.bulkWindow batch syncedCount (w, tr)))
  = tr ++ [OsBulk body; Sleep 2000; OsBulk body]
  /\ (forall retryResponse w2,
        os_bulk body w1 = (Ok retryResponse, w2) ->
        errors retryResponse = true ->
        fst (Sync.bulkWindow batch syncedCount (w, tr))
        = Ok (syncedCount
              + List.length (filter Sync.isSuccessItem
                               (match items retryResponse with Some l => l | None => [] end))))
  /\ (forall it, Sync.isSuccessItem it = true <->
                 exists a, orElse (index it) (orElse (create it) (update it)) = Some a
                           /\ (200 <= status a < 300)%Z)
  /\ (forall message' w2,
        os_bulk body w1 = (Throw message', w2) ->
        fst (Sync.bulkWindow batch syncedCount (w, tr)) = Ok syncedCount)
  /\ (forall fuel records finalBatchSize i syncedCount' st',
        i < List.length records ->
        slice records i (i + finalBatchSize) = batch ->
        Sync.bulkWindow batch syncedCount (w, tr) = (Ok syncedCount', st') ->
        Sync.processBatches (S fuel) records finalBatchSize i syncedCount (w, tr)
        = Sync.processBatches fuel records finalBatchSize (i + finalBatchSize)
                              syncedCount' st').
Proof.
  intros Hbulk body. subst body.
  split; [|split; [|split; [|split]]].
  - destruct (os_bulk (Sync.bulkBody batch) w1) as [[response | message' |] w2] eqn:Hretry.
    + rewrite (bulkWindow_retry_answered _ _ _ _ _ _ _ _ Hbulk Hretry). reflexivity.
    + rewrite (bulkWindow_retry_rejected _ _ _ _ _ _ _ _ Hbulk Hretry). reflexivity.
    + rewrite (bulkWindow_retry_hangs _ _ _ _ _ _ _ Hbulk Hretry). reflexivity.
  - intros retryResponse w2 Hretry Herrors.
    rewrite (bulkWindow_retry_answered _ _ _ _ _ _ _ _ Hbulk Hretry).
    unfold counted, Sync.successItems. rewrite Herrors. reflexivity.
  - exact isSuccessItem_spec.
  - intros message' w2 Hretry.
    rewrite (bulkWindow_retry_rejected _ _ _ _ _ _ _ _ Hbulk Hretry). reflexivity.
  - intros fuel records finalBatchSize i syncedCount' st' Hlt Hslice Hwin.
    rewrite (processBatches_step _ _ _ _ _ _ Hlt), Hslice, Hwin. reflexivity.
Qed.

Lemma failed_window_retried_once_witness :
  os_bulk (Sync.bulkBody Scripted.twoRecords) Scripted.retryPartial
  = (Throw "socket hang up",
     snd (os_bulk (Sync.bulkBody Scripted.twoRecords) Scripted.retryPartial))
  /\ snd (snd (Sync.bulkWindow Scripted.twoRecords 0 (Scripted.retryPartial, [])))
     = [OsBulk (Sync.bulkBody Scripted.twoRecords); Sleep 2000;
        OsBulk (Sync.bulkBody Scripted.twoRecords)]
  /\ fst (Sync.bulkWindow Scripted.twoRecords 0 (Scripted.retryPartial, [])) = Ok 1.
Proof.
  assert (Hthrow : os_bulk (Sync.bulkBody Scripted.twoRecords) Scripted.retryPartial
                   = (Throw "socket hang up",
                      snd (os_bulk (Sync.bulkBody Scripted.twoRecords) Scripted.retryPartial)))
    by reflexivity.
  split; [exact Hthrow|].
  destruct (failed_window_retried_once Scripted.twoRecords 0 _ _ [] _ Hthrow)
    as (Htrace & Hpartial & _).
  split; [exact Htrace|].
  refine (Hpartial {| errors := true; items := Some [Scripted.created; Scripted.rejected] |}
                   (snd (os_bulk (Sync.bulkBody Scripted.twoRecords)
                           (snd (os_bulk (Sync.bulkBody Scripted.twoRecords)
                                         Scripted.retryPartial))))
                   _ eq_refl).
  reflexivity.
Defined.

(** C9: on a non-empty blob the selected batch size is at least 1; when
    the first record alone serializes over the 2 MB ceiling the selected
    size is 1 and the first bulk request sent carries that record alone,
    a payload over the ceiling. *)
Theorem batch_size_floor_sends_oversized_record {W : Type} `{Collaborators W}
        (r0 : record) (rest : list record) :
  1 <= Sync.findBatchSize (r0 :: rest)
  /\ (~ fitsCeiling [r0] ->
      Sync.findBatchSize (r0 :: rest) = 1
      /\ (ceilingBytes < Z.of_nat (Sync.payloadSize (Sync.bulkBody [r0])))%Z
      /\ forall (w : W) (tr : list event),
           exists post,
             snd (snd (Sync.dynamicMicroBatch (r0 :: rest) (w, tr)))
             = tr ++ OsBulk (Sync.bulkBody [r0]) :: post).
Proof.
  split; [apply findBatchSize_pos|].
  intros Hover.
  assert (Hone : Sync.findBatchSize (r0 :: rest) = 1)
    by (apply findBatchSize_floor; exact Hover).
  split; [exact Hone|]. split; [unfold fitsCeiling in Hover; lia|].
  intros w tr. unfold Sync.dynamicMicroBatch. rewrite Hone.
  cbn [List.length]. rewrite processBatches_step by (simpl; lia).
  change (slice (r0 :: rest) 0 (0 + 1)) with [r0].
  destruct (bulkWindow_shape [r0] 0 (w, tr)) as (post1 & Htr1 & _ & _).
  destruct (Sync.bulkWindow [r0] 0 (w, tr)) as [[n1 | m |] st1]; simpl in Htr1.
  - destruct (processBatches_shape (List.length rest) (r0 :: rest) 1 (0 + 1) n1 st1)
      as (post2 & Htr2 & _).
    exists (post1 ++ post2). rewrite Htr2, Htr1, <- app_assoc. reflexivity.
  - exists post1. exact Htr1.
  - exists post1. exact Htr1.
Qed.

Lemma batch_size_floor_sends_oversized_record_witness :
  ~ fitsCeiling [Samples.hugeRecord]
  /\ Sync.findBatchSize [Samples.hugeRecord] = 1.
Proof.
  split; [exact hugeRecord_over_ceiling|].
  exact (proj1 (proj2 (batch_size_floor_sends_oversized_record
                         (W := Scripted.world) Samples.hugeRecord [])
                      hugeRecord_over_ceiling)).
Defined.

(* ===================================================================== *)
(** ** Properties of [syncFile] and [syncAll]                            *)
(* ===================================================================== *)

Section SyncFileFacts.
Context {W : Type} `{Collaborators W}.
Import Sync.

Lemma try_catch_ret_never_throws {A} (m : M (W := W) (E := event) A)
      (recover : string -> A) (st : state) (message : string) :
  fst (try_catch m (fun e => ret (recover e)) st) <> Throw message.
Proof.
  unfold try_catch, ret. destruct (m st) as [[a | e |] st']; simpl; discriminate.
Qed.

Lemma ensureIndex_shape (st : state (W := W) (E := event)) :
  exists post,
    snd (snd (ensureIndex st)) = snd st ++ post
    /\ Forall indexingEvent post
    /\ (fst (ensureIndex st) = Ok tt \/ fst (ensureIndex st) = Diverge).
Proof.
  destruct st as [w tr]. unfold ensureIndex, try_catch, bind, perform, ret. simpl.
  destruct (os_indices_exists w) as [[[] | m |] w1]; simpl.
  - exists [OsIndicesExists]. repeat split; [repeat constructor | now left].
  - destruct (os_indices_create w1) as [[[] | m |] w2]; simpl;
      exists [OsIndicesExists; OsIndicesCreate]; rewrite <- app_assoc;
      (repeat split; [repeat constructor | (now left) || (now right)]).
  - exists [OsIndicesExists]. repeat split; [repeat constructor | now left].
  - exists [OsIndicesExists]. repeat split; [repeat constructor | now right].
Qed.

Lemma dynamicMicroBatch_shape (records : list record) (st : state (W := W) (E := event)) :
  exists post,
    snd (snd (dynamicMicroBatch records st)) = snd st ++ post
    /\ Forall indexingEvent post
    /\ (forall message, fst (dynamicMicroBatch records st) <> Throw message)
    /\ (forall n, fst (dynamicMicroBatch records st) = Ok n ->
                  oneItemPerRecord -> n <= List.length records).
Proof.
  unfold dynamicMicroBatch.
  destruct (processBatches_shape (List.length records) records (findBatchSize records) 0 0 st)
    as (post & Htr & Hev & Hnothrow & Hres).
  exists post. repeat split; try assumption.
  intros n Hn Hone. apply (Hres n Hn); [exact Hone | lia].
Qed.

(** A blob that cannot be read. *)
Lemma syncFile_unreadable (filename : string) (w : W) {w1 : W} (tr : list event)
      {message : string} :
  s3_get_jsonl filename w = (Throw message, w1) ->
  syncFile filename (w, tr) = (Ok (fileFailed message), (w1, tr ++ [S3Get filename])).
Proof.
  intros Hget. unfold syncFile, try_catch, bind, perform, ret. cbn [fst snd].
  rewrite Hget. reflexivity.
Qed.

(** A blob holding a line that is not JSON (or no line at all). *)
Lemma syncFile_unparseable (filename : string) (w : W) {w1 : W} (tr : list event)
      {lines : list (option record)} :
  s3_get_jsonl filename w = (Ok lines, w1) ->
  lines = [] \/ parseLines lines = None ->
  exists message,
    syncFile filename (w, tr) = (Ok (fileFailed message), (w1, tr ++ [S3Get filename])).
Proof.
  intros Hget Hbad. unfold syncFile, parseJsonl; unfold try_catch, bind, perform, ret, throw; cbn [fst snd].
  rewrite Hget. destruct lines as [|line lines].
  - eexists. reflexivity.
  - destruct Hbad as [Hnil | Hnone]; [discriminate|]. rewrite Hnone. eexists. reflexivity.
Qed.

(** A blob that was read, parsed and indexed with [syncedCount] records
    confirmed: the delete is requested exactly when the count reaches
    the number of records. *)
Lemma syncFile_indexed (filename : string) (w : W) {w1 : W} (tr : list event)
      {lines : list (option record)} {records : list record} {syncedCount : nat}
      {st2 : state (W := W) (E := event)} :
  s3_get_jsonl filename w = (Ok lines, w1) ->
  lines <> [] ->
  parseLines lines = Some records ->
  (ensureIndex ;;; dynamicMicroBatch records) (w1, tr ++ [S3Get filename])
  = (Ok syncedCount, st2) ->
  syncFile filename (w, tr) =
  if List.length records <=? syncedCount then
    match s3_delete filename (fst st2) with
    | (Ok _, w3) => (Ok (fileSynced syncedCount records), (w3, snd st2 ++ [S3Delete filename]))
    | (Throw message, w3) => (Ok (fileFailed message), (w3, snd st2 ++ [S3Delete filename]))
    | (Diverge, w3) => (Diverge, (w3, snd st2 ++ [S3Delete filename]))
    end
  else (Ok (fileSynced syncedCount records), st2).
Proof.
  intros Hget Hne Hparse Hindexed.
  unfold syncFile, parseJsonl in *; unfold try_catch, bind, perform, ret, throw in *;
    cbn [fst snd] in *.
  rewrite Hget. destruct lines as [|line lines]; [congruence|]. rewrite Hparse.
  destruct (ensureIndex (w1, tr ++ [S3Get filename])) as [[[] | m |] st1];
    try discriminate.
  rewrite Hindexed.
  destruct (List.length records <=? syncedCount); [|reflexivity].
  destruct (s3_delete filename (fst st2)) as [[[] | m |] w3]; reflexivity.
Qed.

(** [syncFile] returns one of its two result shapes, or does not return. *)
Lemma syncFile_cases (filename : string) (st : state (W := W) (E := event)) :
  fst (syncFile filename st) = Diverge
  \/ (exists n ids, fst (syncFile filename st)
                    = Ok {| FileResult.success := true; FileResult.error := None;
                            FileResult.syncedRecords := n; FileResult.syncedIds := ids |})
  \/ (exists message, fst (syncFile filename st) = Ok (fileFailed message)).
Proof.
  destruct st as [w tr].
  destruct (s3_get_jsonl filename w) as [[lines | message |] w1] eqn:Hget.
  - destruct lines as [|line lines'] eqn:Hlines.
    + destruct (syncFile_unparseable filename w tr Hget (or_introl eq_refl)) as [m ->].
      right. right. exists m. reflexivity.
    + destruct (parseLines (line :: lines')) as [records|] eqn:Hparse.
      * destruct ((ensureIndex ;;; dynamicMicroBatch records) (w1, tr ++ [S3Get filename]))
          as [[n | m |] st2] eqn:Hindexed.
        -- rewrite (syncFile_indexed filename w tr Hget ltac:(discriminate) Hparse Hindexed).
           destruct (List.length records <=? n);
             [|right; left; exists n, (map id records); reflexivity].
           destruct (s3_delete filename (fst st2)) as [[[] | m |] w3]; simpl;
             [right; left; exists n, (map id records); reflexivity
             | right; right; exists m; reflexivity
             | now left].
        -- right. right. exists m.
           unfold syncFile, parseJsonl in *; unfold try_catch, bind, perform, ret, throw in *;
    cbn [fst snd] in *.
           rewrite Hget, Hparse.
           destruct (ensureIndex (w1, tr ++ [S3Get filename])) as [[[] | m' |] st1];
             [rewrite Hindexed; reflexivity | | discriminate].
           injection Hindexed as -> ->. reflexivity.
        -- left.
           unfold syncFile, parseJsonl in *; unfold try_catch, bind, perform, ret, throw in *;
    cbn [fst snd] in *.
           rewrite Hget, Hparse.
           destruct (ensureIndex (w1, tr ++ [S3Get filename])) as [[[] | m' |] st1];
             [rewrite Hindexed; reflexivity | discriminate | reflexivity].
      * destruct (syncFile_unparseable filename w tr Hget (or_intror Hparse)) as [m ->].
        right. right. exists m. reflexivity.
  - rewrite (syncFile_unreadable filename w tr Hget). right. right.
    exists message. reflexivity.
  - left. unfold syncFile, try_catch, bind, perform, ret. cbn [fst snd]. rewrite Hget. reflexivity.
Qed.

End SyncFileFacts.

Section SyncAllFacts.
Context {W : Type} `{Collaborators W}.
Import Sync.

Lemma indexing_shape (records : list record) (st : state (W := W) (E := event)) :
  exists post,
    snd (snd (indexing records st)) = snd st ++ post
    /\ Forall indexingEvent post
    /\ (forall message, fst (indexing records st) <> Throw message)
    /\ (forall n, fst (indexing records st) = Ok n ->
                  oneItemPerRecord -> n <= List.length records).
Proof.
  unfold indexing, bind.
  destruct (ensureIndex_shape st) as (postE & HtrE & HevE & HresE).
  destruct (ensureIndex st) as [[[] | m |] st1]; simpl in HtrE, HresE.
  - destruct (dynamicMicroBatch_shape records st1) as (postB & HtrB & HevB & Hnothrow & Hbound).
    exists (postE ++ postB). rewrite HtrB, HtrE, app_assoc.
    split; [reflexivity|]. split; [apply Forall_app; now split|]. now split.
  - destruct HresE; discriminate.
  - exists postE. split; [exact HtrE|]. split; [exact HevE|].
    split; simpl; intros; discriminate.
Qed.

Lemma syncFile_indexing_hangs (filename : string) (w : W) {w1 : W} (tr : list event)
      {lines : list (option record)} {records : list record}
      {st2 : state (W := W) (E := event)} :
  s3_get_jsonl filename w = (Ok lines, w1) ->
  lines <> [] ->
  parseLines lines = Some records ->
  indexing records (w1, tr ++ [S3Get filename]) = (Diverge, st2) ->
  syncFile filename (w, tr) = (Diverge, st2).
Proof.
  intros Hget Hne Hparse Hindexed.
  unfold indexing, syncFile, parseJsonl in *; unfold try_catch, bind, perform, ret, throw in *;
    cbn [fst snd] in *.
  rewrite Hget. destruct lines as [|line lines]; [congruence|]. rewrite Hparse.
  destruct (ensureIndex (w1, tr ++ [S3Get filename])) as [[[] | m |] st1];
    [rewrite Hindexed; reflexivity | discriminate | congruence].
Qed.





End SyncAllFacts.
(** The delete guard of [syncFile] as coded: for a staged blob that was
    read, parsed and indexed with [syncedCount] records confirmed, the
    delete of the blob is requested if and only if [syncedCount] is at
    least the blob's record count. *)
Lemma syncFile_delete_guard {W : Type} `{Collaborators W}
      (filename : string) (w w1 : W) (tr : list event)
      (lines : list (option record)) (records : list record) (syncedCount : nat)
      (st2 : state (W := W) (E := event)) :
  s3_get_jsonl filename w = (Ok lines, w1) ->
  lines <> [] ->
  Sync.parseLines lines = Some records ->
  (Sync.ensureIndex ;;; Sync.dynamicMicroBatch records) (w1, tr ++ [S3Get filename])
  = (Ok syncedCount, st2) ->
  exists post,
    snd (snd (Sync.syncFile filename (w, tr))) = tr ++ post
    /\ (In (S3Delete filename) post <-> List.length records <= syncedCount)
    /\ (oneItemPerRecord (W := W) -> syncedCount <= List.length records).
Proof.
  intros Hget Hne Hparse Hindexed.
  destruct (indexing_shape records (w1, tr ++ [S3Get filename]))
    as (postI & HtrI & HevI & _ & Hbound).
  unfold indexing in HtrI, Hbound. rewrite Hindexed in HtrI, Hbound. cbn [fst snd] in HtrI.
  assert (Hnodelete : ~ In (S3Delete filename) (S3Get filename :: postI)).
  { intros [Heq | Hin]; [discriminate|].
    rewrite Forall_forall in HevI. exact (HevI _ Hin). }
  rewrite (syncFile_indexed filename w tr Hget Hne Hparse Hindexed).
  destruct (Nat.leb_spec (List.length records) syncedCount) as [Hle | Hlt].
  - exists (S3Get filename :: postI ++ [S3Delete filename]).
    assert (Hin : In (S3Delete filename) (S3Get filename :: postI ++ [S3Delete filename])).
    { right. apply in_or_app. right. now left. }
    split.
    + destruct (s3_delete filename (fst st2)) as [[[] | m |] w3]; cbn [fst snd];
        rewrite HtrI, <- !app_assoc; reflexivity.
    + split; [tauto|]. intros Hone. exact (Hbound syncedCount eq_refl Hone).
  - exists (S3Get filename :: postI). cbn [fst snd].
    split; [rewrite HtrI, <- app_assoc; reflexivity|].
    split; [split; [tauto | lia]|]. intros _. lia.
Qed.

(** The throttled index lists one item per document sent. *)
Lemma bulkBody_documents (batch : list record) :
  Throttled.documents (Sync.bulkBody batch) = List.length batch.
Proof.
  unfold Throttled.documents, Sync.bulkBody.
  induction batch as [|r batch IH]; [reflexivity|].
  cbn [flat_map app List.length Nat.div2]. now rewrite IH.
Qed.

Lemma throttled_one_item_per_record : oneItemPerRecord (W := Throttled.world).
Proof.
  intros batch w response w' Hbulk. cbn in Hbulk. injection Hbulk as <- _.
  cbn [items Throttled.answer]. rewrite length_map, length_seq, bulkBody_documents. lia.
Qed.

(** C2: the delete guard of [syncFile].  When every bulk answer lists
    at most one item per record sent (the contract of the bulk API), the
    count of records confirmed for a staged blob that was read, parsed
    and indexed never exceeds the blob's record count, and the delete of
    the blob is requested if and only if the count equals the record
    count; a blob with an unconfirmed record is retained. *)
Theorem blob_deleted_iff_all_records_confirmed {W : Type} `{Collaborators W}
        (filename : string) (w w1 : W) (tr : list event)
        (lines : list (option record)) (records : list record) (syncedCount : nat)
        (st2 : state (W := W) (E := event)) :
  oneItemPerRecord (W := W) ->
  s3_get_jsonl filename w = (Ok lines, w1) ->
  lines <> [] ->
  Sync.parseLines lines = Some records ->
  (Sync.ensureIndex ;;; Sync.dynamicMicroBatch records) (w1, tr ++ [S3Get filename])
  = (Ok syncedCount, st2) ->
  syncedCount <= List.length records
  /\ exists post,
       snd (snd (Sync.syncFile filename (w, tr))) = tr ++ post
       /\ (In (S3Delete filename) post <-> syncedCount = List.length records)
       /\ (syncedCount < List.length records -> ~ In (S3Delete filename) post).
Proof.
  intros Hone Hget Hne Hparse Hindexed.
  destruct (syncFile_delete_guard filename w w1 tr lines records syncedCount st2
              Hget Hne Hparse Hindexed) as (post & Htrace & Hguard & Hbound).
  specialize (Hbound Hone).
  split; [exact Hbound|].
  exists post. split; [exact Htrace|]. split.
  - split.
    + intros Hin. apply Hguard in Hin. lia.
    + intros Heq. apply Hguard. lia.
  - intros Hlt Hin. apply Hguard in Hin. lia.
Qed.

Lemma blob_deleted_iff_all_records_confirmed_witness :
  List.length Throttled.tenRecords = 10
  /\ fst ((Sync.ensureIndex ;;; Sync.dynamicMicroBatch Throttled.tenRecords)
            (Throttled.sevenOfTen, [S3Get "unsynced_0001.jsonl"]))
     = Ok 7
  /\ (exists post,
         snd (snd (Sync.syncFile "unsynced_0001.jsonl" (Throttled.sevenOfTen, [])))
         = [] ++ post
         /\ ~ In (S3Delete "unsynced_0001.jsonl") post)
  /\ fst ((Sync.ensureIndex ;;; Sync.dynamicMicroBatch Throttled.tenRecords)
            (Throttled.tenOfTen, [S3Get "unsynced_0001.jsonl"]))
     = Ok 10
  /\ (exists post,
         snd (snd (Sync.syncFile "unsynced_0001.jsonl" (Throttled.tenOfTen, [])))
         = [] ++ post
         /\ In (S3Delete "unsynced_0001.jsonl") post).
Proof.
  assert (Hparse : Sync.parseLines (map Some Throttled.tenRecords)
                   = Some Throttled.tenRecords)
    by reflexivity.
  assert (Hseven :
            (Sync.ensureIndex ;;; Sync.dynamicMicroBatch Throttled.tenRecords)
              (Throttled.sevenOfTen, [] ++ [S3Get "unsynced_0001.jsonl"])
            = (Ok 7, snd ((Sync.ensureIndex ;;; Sync.dynamicMicroBatch Throttled.tenRecords)
                            (Throttled.sevenOfTen, [S3Get "unsynced_0001.jsonl"]))))
    by (vm_compute; reflexivity).
  assert (Hten :
            (Sync.ensureIndex ;;; Sync.dynamicMicroBatch Throttled.tenRecords)
              (Throttled.tenOfTen, [] ++ [S3Get "unsynced_0001.jsonl"])
            = (Ok 10, snd ((Sync.ensureIndex ;;; Sync.dynamicMicroBatch Throttled.tenRecords)
                             (Throttled.tenOfTen, [S3Get "unsynced_0001.jsonl"]))))
    by (vm_compute; reflexivity).
  split; [reflexivity|]. split; [vm_compute; reflexivity|]. split.
  { destruct (blob_deleted_iff_all_records_confirmed
                "unsynced_0001.jsonl" Throttled.sevenOfTen Throttled.sevenOfTen []
                (map Some Throttled.tenRecords) Throttled.tenRecords 7 _
                throttled_one_item_per_record eq_refl ltac:(discriminate) Hparse Hseven)
      as (_ & post & Htrace & _ & Hkept).
    exists post. split; [exact Htrace|]. apply Hkept. cbv. lia. }
  split; [vm_compute; reflexivity|].
  destruct (blob_deleted_iff_all_records_confirmed
              "unsynced_0001.jsonl" Throttled.tenOfTen Throttled.tenOfTen []
              (map Some Throttled.tenRecords) Throttled.tenRecords 10 _
              throttled_one_item_per_record eq_refl ltac:(discriminate) Hparse Hten)
    as (_ & post & Htrace & Hiff & _).
  exists post. split; [exact Htrace|]. apply Hiff. reflexivity.
Defined.

Lemma prefix_append (s t : string) : prefix s (s ++ t) = true.
Proof.
  induction s as [|a s IH]; simpl; [destruct t; reflexivity|].
  destruct (ascii_dec a a); [exact IH | congruence].
Qed.



(* ===================================================================== *)
(** ** Properties of the reconciler (03_test.js)                         *)
(* ===================================================================== *)

(** With the destination count [count], no duplicated identifier and a
    latest manifest that parses, [testSync] returns the comparison of the
    manifest's [totalRecords] with the count. *)
Lemma testSync_compares_counts {W : Type} `{Collaborators W}
      (w w1 w2 w3 w4 w5 : W) (tr : list event) (count : Z) (totalRecords : number)
      (buckets : list Z) (page : ListObjectsV2Output)
      (files others : list S3Object) (latest : S3Object) (summary : downloadSummary) :
  os_count w = (Ok count, w1) ->
  os_search_sample w1 = (Ok tt, w2) ->
  os_search_duplicates w2 = (Ok buckets, w3) ->
  filter (fun doc_count => (1 <? doc_count)%Z) buckets = [] ->
  s3_list (Some "log/download_summary_") None w3 = (Ok page, w4) ->
  Contents page = Some files ->
  sort (fun a b => Z.compare (LastModified b) (LastModified a)) files = latest :: others ->
  s3_get_summary (Key latest) w4 = (Ok (Some summary), w5) ->
  manifest_totalRecords summary = totalRecords ->
  fst (Test.testSync (w, tr)) = Ok (Test.countComparison totalRecords count).
Proof.
  intros Hcount Hsample Hdup Hnodup Hlist Hcontents Hsort Hget Hexpected.
  unfold Test.testSync, try_catch, bind, perform, ret. cbn [fst snd].
  rewrite Hcount. cbn [fst snd]. rewrite Hsample. cbn [fst snd]. rewrite Hdup, Hnodup.
  cbn [fst snd List.length Nat.ltb Nat.leb]. rewrite Hlist, Hcontents. cbn [fst snd].
  destruct files as [|file files]; [discriminate|].
  cbn [List.length Nat.eqb]. rewrite Hsort. cbn [fst snd].
  rewrite Hget, Hexpected. reflexivity.
Qed.

(** The comparison on two integer counts. *)
Lemma countComparison_equal (actual : Z) :
  Test.countComparison (Int actual) actual
  = TestResult.make true (Some actual) (Some (Int 0)) None.
Proof.
  unfold Test.countComparison. cbn [Number.minus Number.strictEquals].
  rewrite Z.sub_diag. reflexivity.
Qed.

Lemma countComparison_missing (expected actual : Z) :
  (expected > actual)%Z ->
  Test.countComparison (Int expected) actual
  = TestResult.make false (Some actual) (Some (Int (expected - actual))) None.
Proof.
  intros Hgt. unfold Test.countComparison.
  cbn [Number.minus Number.strictEquals Number.greaterThan].
  destruct (Z.eqb_spec (expected - actual) 0); [lia|].
  destruct (Z.ltb_spec 0 (expected - actual)); [reflexivity | lia].
Qed.

Lemma countComparison_accumulated (expected actual : Z) :
  (expected < actual)%Z ->
  Test.countComparison (Int expected) actual
  = TestResult.make true (Some actual) (Some (Int 0)) None.
Proof.
  intros Hlt. unfold Test.countComparison.
  cbn [Number.minus Number.strictEquals Number.greaterThan].
  destruct (Z.eqb_spec (expected - actual) 0); [lia|].
  destruct (Z.ltb_spec 0 (expected - actual)); [lia|].
  destruct (Z.eqb_spec expected 0); [reflexivity|].
  destruct (Z.ltb_spec expected actual); [reflexivity | lia].
Qed.

(** Without a number to compare with, no test of the comparison holds
    and the last branch is taken. *)
Lemma countComparison_NaN (actual : Z) :
  Test.countComparison NaN actual
  = TestResult.make false (Some actual) None (Some NaN).
Proof. reflexivity. Qed.

(** C3: the count comparison of [testSync].  When the index count
    [actual] and the searches have answered, no identifier is duplicated
    and the latest manifest announces the integer [expected], [testSync]
    returns: for equal counts, pass with [missing = 0]; for a larger
    expected count, fail with [missing = expected - actual]; for a smaller
    expected count, pass, both when it is 0 and when the destination
    holds more than expected.  No result then carries [extra]: the last
    branch is left with no integers to take it.  The five examples
    follow. *)
Theorem count_comparison_policy {W : Type} `{Collaborators W}
        (w w1 w2 w3 w4 w5 : W) (tr : list event) (expected actual : Z)
        (buckets : list Z) (page : ListObjectsV2Output)
        (files others : list S3Object) (latest : S3Object) (summary : downloadSummary) :
  os_count w = (Ok actual, w1) ->
  os_search_sample w1 = (Ok tt, w2) ->
  os_search_duplicates w2 = (Ok buckets, w3) ->
  filter (fun doc_count => (1 <? doc_count)%Z) buckets = [] ->
  s3_list (Some "log/download_summary_") None w3 = (Ok page, w4) ->
  Contents page = Some files ->
  sort (fun a b => Z.compare (LastModified b) (LastModified a)) files = latest :: others ->
  s3_get_summary (Key latest) w4 = (Ok (Some summary), w5) ->
  manifest_totalRecords summary = Int expected ->
  let result := fst (Test.testSync (w, tr)) in
  let pass := Ok (TestResult.make true (Some actual) (Some (Int 0)) None) in
  (expected = actual -> result = pass)
  /\ ((expected > actual)%Z ->
      result = Ok (TestResult.make false (Some actual) (Some (Int (expected - actual))) None))
  /\ ((expected < actual)%Z -> expected = 0%Z -> result = pass)
  /\ ((expected < actual)%Z -> (actual > expected)%Z -> result = pass)
  /\ (forall t, result = Ok t -> TestResult.extra t = None)
  /\ (expected = 0%Z -> actual = 0%Z ->
      exists t, result = Ok t /\ TestResult.success t = true)
  /\ (expected = 100%Z -> actual = 100%Z ->
      result = Ok (TestResult.make true (Some 100%Z) (Some (Int 0)) None))
  /\ (expected = 100%Z -> actual = 80%Z ->
      result = Ok (TestResult.make false (Some 80%Z) (Some (Int 20)) None))
  /\ (expected = 100%Z -> actual = 120%Z ->
      exists t, result = Ok t /\ TestResult.success t = true)
  /\ (expected = 50%Z -> actual = 0%Z ->
      result = Ok (TestResult.make false (Some 0%Z) (Some (Int 50)) None)).
Proof.
  intros Hcount Hsample Hdup Hnodup Hlist Hcontents Hsort Hget Hexpected result pass.
  assert (Hresult : result = Ok (Test.countComparison (Int expected) actual)).
  { subst result.
    exact (testSync_compares_counts w w1 w2 w3 w4 w5 tr actual (Int expected) buckets page
             files others latest summary
             Hcount Hsample Hdup Hnodup Hlist Hcontents Hsort Hget Hexpected). }
  rewrite Hresult. subst pass. clear - expected actual.
  assert (Hcases : (expected = actual \/ expected > actual \/ expected < actual)%Z) by lia.
  repeat split.
  - intros ->. now rewrite countComparison_equal.
  - intros Hgt. now rewrite countComparison_missing.
  - intros Hlt _. now rewrite countComparison_accumulated.
  - intros Hlt _. now rewrite countComparison_accumulated.
  - intros t Ht. injection Ht as <-.
    destruct Hcases as [-> | [Hgt | Hlt]].
    + now rewrite countComparison_equal.
    + now rewrite countComparison_missing.
    + now rewrite countComparison_accumulated.
  - intros -> ->. eexists. split; reflexivity.
  - intros -> ->. reflexivity.
  - intros -> ->. reflexivity.
  - intros -> ->. eexists. split; reflexivity.
  - intros -> ->. reflexivity.
Qed.

Lemma count_comparison_policy_witness :
  (100 > 80)%Z
  /\ fst (Test.testSync (Ledger.twoManifests, []))
     = Ok (TestResult.make false (Some 80%Z) (Some (Int (100 - 80))) None).
Proof.
  split; [lia|].
  assert (Hcount : os_count Ledger.twoManifests = (Ok 80%Z, Ledger.twoManifests))
    by reflexivity.
  assert (Hsample : os_search_sample Ledger.twoManifests = (Ok tt, Ledger.twoManifests))
    by reflexivity.
  assert (Hdup : os_search_duplicates Ledger.twoManifests
                 = (Ok [1; 1]%Z, Ledger.twoManifests)) by reflexivity.
  assert (Hlist : s3_list (Some "log/download_summary_") None Ledger.twoManifests
                  = (Ok (Ledger.onePage
                           [ {| Key := "log/download_summary_a.json"; LastModified := 10 |};
                             {| Key := "log/download_summary_b.json"; LastModified := 20 |} ]),
                     snd (s3_list (Some "log/download_summary_") None Ledger.twoManifests)))
    by reflexivity.
  assert (Hget : s3_get_summary "log/download_summary_b.json"
                                (snd (s3_list (Some "log/download_summary_") None
                                              Ledger.twoManifests))
                 = (Ok (Some {| manifest_totalRecords := Int 100 |}),
                    snd (s3_list (Some "log/download_summary_") None Ledger.twoManifests)))
    by reflexivity.
  refine (proj1 (proj2 (count_comparison_policy
                          _ _ _ _ _ _ [] 100 80 _ _ _
                          [ {| Key := "log/download_summary_a.json"; LastModified := 10 |} ]
                          {| Key := "log/download_summary_b.json"; LastModified := 20 |} _
                          Hcount Hsample Hdup eq_refl Hlist eq_refl eq_refl Hget eq_refl)) _).
  lia.
Defined.

(* ===================================================================== *)
(** ** Properties of the janitor (05_clean_s3.js)                        *)
(* ===================================================================== *)

Section JanitorFacts.
Context {W : Type} `{Collaborators W}.
Import Clean.

(** The deletion loop when every delete resolves. *)
Lemma deleteFiles_all_resolved (files : list S3Object) (n n' : nat)
      (st st' : state (W := W) (E := event)) :
  deleteFiles files n st = (Ok n', st') ->
  n' = n + List.length files /\ snd st' = snd st ++ deleteRequests files.
Proof.
  revert n st. induction files as [|file rest IH]; intros n st Hrun.
  - injection Hrun as <- <-. simpl. rewrite app_nil_r. split; [lia | reflexivity].
  - cbn [deleteFiles] in Hrun. unfold bind, perform in Hrun.
    destruct (s3_delete (Key file) (fst st)) as [[[] | m |] w1]; try discriminate.
    destruct (IH _ _ Hrun) as [-> ->]. cbn [fst snd deleteRequests map List.length].
    rewrite <- app_assoc. split; [lia | reflexivity].
Qed.




End JanitorFacts.




(* ===================================================================== *)
(** ** Properties of the orchestrator (06_orchestrate.js)                *)
(* ===================================================================== *)

Section LoopFacts.
Context {W : Type} `{Stages W}.
Import Orchestrate.

(** The loop of the code runs as the relation says; in particular it
    ends within [MAX_RETRIES] turns. *)
Lemma resyncLoop_loopRun (fuel : nat) (workflowId : string) (retryCount : nat)
      (current : TestResult.t) (reassigned : bool)
      (st st' : state (W := W) (E := stageEvent))
      (r : outcome (Result.t + TestResult.t * bool)) :
  resyncLoop fuel workflowId retryCount current reassigned st = (r, st') ->
  3 <= retryCount + fuel ->
  exists post, snd st' = snd st ++ post /\ loopRun retryCount current reassigned post r.
Proof.
  revert retryCount current reassigned st.
  induction fuel as [|fuel IH]; intros k current reassigned [w tr] Hrun Hfuel.
  - cbn [resyncLoop] in Hrun. unfold MAX_RETRIES in Hrun.
    destruct (Nat.ltb_spec k 3) as [Hlt | Hge]; [lia|].
    rewrite andb_false_r in Hrun. injection Hrun as <- <-.
    exists []. rewrite app_nil_r. split; [reflexivity|]. constructor. now right.
  - cbn [resyncLoop] in Hrun. unfold MAX_RETRIES in Hrun.
    destruct (TestResult.success current) eqn:Hcurrent; cbn [negb andb] in Hrun.
    { injection Hrun as <- <-. exists []. rewrite app_nil_r.
      split; [reflexivity|]. constructor. now left. }
    destruct (Nat.ltb_spec k 3) as [Hlt | Hge].
    2:{ injection Hrun as <- <-. exists []. rewrite app_nil_r.
        split; [reflexivity|]. constructor. now right. }
    unfold bind at 1 in Hrun. unfold observe at 1 in Hrun. cbn [fst snd] in Hrun.
    destruct (syncAll workflowId w) as [[s | m |] w1].
    + destruct (SyncResult.success s) eqn:Hs; cbn [negb] in Hrun.
      * unfold bind at 1 in Hrun. unfold observe at 1 in Hrun. cbn [fst snd] in Hrun.
        destruct (testSync w1) as [[t | m |] w2].
        -- destruct (IH _ _ _ _ Hrun ltac:(lia)) as (post & Htrace & Hloop).
           exists (CalledResync (S k) (Ok s) :: CalledRetest (S k) (Ok t) :: post).
           cbn [snd] in *. split; [rewrite Htrace, <- !app_assoc; reflexivity|].
           now constructor.
        -- injection Hrun as <- <-.
           exists [CalledResync (S k) (Ok s); CalledRetest (S k) (Throw m)].
           cbn [snd]. split; [rewrite <- app_assoc; reflexivity | now constructor].
        -- injection Hrun as <- <-.
           exists [CalledResync (S k) (Ok s); CalledRetest (S k) Diverge].
           cbn [snd]. split; [rewrite <- app_assoc; reflexivity | now constructor].
      * destruct (Nat.leb_spec 3 (S k)) as [Hlast | Hmore].
        -- injection Hrun as <- <-. assert (k = 2) as -> by lia.
           exists [CalledResync 3 (Ok s)]. split; [reflexivity | now constructor].
        -- destruct (IH _ _ _ _ Hrun ltac:(lia)) as (post & Htrace & Hloop).
           exists (CalledResync (S k) (Ok s) :: post).
           cbn [snd] in *. split; [rewrite Htrace, <- app_assoc; reflexivity|].
           constructor; [assumption | lia | assumption | assumption].
    + injection Hrun as <- <-. exists [CalledResync (S k) (Throw m)].
      split; [reflexivity | now constructor].
    + injection Hrun as <- <-. exists [CalledResync (S k) Diverge].
      split; [reflexivity | now constructor].
Qed.

End LoopFacts.

(** Facts about the runs of the loop. *)

Lemma loopRun_events retryCount current reassigned post r :
  loopRun retryCount current reassigned post r ->
  Forall (fun e => loopEvent e /\ retryCount < attemptOf e <= 3) post.
Proof.
  induction 1;
    repeat (apply Forall_cons; [cbn; split; [exact I | lia]|]);
    try apply Forall_nil;
    (eapply Forall_impl; [|eassumption]; cbn; intros e [He Hn]; split; [exact He | lia]).
Qed.

Lemma loopRun_counts retryCount current reassigned post r :
  loopRun retryCount current reassigned post r ->
  resyncs post <= 3 - retryCount /\ retests post <= resyncs post.
Proof.
  induction 1; cbn [resyncs retests filter List.length] in *;
    unfold resyncs, retests in *; lia.
Qed.

Lemma loopRun_passing retryCount current reassigned post r :
  loopRun retryCount current reassigned post r ->
  TestResult.success current = true \/ 3 <= retryCount ->
  post = [] /\ r = Ok (inr (current, reassigned)).
Proof.
  intros Hrun Hdone. inversion Hrun; subst; try (split; reflexivity);
    destruct Hdone; try congruence; lia.
Qed.

Lemma loopRun_first retryCount current reassigned post r :
  loopRun retryCount current reassigned post r ->
  TestResult.success current = false -> retryCount < 3 ->
  exists answer post', post = CalledResync (S retryCount) answer :: post'.
Proof.
  intros Hrun Hfailing Hlt. inversion Hrun; subst; try (eexists; eexists; reflexivity).
  match goal with
  | Hdone : _ \/ _ |- _ => destruct Hdone; [congruence | lia]
  end.
Qed.

Lemma loopRun_fatal retryCount current reassigned post failure :
  loopRun retryCount current reassigned post (Ok (inl failure)) ->
  failure = resyncFailed
  /\ exists s, In (CalledResync 3 (Ok s)) post /\ SyncResult.success s = false.
Proof.
  intros Hrun. remember (Ok (inl failure)) as r eqn:Hr.
  induction Hrun; try discriminate.
  - injection Hr as <-. split; [reflexivity|]. exists reSyncResult. split; [now left | assumption].
  - destruct (IHHrun Hr) as [-> (s & Hin & Hs)]. split; [reflexivity|].
    exists s. split; [now right | assumption].
  - destruct (IHHrun Hr) as [-> (s & Hin & Hs)]. split; [reflexivity|].
    exists s. split; [right; now right | assumption].
Qed.

Lemma loopRun_failed_resync retryCount current reassigned post r n s :
  loopRun retryCount current reassigned post r ->
  In (CalledResync n (Ok s)) post ->
  SyncResult.success s = false ->
  (n < 3 -> exists answer, In (CalledResync (S n) answer) post)
  /\ (n = 3 -> r = Ok (inl resyncFailed)).
Proof.
  intros Hrun. induction Hrun; intros Hin Hs; cbn [In] in Hin.
  - destruct Hin.
  - destruct Hin as [Heq | []]. discriminate.
  - destruct Hin as [Heq | []]. discriminate.
  - destruct Hin as [Heq | []]. injection Heq as <- <-. split; [lia | reflexivity].
  - destruct Hin as [Heq | Hin].
    + injection Heq as <- <-. split; [|lia]. intros _.
      destruct (loopRun_first _ _ _ _ _ Hrun) as (answer & post' & ->); [assumption | lia |].
      exists answer. right. now left.
    + destruct (IHHrun Hin Hs) as [Hnext Hfatal]. split; [|exact Hfatal].
      intros Hlt. destruct (Hnext Hlt) as [answer Hanswer]. exists answer. now right.
  - destruct Hin as [Heq | [Heq | []]]; [|discriminate]. injection Heq as <- <-. congruence.
  - destruct Hin as [Heq | [Heq | []]]; [|discriminate]. injection Heq as <- <-. congruence.
  - destruct Hin as [Heq | [Heq | Hin]]; [|discriminate|].
    + injection Heq as <- <-. congruence.
    + destruct (IHHrun Hin Hs) as [Hnext Hfatal]. split; [|exact Hfatal].
      intros Hlt. destruct (Hnext Hlt) as [answer Hanswer]. exists answer. right. now right.
Qed.

Lemma loopRun_exhausted retryCount current reassigned post r t :
  loopRun retryCount current reassigned post r ->
  In (CalledRetest 3 (Ok t)) post ->
  TestResult.success t = false ->
  r = Ok (inr (t, true)).
Proof.
  intros Hrun. induction Hrun; intros Hin Ht; cbn [In] in Hin.
  - destruct Hin.
  - destruct Hin as [Heq | []]. discriminate.
  - destruct Hin as [Heq | []]. discriminate.
  - destruct Hin as [Heq | []]. discriminate.
  - destruct Hin as [Heq | Hin]; [discriminate | exact (IHHrun Hin Ht)].
  - destruct Hin as [Heq | [Heq | []]]; discriminate.
  - destruct Hin as [Heq | [Heq | []]]; discriminate.
  - destruct Hin as [Heq | [Heq | Hin]]; [discriminate | | exact (IHHrun Hin Ht)].
    injection Heq as Hn <-.
    destruct (loopRun_passing _ _ _ _ _ Hrun) as [_ ->]; [right; lia | reflexivity].
Qed.

Lemma loopRun_first_retest_passes current reassigned post r t2 :
  loopRun 0 current reassigned post r ->
  In (CalledRetest 1 (Ok t2)) post ->
  TestResult.success t2 = true ->
  resyncs post = 1 /\ r = Ok (inr (t2, true)).
Proof.
  intros Hrun Hin Ht2.
  assert (Hlater : forall post' k c b r',
             loopRun (S k) c b post' r' -> ~ In (CalledRetest 1 (Ok t2)) post').
  { intros post' k c b r' Hrun' Hin'. apply loopRun_events in Hrun'.
    rewrite Forall_forall in Hrun'. destruct (Hrun' _ Hin') as [_ Hn]. cbn in Hn. lia. }
  inversion Hrun; subst; cbn [In] in Hin.
  - destruct Hin.
  - destruct Hin as [Heq | []]. discriminate.
  - destruct Hin as [Heq | []]. discriminate.
  - destruct Hin as [Heq | []]. discriminate.
  - destruct Hin as [Heq | Hin]; [discriminate|]. exfalso. eapply Hlater; eassumption.
  - destruct Hin as [Heq | [Heq | []]]; discriminate.
  - destruct Hin as [Heq | [Heq | []]]; discriminate.
  - destruct Hin as [Heq | [Heq | Hin]]; [discriminate| |exfalso; eapply Hlater; eassumption].
    injection Heq as <-.
    match goal with
    | Hrest : loopRun 1 _ true _ _ |- _ =>
        destruct (loopRun_passing _ _ _ _ _ Hrest) as [-> ->]; [now left|]
    end.
    split; reflexivity.
Qed.

Lemma loopRun_hangs retryCount current reassigned post :
  loopRun retryCount current reassigned post Diverge ->
  exists n, In (CalledResync n Diverge) post \/ In (CalledRetest n Diverge) post.
Proof.
  intros Hrun. remember Diverge as r eqn:Hr.
  induction Hrun; try discriminate.
  - eexists. left. now left.
  - destruct (IHHrun Hr) as [n [Hin | Hin]]; exists n; [left | right]; now right.
  - eexists. right. right. now left.
  - destruct (IHHrun Hr) as [n [Hin | Hin]]; exists n; [left | right]; right; now right.
Qed.

Lemma resyncs_app (l1 l2 : list stageEvent) : resyncs (l1 ++ l2) = resyncs l1 + resyncs l2.
Proof. unfold resyncs. rewrite filter_app, length_app. reflexivity. Qed.

Lemma retests_app (l1 l2 : list stageEvent) : retests (l1 ++ l2) = retests l1 + retests l2.
Proof. unfold retests. rewrite filter_app, length_app. reflexivity. Qed.

(** One step of a run held in [Hrun]: case analysis on the next awaited
    call or test. *)
Ltac step_in Hrun :=
  match type of Hrun with
  | context [match ?x with _ => _ end] =>
      lazymatch x with
      | context [match _ with _ => _ end] => fail
      | _ => destruct x eqn:?
      end
  end;
  cbn [fst snd app] in Hrun.

(** The facts of the loop, once a run has been stepped through. *)
Ltac loop_facts :=
  match goal with
  | Hl : Orchestrate.resyncLoop _ _ _ _ _ _ = (_, ?st) |- _ =>
      let post := fresh "post" in
      let Htrace := fresh "Htrace" in
      let Hloop := fresh "Hloop" in
      destruct (resyncLoop_loopRun _ _ _ _ _ _ _ _ Hl
                  ltac:(unfold Orchestrate.MAX_RETRIES; lia))
        as (post & Htrace & Hloop);
      clear Hl;
      try (is_var st; destruct st as [? ?]);
      cbn [fst snd] in *; subst
  end.

(** All the runs of an orchestrator, one goal per way through it. *)
Ltac all_runs Hrun :=
  unfold Orchestrate.orchestrate, OrchestrateOld.orchestrate,
    Orchestrate.saveTimestampLog, Orchestrate.readTotalUpdated in Hrun;
  unfold try_catch, bind, observe, read, ret, throw in Hrun;
  cbn [fst snd app] in Hrun;
  repeat step_in Hrun;
  try discriminate Hrun;
  injection Hrun; intros; subst; clear Hrun;
  try loop_facts.

(** Membership in the events of a run, case by case. *)
Ltac in_events H :=
  rewrite ?in_app_iff in H; cbn [In] in H;
  repeat match type of H with
         | _ \/ _ => destruct H as [H | H]
         | False => destruct H
         end;
  try discriminate H.

Ltac pick := solve [reflexivity | eassumption | left; pick | right; pick].
Ltac found := rewrite ?in_app_iff; cbn [In]; pick.

Section OrchestrateFacts.
Context {W : Type} `{Stages W}.

Lemma orchestrate_first_retest (w w' : W) r events t2 :
  Orchestrate.orchestrate (w, []) = (r, (w', events)) ->
  In (CalledRetest 1 (Ok t2)) events -> TestResult.success t2 = true ->
  resyncs events = 1.
Proof.
  intros Hrun Hin Ht2. all_runs Hrun; in_events Hin;
    destruct (loopRun_first_retest_passes _ _ _ _ _ Hloop Hin Ht2) as [Hone _];
    rewrite ?resyncs_app, Hone; reflexivity.
Qed.

Lemma orchestrate_failed_resync (w w' : W) r events n reSyncResult :
  Orchestrate.orchestrate (w, []) = (r, (w', events)) ->
  In (CalledResync n (Ok reSyncResult)) events ->
  SyncResult.success reSyncResult = false ->
  (n < 3 -> exists answer, In (CalledResync (S n) answer) events)
  /\ (n = 3 -> r = Ok resyncFailed).
Proof.
  intros Hrun Hin Hs. all_runs Hrun; in_events Hin;
    destruct (loopRun_failed_resync _ _ _ _ _ _ _ Hloop Hin Hs) as [Hnext Hfatal];
    (split; [intros Hlt; destruct (Hnext Hlt) as [answer Hanswer]; exists answer; found
            | intros Hn; specialize (Hfatal Hn); try discriminate Hfatal;
              try (injection Hfatal as ->); reflexivity]).
Qed.

Lemma orchestrate_resync_step (w w' : W) result events :
  Orchestrate.orchestrate (w, []) = (Ok result, (w', events)) ->
  Result.step result = Some "resync" ->
  exists reSyncResult,
    In (CalledResync 3 (Ok reSyncResult)) events
    /\ SyncResult.success reSyncResult = false.
Proof.
  intros Hrun Hstep. all_runs Hrun; try discriminate Hstep.
  destruct (loopRun_fatal _ _ _ _ _ Hloop) as [_ (failedSync & Hin & Hfailed)].
  exists failedSync. split; [found | exact Hfailed].
Qed.

Lemma orchestrate_exhausted (w w' : W) r events t :
  Orchestrate.orchestrate (w, []) = (r, (w', events)) ->
  In (CalledRetest 3 (Ok t)) events -> TestResult.success t = false ->
  exists answer, In (CalledMark answer) events.
Proof.
  intros Hrun Hin Ht. all_runs Hrun; in_events Hin;
    pose proof (loopRun_exhausted _ _ _ _ _ _ Hloop Hin Ht) as Hexit;
    try discriminate Hexit; eexists; found.
Qed.

Lemma orchestrate_loop_bounded (w w' : W) r events :
  Orchestrate.orchestrate (w, []) = (r, (w', events)) ->
  resyncs events <= 3 /\ retests events <= resyncs events.
Proof.
  intros Hrun. all_runs Hrun;
    rewrite ?resyncs_app, ?retests_app; cbn [resyncs retests filter List.length Nat.add];
    try (pose proof (loopRun_counts _ _ _ _ _ Hloop)); lia.
Qed.

Lemma orchestrate_no_resync_after_pass (w w' : W) r events t1 :
  Orchestrate.orchestrate (w, []) = (r, (w', events)) ->
  In (CalledTest (Ok t1)) events -> TestResult.success t1 = true ->
  resyncs events = 0.
Proof.
  intros Hrun Hin Ht1. all_runs Hrun; in_events Hin;
    try (apply loopRun_events in Hloop; rewrite Forall_forall in Hloop;
         destruct (Hloop _ Hin) as [[] _]);
    injection Hin as <-;
    destruct (loopRun_passing _ _ _ _ _ Hloop (or_introl Ht1)) as [-> _];
    reflexivity.
Qed.

End OrchestrateFacts.

(** Membership of an event the loop never records. *)
Ltac not_in_loop Hin :=
  exfalso;
  match goal with
  | Hloop : loopRun _ _ _ _ _ |- _ =>
      apply loopRun_events in Hloop; rewrite Forall_forall in Hloop;
      destruct (Hloop _ Hin) as [[] _]
  end.

(** The distinguished answer of [markAsSynced]: when the listing of the
    checkpoint logs comes back empty, it reports failure with the error
    "No sync log files found" and touches nothing else. *)
Lemma markAsSynced_without_logs {W : Type} `{Collaborators W}
      (workflowId : string) (w w1 : W) (tr : list event) (page : ListObjectsV2Output) :
  workflowId <> EmptyString ->
  s3_list (Some ("log/sync_log_ids_" ++ workflowId ++ "_")%string) None w = (Ok page, w1) ->
  Contents page = None \/ Contents page = Some [] ->
  Mark.markAsSynced (Some workflowId) (w, tr)
  = (Ok {| MarkResult.success := false;
           MarkResult.error := Some "No sync log files found";
           MarkResult.totalUpdated := None; MarkResult.totalIds := None;
           MarkResult.logFiles := None; MarkResult.message := None |},
     (w1, tr ++ [S3List (Some ("log/sync_log_ids_" ++ workflowId ++ "_")%string) None])).
Proof.
  intros Hid Hlist Hempty.
  destruct workflowId as [|c rest]; [congruence|].
  unfold Mark.markAsSynced, try_catch, bind, perform, ret. cbn [truthy fst snd].
  rewrite Hlist. destruct Hempty as [-> | ->]; reflexivity.
Qed.

(** C4, as worded, fails on the code: when the write of the run summary
    is rejected, the run ends as a failure of the mark step. *)
Lemma no_new_data_as_worded_fails : ~ noNewDataAsWorded Staged.noNewDataLogRejected.
Proof.
  intros Hworded.
  assert (Hrun : Orchestrate.orchestrate (Staged.noNewDataLogRejected, [])
                 = (Ok (Result.failed (Some "mark") (Some "AccessDenied")),
                    snd (Orchestrate.orchestrate (Staged.noNewDataLogRejected, []))))
    by (vm_compute; reflexivity).
  destruct (Hworded (Ok (Result.failed (Some "mark") (Some "AccessDenied")))
                    (fst (snd (Orchestrate.orchestrate (Staged.noNewDataLogRejected, []))))
                    (snd (snd (Orchestrate.orchestrate (Staged.noNewDataLogRejected, []))))
                    (Staged.downloaded 0) Staged.noLogs)
    as (summary & logFilename & Hresult & _).
  - rewrite Hrun at 1. reflexivity.
  - vm_compute. repeat (first [left; reflexivity | right]).
  - reflexivity.
  - vm_compute. repeat (first [left; reflexivity | right]).
  - reflexivity.
  - reflexivity.
  - discriminate Hresult.
Qed.

(** C4 (amended): in a run whose mark step answers "No sync log files
    found" after a download of zero records, the orchestrator writes a
    zero-work run summary (zero records marked, success) and, when that
    write succeeds, returns overall success with that summary; when the
    write throws, it returns a failure of the mark step. *)
Theorem no_new_data_run_succeeds_once_summary_is_saved {W : Type} `{Stages W}
        (w w' : W) (r : outcome Result.t) (events : list stageEvent)
        (downloadResult : DownloadResult.t) (markResult : MarkResult.t) :
  Orchestrate.orchestrate (w, []) = (r, (w', events)) ->
  In (CalledDownload (Ok downloadResult)) events ->
  DownloadResult.totalRecords downloadResult = 0%Z ->
  In (CalledMark (Ok markResult)) events ->
  MarkResult.success markResult = false ->
  MarkResult.error markResult = Some "No sync log files found" ->
  exists logFilename summary answer,
    In (PutLog logFilename summary answer) events
    /\ Summary.mark summary = Some zeroWork
    /\ Summary.success summary = true
    /\ Summary.download summary = downloadResult
    /\ (answer = Ok tt -> r = Ok (Result.done summary logFilename))
    /\ (forall message,
          answer = Throw message ->
          r = Ok (Result.failed (Some "mark") (Some message))).
Proof.
  intros Hrun Hdownload Hzero Hmark Hfailed Herror.
  all_runs Hrun; in_events Hdownload; try (not_in_loop Hdownload);
    in_events Hmark; try (not_in_loop Hmark);
    injection Hdownload as ->; injection Hmark as ->;
    repeat match goal with
           | Hcond : @eq bool ?b _ |- _ =>
               tryif constr_eq Hcond Hfailed then fail else
               lazymatch b with
               | context [MarkResult.success markResult] => rewrite Hfailed in Hcond
               | context [MarkResult.error markResult] => rewrite Herror in Hcond
               | context [DownloadResult.totalRecords downloadResult] =>
                   rewrite Hzero in Hcond
               end
           end;
    try match goal with
        | Hcond : @eq bool _ _ |- _ => cbn in Hcond; discriminate Hcond
        end;
    eexists _, _, _; (split; [found|]);
    (split; [reflexivity|]); (split; [reflexivity|]); (split; [reflexivity|]);
    (split; [intros Hanswer | intros thrown Hanswer]);
    try discriminate Hanswer; try (injection Hanswer as ->); try reflexivity.
  all: destruct u; try discriminate; reflexivity.
Qed.

Lemma no_new_data_run_succeeds_once_summary_is_saved_witness :
  DownloadResult.totalRecords (Staged.downloaded 0) = 0%Z
  /\ exists logFilename summary answer,
       In (PutLog logFilename summary answer)
          (snd (snd (Orchestrate.orchestrate (Staged.noNewData, []))))
       /\ Summary.mark summary = Some zeroWork
       /\ Summary.success summary = true
       /\ Summary.download summary = Staged.downloaded 0
       /\ (answer = Ok tt ->
           fst (Orchestrate.orchestrate (Staged.noNewData, []))
           = Ok (Result.done summary logFilename))
       /\ (forall message,
              answer = Throw message ->
              fst (Orchestrate.orchestrate (Staged.noNewData, []))
              = Ok (Result.failed (Some "mark") (Some message))).
Proof.
  split; [reflexivity|].
  apply (no_new_data_run_succeeds_once_summary_is_saved
           Staged.noNewData
           (fst (snd (Orchestrate.orchestrate (Staged.noNewData, []))))
           (fst (Orchestrate.orchestrate (Staged.noNewData, [])))
           (snd (snd (Orchestrate.orchestrate (Staged.noNewData, []))))
           (Staged.downloaded 0) Staged.noLogs).
  - vm_compute. reflexivity.
  - vm_compute. repeat (first [left; reflexivity | right]).
  - reflexivity.
  - vm_compute. repeat (first [left; reflexivity | right]).
  - reflexivity.
  - reflexivity.
Defined.

(** C5: in every run of the orchestrator the loop makes at most three
    re-sync attempts, each followed by at most one re-test, and none
    when the first test passed; when the test after the first re-sync
    passes, one re-sync attempt was made; a re-sync that reports failure
    is followed by the next attempt when it was not the third, and ends
    the run when it was (the only way to a failure with step "resync");
    and when the third re-test still fails the mark step is called. *)
Theorem resync_loop_bounded_and_best_effort {W : Type} `{Stages W}
        (w w' : W) (r : outcome Result.t) (events : list stageEvent) :
  Orchestrate.orchestrate (w, []) = (r, (w', events)) ->
  (resyncs events <= 3 /\ retests events <= resyncs events)
  /\ (forall t1, In (CalledTest (Ok t1)) events -> TestResult.success t1 = true ->
                 resyncs events = 0)
  /\ (forall t1 t2,
         In (CalledTest (Ok t1)) events -> TestResult.success t1 = false ->
         In (CalledRetest 1 (Ok t2)) events -> TestResult.success t2 = true ->
         resyncs events = 1)
  /\ (forall n reSyncResult,
         In (CalledResync n (Ok reSyncResult)) events ->
         SyncResult.success reSyncResult = false ->
         (n < 3 -> exists answer, In (CalledResync (S n) answer) events)
         /\ (n = 3 -> r = Ok resyncFailed))
  /\ (forall result,
         r = Ok result -> Result.step result = Some "resync" ->
         exists reSyncResult,
           In (CalledResync 3 (Ok reSyncResult)) events
           /\ SyncResult.success reSyncResult = false)
  /\ (forall t,
         In (CalledRetest 3 (Ok t)) events -> TestResult.success t = false ->
         exists answer, In (CalledMark answer) events).
Proof.
  intros Hrun.
  split; [exact (orchestrate_loop_bounded _ _ _ _ Hrun)|].
  split; [intros t1; exact (orchestrate_no_resync_after_pass _ _ _ _ _ Hrun)|].
  split; [intros t1 t2 _ _; exact (orchestrate_first_retest _ _ _ _ _ Hrun)|].
  split; [intros n reSyncResult; exact (orchestrate_failed_resync _ _ _ _ _ _ Hrun)|].
  split; [intros result ->; exact (orchestrate_resync_step _ _ _ _ Hrun)|].
  intros t. exact (orchestrate_exhausted _ _ _ _ _ Hrun).
Qed.

Lemma resync_loop_bounded_and_best_effort_witness :
  In (CalledTest (Ok (Staged.missingRecords 80 20)))
     (snd (snd (Orchestrate.orchestrate (Staged.failThenPass, []))))
  /\ In (CalledRetest 1 (Ok (Staged.passed 100)))
        (snd (snd (Orchestrate.orchestrate (Staged.failThenPass, []))))
  /\ resyncs (snd (snd (Orchestrate.orchestrate (Staged.failThenPass, [])))) = 1.
Proof.
  assert (Hin1 : In (CalledTest (Ok (Staged.missingRecords 80 20)))
                    (snd (snd (Orchestrate.orchestrate (Staged.failThenPass, [])))))
    by (vm_compute; repeat (first [left; reflexivity | right])).
  assert (Hin2 : In (CalledRetest 1 (Ok (Staged.passed 100)))
                    (snd (snd (Orchestrate.orchestrate (Staged.failThenPass, [])))))
    by (vm_compute; repeat (first [left; reflexivity | right])).
  split; [exact Hin1|]. split; [exact Hin2|].
  refine (proj1 (proj2 (proj2
            (resync_loop_bounded_and_best_effort
               Staged.failThenPass
               (fst (snd (Orchestrate.orchestrate (Staged.failThenPass, []))))
               (fst (Orchestrate.orchestrate (Staged.failThenPass, [])))
               (snd (snd (Orchestrate.orchestrate (Staged.failThenPass, []))))
               _)))
            (Staged.missingRecords 80 20) (Staged.passed 100) Hin1 eq_refl Hin2 eq_refl).
  vm_compute. reflexivity.
Defined.

(** Using a premise [Hp : x = v] in the tests recorded along a run. *)
Ltac settle Hp :=
  repeat match goal with
         | Hc : @eq bool ?b _ |- _ =>
             tryif constr_eq Hc Hp then fail else
             lazymatch type of Hp with
             | ?x = _ => lazymatch b with context [x] => rewrite Hp in Hc end
             end
         end.

Ltac contradictory :=
  match goal with
  | Hc : @eq bool _ _ |- _ => cbn in Hc; discriminate Hc
  end.

(** C8 on the code of 06_orchestrate.js: in a run where download, sync,
    test, mark and clean all report success and the run summary is
    written, the summary written is the only one of the run and records
    the download, sync, test and clean results and the duration, but not
    the mark result (the [markResult] it reads is the variable of the
    function scope, never assigned); the final report then reads
    [markResult.totalUpdated], which throws, and [orchestrate] returns
    [success: false]. *)
Theorem orchestrate_reports_failure_after_successful_run {W : Type} `{Stages W}
        (w w' : W) (r : outcome Result.t) (events : list stageEvent)
        (downloadResult : DownloadResult.t) (syncResult : SyncResult.t)
        (testResult : TestResult.t) (markResult : MarkResult.t)
        (cleanResult : CleanResult.t) (logFilename : string) (summary : Summary.t) :
  Orchestrate.orchestrate (w, []) = (r, (w', events)) ->
  In (CalledDownload (Ok downloadResult)) events ->
  DownloadResult.success downloadResult = true ->
  In (CalledSync (Ok syncResult)) events ->
  SyncResult.success syncResult = true ->
  In (CalledTest (Ok testResult)) events ->
  TestResult.success testResult = true ->
  In (CalledMark (Ok markResult)) events ->
  MarkResult.success markResult = true ->
  In (CalledClean (Ok cleanResult)) events ->
  CleanResult.success cleanResult = true ->
  In (PutLog logFilename summary (Ok tt)) events ->
  r = Ok (Result.failed None (Some typeErrorMessage))
  /\ Summary.mark summary = None
  /\ Summary.download summary = downloadResult
  /\ Summary.sync summary = syncResult
  /\ Summary.test summary = testResult
  /\ Summary.clean summary = cleanResult
  /\ Summary.duration summary <> None
  /\ (forall logFilename' summary' answer,
         In (PutLog logFilename' summary' answer) events ->
         PutLog logFilename' summary' answer = PutLog logFilename summary (Ok tt)).
Proof.
  intros Hrun Hdownload Hdl Hsync Hsr Htest Ht Hmark Hm Hclean Hc Hlog.
  all_runs Hrun;
    in_events Hdownload; try (not_in_loop Hdownload);
    in_events Hsync; try (not_in_loop Hsync);
    in_events Htest; try (not_in_loop Htest);
    in_events Hmark; try (not_in_loop Hmark);
    in_events Hclean; try (not_in_loop Hclean);
    in_events Hlog; try (not_in_loop Hlog);
    injection Hdownload as ->; injection Hsync as ->; injection Htest as ->;
    injection Hmark as ->; injection Hclean as ->; injection Hlog as <- <- Hunit;
    settle Hdl; settle Hsr; settle Hm; settle Hc; try contradictory;
    destruct (loopRun_passing _ _ _ _ _ Hloop (or_introl Ht)) as [-> Hexit];
    try discriminate Hexit; injection Hexit; intros; subst;
    unfold Orchestrate.flagCriticalMissing; rewrite ?Ht; cbn [negb];
    repeat (split; [reflexivity|]);
    (split; [discriminate|]);
    intros logFilename' summary' answer Hother; in_events Hother;
    try (not_in_loop Hother); symmetry; exact Hother.
Qed.

Lemma orchestrate_reports_failure_after_successful_run_witness :
  DownloadResult.success (Staged.downloaded 150) = true
  /\ fst (Orchestrate.orchestrate (Staged.allSucceed, []))
     = Ok (Result.failed None (Some typeErrorMessage)).
Proof.
  split; [reflexivity|].
  assert (Hrun : Orchestrate.orchestrate (Staged.allSucceed, [])
                 = (fst (Orchestrate.orchestrate (Staged.allSucceed, [])),
                    (fst (snd (Orchestrate.orchestrate (Staged.allSucceed, []))),
                     snd (snd (Orchestrate.orchestrate (Staged.allSucceed, []))))))
    by (vm_compute; reflexivity).
  refine (proj1 (orchestrate_reports_failure_after_successful_run
                   _ _ _ _ (Staged.downloaded 150) (Staged.synced 150) (Staged.passed 150)
                   (Staged.marked 150) (Staged.cleaned 2)
                   "log/sync_log_2024-01-01T00-00-00-000Z.json"
                   Staged.allSucceedSummary
                   Hrun _ eq_refl _ eq_refl _ eq_refl _ eq_refl _ eq_refl _));
    vm_compute; repeat (first [left; reflexivity | right]).
Defined.

(** The older variant does what C8 says: under the same premises it
    returns success with a summary recording every stage's result and
    the duration, the only summary written in the run. *)
Lemma old_orchestrate_succeeds_after_successful_run {W : Type} `{Stages W}
      (w w' : W) (r : outcome Result.t) (events : list stageEvent)
      (downloadResult : DownloadResult.t) (syncResult : SyncResult.t)
      (testResult : TestResult.t) (markResult : MarkResult.t)
      (cleanResult : CleanResult.t) (logFilename : string) (summary : Summary.t) :
  OrchestrateOld.orchestrate (w, []) = (r, (w', events)) ->
  In (CalledDownload (Ok downloadResult)) events ->
  DownloadResult.success downloadResult = true ->
  In (CalledSync (Ok syncResult)) events ->
  SyncResult.success syncResult = true ->
  In (CalledTest (Ok testResult)) events ->
  TestResult.success testResult = true ->
  In (CalledMark (Ok markResult)) events ->
  MarkResult.success markResult = true ->
  In (CalledClean (Ok cleanResult)) events ->
  CleanResult.success cleanResult = true ->
  In (PutLog logFilename summary (Ok tt)) events ->
  r = Ok (Result.done summary logFilename)
  /\ Summary.mark summary = Some markResult
  /\ Summary.download summary = downloadResult
  /\ Summary.sync summary = syncResult
  /\ Summary.test summary = testResult
  /\ Summary.clean summary = cleanResult
  /\ Summary.duration summary <> None
  /\ (forall logFilename' summary' answer,
         In (PutLog logFilename' summary' answer) events ->
         PutLog logFilename' summary' answer = PutLog logFilename summary (Ok tt)).
Proof.
  intros Hrun Hdownload Hdl Hsync Hsr Htest Ht Hmark Hm Hclean Hc Hlog.
  all_runs Hrun;
    in_events Hdownload; try (not_in_loop Hdownload);
    in_events Hsync; try (not_in_loop Hsync);
    in_events Htest; try (not_in_loop Htest);
    in_events Hmark; try (not_in_loop Hmark);
    in_events Hclean; try (not_in_loop Hclean);
    in_events Hlog; try (not_in_loop Hlog);
    injection Hdownload as ->; injection Hsync as ->; injection Htest as ->;
    injection Hmark as ->; injection Hclean as ->; injection Hlog as <- <- Hunit;
    settle Hdl; settle Hsr; settle Hm; settle Hc; try contradictory;
    destruct (loopRun_passing _ _ _ _ _ Hloop (or_introl Ht)) as [-> Hexit];
    try discriminate Hexit; injection Hexit; intros; subst;
    repeat (split; [reflexivity|]);
    (split; [discriminate|]);
    intros logFilename' summary' answer Hother; in_events Hother;
    try (not_in_loop Hother); symmetry; exact Hother.
Qed.

(* ===================================================================== *)
(** ** Properties of the staging writer (01_download.js)                 *)
(* ===================================================================== *)

Section TextFacts.

Lemma append_assoc (s t u : string) : ((s ++ t) ++ u = s ++ (t ++ u))%string.
Proof. induction s as [|c s IH]; [reflexivity|]. cbn [append]. rewrite IH. reflexivity. Qed.

Lemma occurs_app (c : ascii) (s t : string) :
  occurs c (s ++ t) = (occurs c s || occurs c t)%bool.
Proof.
  induction s as [|d s IH]; [reflexivity|].
  cbn [append occurs]. rewrite IH, orb_assoc. reflexivity.
Qed.

Lemma string_of_uint_digits (c : ascii) (d : Decimal.uint) :
  occurs c (NilEmpty.string_of_uint d) = true ->
  In c ["0"; "1"; "2"; "3"; "4"; "5"; "6"; "7"; "8"; "9"]%char.
Proof.
  induction d; cbn [NilEmpty.string_of_uint occurs]; try discriminate;
    rewrite orb_true_iff, Ascii.eqb_eq; (intros [-> | Hin]; [cbn; tauto | auto]).
Qed.

(** A printed integer is made of digits and at most a sign. *)
Lemma numberToString_chars (c : ascii) (n : Z) :
  occurs c (numberToString n) = true ->
  In c ["-"; "0"; "1"; "2"; "3"; "4"; "5"; "6"; "7"; "8"; "9"]%char.
Proof.
  unfold numberToString, NilZero.string_of_int, NilZero.string_of_uint.
  assert (Huint : forall d, occurs c (match d with
                                      | Decimal.Nil => "0"
                                      | _ => NilEmpty.string_of_uint d
                                      end) = true ->
                            In c ["0"; "1"; "2"; "3"; "4"; "5"; "6"; "7"; "8"; "9"]%char).
  { intros d Hin. destruct d; try (apply (string_of_uint_digits c _ Hin)).
    cbn [occurs] in Hin. rewrite orb_false_r, Ascii.eqb_eq in Hin. subst. cbn. tauto. }
  destruct (Z.to_int n) as [d | d].
  - intros Hin. right. exact (Huint d Hin).
  - cbn [occurs]. rewrite orb_true_iff, Ascii.eqb_eq.
    intros [-> | Hin]; [now left | right; exact (Huint d Hin)].
Qed.

Lemma escapeChar_no_break (c : ascii) : occurs "010" (escapeChar c) = false.
Proof. destruct c as [[] [] [] [] [] [] [] []]; reflexivity. Qed.

Lemma escape_no_break (s : string) : occurs "010" (escape s) = false.
Proof.
  induction s as [|c s IH]; [reflexivity|].
  cbn [escape]. rewrite occurs_app, escapeChar_no_break, IH. reflexivity.
Qed.

Lemma quote_no_break (s : string) : occurs "010" (quote s) = false.
Proof.
  unfold quote. cbn [occurs]. rewrite occurs_app, escape_no_break. reflexivity.
Qed.

Lemma joinComma_no_break (parts : list string) :
  Forall (fun p => occurs "010" p = false) parts ->
  occurs "010" (joinComma parts) = false.
Proof.
  induction 1 as [|p rest Hp Hrest IH]; [reflexivity|].
  cbn [joinComma]. destruct rest as [|q rest']; [exact Hp|].
  rewrite !occurs_app, Hp, IH. reflexivity.
Qed.

(** [JSON.stringify] escapes every line break: its text is one line. *)
Lemma stringify_no_break : forall j : json, occurs "010" (stringify j) = false.
Proof.
  fix IH 1. intros [| [] | n | s | elements | members]; cbn [stringify]; try reflexivity.
  - destruct (occurs "010" (numberToString n)) eqn:Hin; [|reflexivity].
    apply numberToString_chars in Hin. cbn in Hin.
    repeat (destruct Hin as [Hin | Hin]; [discriminate|]). destruct Hin.
  - apply quote_no_break.
  - cbn [occurs append]. rewrite occurs_app, joinComma_no_break; [reflexivity|].
    induction elements as [|e rest IHl]; constructor; [apply IH | exact IHl].
  - cbn [occurs append]. rewrite occurs_app, joinComma_no_break; [reflexivity|].
    induction members as [|[k v] rest IHl]; constructor; [|exact IHl].
    cbv beta. cbn [fst snd occurs append]. rewrite !occurs_app. cbn [occurs append].
    rewrite quote_no_break, IH. reflexivity.
Qed.

Lemma split_no_sep (sep : ascii) (s : string) :
  occurs sep s = false -> split sep s = [s].
Proof.
  induction s as [|c s IH]; [reflexivity|].
  cbn [occurs split]. rewrite orb_false_iff. intros [Hc Hs].
  rewrite Ascii.eqb_sym, Hc, (IH Hs). reflexivity.
Qed.

Lemma split_line (sep : ascii) (line rest : string) :
  occurs sep line = false ->
  split sep (line ++ String sep rest) = line :: split sep rest.
Proof.
  induction line as [|c line IH]; cbn [occurs append split].
  - intros _. rewrite Ascii.eqb_refl. reflexivity.
  - rewrite orb_false_iff. intros [Hc Hs].
    rewrite Ascii.eqb_sym, Hc, (IH Hs). reflexivity.
Qed.

Lemma split_join_lines (lines : list string) (tail : string) :
  lines <> [] ->
  Forall (fun line => occurs "010" line = false) lines ->
  split "010" (join Download.newline lines ++ String "010" tail)
  = lines ++ split "010" tail.
Proof.
  intros Hne Hlines. induction Hlines as [|line rest Hline Hrest IH]; [congruence|].
  cbn [join]. destruct rest as [|next rest'].
  - apply split_line. exact Hline.
  - unfold Download.newline at 1. rewrite !append_assoc. cbn [append].
    rewrite (split_line _ _ _ Hline). cbn [app]. f_equal.
    apply IH. discriminate.
Qed.

End TextFacts.

Section StagingFacts.
Context {W : Type} `{Staging W}.
Import Download.

Lemma stagingTrace_nonempty (lastId : Z) (fileCount : nat) (pages : list (list record)) :
  stagingTrace lastId fileCount pages <> [].
Proof. destruct pages; discriminate. Qed.

Lemma nth_error_last_id (records : list record) (lastRecord : record) (lastId : Z) :
  nth_error records (List.length records - 1) = Some lastRecord ->
  List.last (map id records) lastId = id lastRecord.
Proof.
  revert lastRecord. induction records as [|r rest IH]; intros lastRecord; [discriminate|].
  destruct rest as [|r' rest'].
  - cbn. intros [= <-]. reflexivity.
  - intros Hnth. simpl in Hnth. change (List.last (map id (r :: r' :: rest')) lastId)
      with (List.last (map id (r' :: rest')) lastId).
    apply IH. simpl. rewrite Nat.sub_0_r. exact Hnth.
Qed.

(** The loop over the pages, whatever its outcome: the requests made are
    those of the staging of some non-empty pages, whole when the loop
    returns or a select fails, cut before the last select when the
    upload of the last blob throws. *)
Lemma fetchPages_shape (fuel : nat) (totalRecords : Z) (fileCount : nat) (lastId : Z)
      (s3Files : list string) (st : state (W := W) (E := downloadEvent)) :
  exists pages,
    Forall (fun page => page <> []) pages
    /\ match fst (fetchPages fuel totalRecords fileCount lastId s3Files st) with
       | Ok (totalRecords', fileCount', s3Files') =>
           snd (snd (fetchPages fuel totalRecords fileCount lastId s3Files st))
           = snd st ++ stagingTrace lastId fileCount pages
           /\ totalRecords' = (totalRecords + Z.of_nat (List.length (List.concat pages)))%Z
           /\ fileCount' = fileCount + List.length pages
           /\ s3Files' = s3Files ++ map blobName (seq fileCount (List.length pages))
       | Throw _ =>
           snd (snd (fetchPages fuel totalRecords fileCount lastId s3Files st))
           = snd st ++ stagingTrace lastId fileCount pages
           \/ (pages <> []
               /\ snd (snd (fetchPages fuel totalRecords fileCount lastId s3Files st))
                  = snd st ++ removelast (stagingTrace lastId fileCount pages))
       | Diverge => True
       end.
Proof.
  revert totalRecords fileCount lastId s3Files st.
  induction fuel as [|fuel IH]; intros totalRecords fileCount lastId s3Files [w tr].
  - exists []. split; [constructor | exact I].
  - cbn [fetchPages]. unfold bind, uploadToS3, perform, throw, ret. cbn [fst snd].
    destruct (db_select lastId w) as [[answer | message |] w1]; cbn [fst snd].
    2:{ exists []. split; [constructor | now left]. }
    2:{ exists []. split; [constructor | exact I]. }
    destruct (SelectAnswer.error answer) as [message|].
    { exists []. split; [constructor | now left]. }
    destruct (SelectAnswer.data answer) as [records|].
    2:{ exists []. split; [constructor | now left]. }
    destruct records as [|r rest] eqn:Hrecords.
    { exists []. split; [constructor|]. cbn. rewrite Z.add_0_r, Nat.add_0_r, app_nil_r.
      repeat split; reflexivity. }
    rewrite <- Hrecords. replace (List.length records =? 0) with false
      by (subst records; reflexivity).
    cbn [fst snd].
    destruct (s3_upload (blobName fileCount) (Text (jsonlContent records)) w1)
      as [[[] | message |] w2]; cbn [fst snd].
    2:{ exists [records]. split; [repeat constructor; subst; discriminate|].
        right. split; [discriminate|]. cbn [stagingTrace removelast].
        rewrite <- app_assoc. reflexivity. }
    2:{ exists []. split; [constructor | exact I]. }
    destruct (nth_error records (List.length records - 1)) as [lastRecord|] eqn:Hlast.
    2:{ apply nth_error_None in Hlast. subst records. cbn [List.length] in Hlast. lia. }
    specialize (IH (totalRecords + Z.of_nat (List.length records))%Z (S fileCount)
                   (id lastRecord) (s3Files ++ [blobName fileCount])
                   (w2, (tr ++ [DbSelect lastId])
                          ++ [S3Upload (blobName fileCount) (Text (jsonlContent records))])).
    destruct IH as (pages & Hpages & IH). exists (records :: pages).
    split; [constructor; [subst; discriminate | exact Hpages]|].
    cbn [stagingTrace]. rewrite (nth_error_last_id _ _ lastId Hlast).
    destruct (fetchPages fuel _ _ _ _ _) as [[[[total' count'] files'] | message |] st'];
      cbn [fst snd] in *.
    + destruct IH as (-> & -> & -> & ->). rewrite <- !app_assoc. cbn [app List.concat List.length map seq].
      rewrite length_app. repeat split; try reflexivity; lia.
    + destruct IH as [-> | [Hne ->]]; [left | right; split; [discriminate|]];
        rewrite <- !app_assoc; cbn [app]; [reflexivity|].
      pose proof (stagingTrace_nonempty (id lastRecord) (S fileCount) pages) as Hnil.
      destruct (stagingTrace (id lastRecord) (S fileCount) pages); [congruence | reflexivity].
    + exact I.
Qed.

End StagingFacts.

Section DownloadStage.
Context {W : Type} `{Staging W}.

(** A result returned by [downloadToS3] reports success. *)
Lemma downloadToS3_returns_success (fuel : nat) (st : state (W := W) (E := downloadEvent))
      (result : DownloadResult.t) :
  fst (Download.downloadToS3 fuel st) = Ok result -> DownloadResult.success result = true.
Proof.
  unfold Download.downloadToS3, try_catch. unfold bind at 1.
  destruct (Download.fetchPages fuel 0 0 0 [] st) as [[[[total count] names] | m |] st1];
    [| discriminate | discriminate].
  unfold bind, read, Download.uploadToS3, perform, ret, throw. cbn [fst snd].
  destruct (clockISO (fst st1)) as [downloadedAt w2]. cbn [fst snd].
  destruct (clockISO w2) as [timestamp w3]. cbn [fst snd].
  match goal with
  | |- context [s3_upload ?key ?body w3] =>
      destruct (s3_upload key body w3) as [[[] | m |] w4]; cbn [fst]; try discriminate
  end.
  intros [= <-]. reflexivity.
Qed.

End DownloadStage.


(** X1: a run of [downloadToS3] that returns has fetched some non-empty
    pages by keyset: the first select asks for the rows after id 0, each
    later one for the rows after the last row of the page before it, and
    the run ends at the first empty page.  Each page was uploaded as one
    blob, named [unsynced_0001.jsonl], [unsynced_0002.jsonl], ... in
    order, and the last request is the upload of the manifest under
    [log/download_summary_], which records the totals the function
    returns: success, the number of rows of all the pages, the number of
    blobs and their names. *)
Theorem download_stages_pages_by_keyset {W : Type} `{Staging W}
        (fuel : nat) (w w' : W) (result : DownloadResult.t)
        (events : list downloadEvent) :
  Download.downloadToS3 fuel (w, []) = (Ok result, (w', events)) ->
  exists pages downloadedAt manifestKey,
    Forall (fun page => page <> []) pages
    /\ events
       = stagingTrace 0 0 pages
         ++ [S3Upload manifestKey
               (Pretty (Download.summaryJson (DownloadResult.totalRecords result)
                                             downloadedAt
                                             (DownloadResult.files result)
                                             (DownloadResult.fileCount result)))]
    /\ prefix "log/download_summary_" manifestKey = true
    /\ DownloadResult.success result = true
    /\ DownloadResult.totalRecords result = Z.of_nat (List.length (List.concat pages))
    /\ DownloadResult.fileCount result = List.length pages
    /\ DownloadResult.files result = map Download.blobName (seq 0 (List.length pages)).
Proof.
  intros Hrun. unfold Download.downloadToS3, try_catch in Hrun. unfold bind at 1 in Hrun.
  destruct (fetchPages_shape fuel 0 0 0 [] (w, [])) as (pages & Hpages & Hshape).
  destruct (Download.fetchPages fuel 0 0 0 [] (w, []))
    as [[[[total count] names] | message |] [w1 tr1]]; cbn [fst snd] in *;
    [| discriminate | discriminate].
  destruct Hshape as (-> & -> & -> & ->).
  unfold bind, read, Download.uploadToS3, perform, ret, throw in Hrun. cbn [fst snd] in Hrun.
  destruct (clockISO w1) as [downloadedAt w2]. cbn [fst snd] in Hrun.
  destruct (clockISO w2) as [timestamp w3]. cbn [fst snd] in Hrun.
  match type of Hrun with
  | context [s3_upload ?key ?body w3] =>
      destruct (s3_upload key body w3) as [[[] | message |] w4]; try discriminate;
      injection Hrun as <- <- <-;
      exists pages, downloadedAt, key
  end.
  cbn [DownloadResult.success DownloadResult.totalRecords DownloadResult.fileCount
       DownloadResult.files app Nat.add Z.add].
  split; [exact Hpages|]. split; [reflexivity|]. split; [apply prefix_append|].
  repeat split; reflexivity.
Qed.

Lemma download_stages_pages_by_keyset_witness :
  exists downloadedAt manifestKey,
    snd (snd (Download.downloadToS3 5 (Warehouse.threeRows, [])))
    = [DbSelect 0;
       S3Upload "unsynced_0001.jsonl" (Text (Download.jsonlContent Warehouse.firstPage));
       DbSelect 9;
       S3Upload "unsynced_0002.jsonl" (Text (Download.jsonlContent Warehouse.secondPage));
       DbSelect 12;
       S3Upload manifestKey
                (Pretty (Download.summaryJson 3 downloadedAt
                           ["unsynced_0001.jsonl"; "unsynced_0002.jsonl"] 2))].
Proof.
  assert (Hrun : Download.downloadToS3 5 (Warehouse.threeRows, [])
                 = (Ok {| DownloadResult.success := true;
                          DownloadResult.totalRecords := 3;
                          DownloadResult.fileCount := 2;
                          DownloadResult.files :=
                            ["unsynced_0001.jsonl"; "unsynced_0002.jsonl"] |},
                    (fst (snd (Download.downloadToS3 5 (Warehouse.threeRows, []))),
                     snd (snd (Download.downloadToS3 5 (Warehouse.threeRows, []))))))
    by (vm_compute; reflexivity).
  destruct (download_stages_pages_by_keyset 5 _ _ _ _ Hrun)
    as (pages & downloadedAt & manifestKey & _ & Hevents & _).
  exists downloadedAt, manifestKey. rewrite Hevents at 1.
  cbn [DownloadResult.totalRecords DownloadResult.files DownloadResult.fileCount].
  assert (Hpages : stagingTrace 0 0 pages
                   = [DbSelect 0;
                      S3Upload "unsynced_0001.jsonl"
                               (Text (Download.jsonlContent Warehouse.firstPage));
                      DbSelect 9;
                      S3Upload "unsynced_0002.jsonl"
                               (Text (Download.jsonlContent Warehouse.secondPage));
                      DbSelect 12]).
  { apply (f_equal (@removelast _)) in Hevents. rewrite removelast_last in Hevents.
    rewrite <- Hevents. vm_compute. reflexivity. }
  rewrite Hpages. reflexivity.
Defined.

(** X2: the text [downloadToS3] writes for a non-empty page holds one
    record per line: no serialized record contains a line break, and
    splitting the text on the line break gives the serialized records in
    order, followed by one empty string (the text ends with a line
    break). *)
Theorem jsonl_holds_one_record_per_line (records : list record) :
  records <> [] ->
  Forall (fun record => occurs "010" (stringify (Sync.recordToJson record)) = false) records
  /\ split "010" (Download.jsonlContent records)
     = map (fun record => stringify (Sync.recordToJson record)) records ++ [EmptyString].
Proof.
  intros Hne.
  assert (Hlines : Forall (fun line => occurs "010" line = false)
                          (map (fun record => stringify (Sync.recordToJson record)) records)).
  { apply Forall_map, Forall_forall. intros record _. apply stringify_no_break. }
  split; [apply Forall_map in Hlines; exact Hlines|].
  unfold Download.jsonlContent. unfold Download.newline at 2.
  rewrite split_join_lines; [reflexivity | | exact Hlines].
  destruct records; [congruence | discriminate].
Qed.

Lemma jsonl_holds_one_record_per_line_witness :
  split "010" (Download.jsonlContent Warehouse.firstPage)
  = map (fun record => stringify (Sync.recordToJson record)) Warehouse.firstPage
    ++ [EmptyString].
Proof.
  exact (proj2 (jsonl_holds_one_record_per_line Warehouse.firstPage ltac:(discriminate))).
Defined.

(** X3: [downloadToS3] never returns a failure result: it returns
    success or throws.  When it throws, the requests it made are those of
    the staging of some pages, cut at the call that failed: a select
    (after the blobs of the pages before it were uploaded), the upload of
    the last blob, or the write of the manifest; in the first two cases
    no manifest was written. *)
Theorem download_throws_and_leaves_staged_blobs {W : Type} `{Staging W}
        (fuel : nat) (w w' : W) (r : outcome DownloadResult.t)
        (events : list downloadEvent) :
  Download.downloadToS3 fuel (w, []) = (r, (w', events)) ->
  (forall result, r = Ok result -> DownloadResult.success result = true)
  /\ (forall message,
         r = Throw message ->
         exists pages,
           Forall (fun page => page <> []) pages
           /\ (events = stagingTrace 0 0 pages
               \/ (pages <> [] /\ events = removelast (stagingTrace 0 0 pages))
               \/ exists manifestKey manifest w0 w1,
                    events = stagingTrace 0 0 pages
                             ++ [S3Upload manifestKey (Pretty manifest)]
                    /\ s3_upload manifestKey (Pretty manifest) w0 = (Throw message, w1))).
Proof.
  intros Hrun. unfold Download.downloadToS3, try_catch in Hrun. unfold bind at 1 in Hrun.
  destruct (fetchPages_shape fuel 0 0 0 [] (w, [])) as (pages & Hpages & Hshape).
  destruct (Download.fetchPages fuel 0 0 0 [] (w, []))
    as [[[[total count] names] | thrown |] [w1 tr1]]; cbn [fst snd] in *.
  - destruct Hshape as (-> & _).
    unfold bind, read, Download.uploadToS3, perform, ret, throw in Hrun.
    cbn [fst snd] in Hrun.
    destruct (clockISO w1) as [downloadedAt w2]. cbn [fst snd] in Hrun.
    destruct (clockISO w2) as [timestamp w3]. cbn [fst snd] in Hrun.
    match type of Hrun with
    | context [s3_upload ?key ?body w3] =>
        destruct (s3_upload key body w3) as [[[] | thrown |] w4] eqn:Hput;
        injection Hrun as <- <- <-;
        (split; [intros result [= <-]; reflexivity || discriminate
                | intros message [= <-] || (intros message; discriminate)])
    end.
    exists pages. split; [exact Hpages|]. right. right.
    eexists _, _, w3, w4. split; [reflexivity | exact Hput].
  - unfold throw in Hrun. injection Hrun as <- <- <-.
    split; [discriminate|]. intros message [= <-]. exists pages.
    split; [exact Hpages|]. destruct Hshape as [-> | [Hne ->]]; [now left | right; left].
    split; [exact Hne | reflexivity].
  - injection Hrun as <- <- <-. split; discriminate.
Qed.

Lemma download_throws_and_leaves_staged_blobs_witness :
  fst (Download.downloadToS3 5 (Warehouse.secondSelectRefused, []))
  = Throw "canceling statement due to statement timeout"
  /\ forall result,
       fst (Download.downloadToS3 5 (Warehouse.secondSelectRefused, [])) = Ok result ->
       DownloadResult.success result = true.
Proof.
  split; [vm_compute; reflexivity|].
  refine (proj1 (download_throws_and_leaves_staged_blobs
                   5 Warehouse.secondSelectRefused
                   (fst (snd (Download.downloadToS3 5 (Warehouse.secondSelectRefused, []))))
                   (fst (Download.downloadToS3 5 (Warehouse.secondSelectRefused, [])))
                   (snd (snd (Download.downloadToS3 5 (Warehouse.secondSelectRefused, []))))
                   _)).
  vm_compute. reflexivity.
Defined.

(* ===================================================================== *)
(** ** More properties of the reconciler (03_test.js)                    *)
(* ===================================================================== *)

Section SortFacts.
Context {A : Type} (compare : A -> A -> comparison) (rank : A -> Z).
Hypothesis compare_rank : forall a b, compare a b = Gt <-> (rank b < rank a)%Z.

Lemma insertSorted_head (x : A) (l : list A) :
  exists h t, insertSorted compare x l = h :: t
              /\ (h = x \/ In h l)
              /\ (rank h <= rank x)%Z
              /\ (forall y l', l = y :: l' -> (rank h <= rank y)%Z).
Proof.
  destruct l as [|y l']; cbn [insertSorted].
  - exists x, []. repeat split; [now left | lia | discriminate].
  - destruct (compare x y) eqn:Hcmp.
    + exists x, (y :: l'). repeat split; [now left | lia|].
      intros y0 l0 [= <- <-]. destruct (Z.le_gt_cases (rank x) (rank y)); [assumption|].
      apply compare_rank in H. congruence.
    + exists x, (y :: l'). repeat split; [now left | lia|].
      intros y0 l0 [= <- <-]. destruct (Z.le_gt_cases (rank x) (rank y)); [assumption|].
      apply compare_rank in H. congruence.
    + apply compare_rank in Hcmp. exists y, (insertSorted compare x l').
      repeat split; [right; now left | lia|]. intros y0 l0 [= <- <-]. lia.
Qed.

Lemma insertSorted_In (x y : A) (l : list A) :
  In y (insertSorted compare x l) <-> y = x \/ In y l.
Proof.
  induction l as [|z l IH]; cbn [insertSorted In]; [intuition congruence|].
  destruct (compare x z); cbn [In]; [intuition congruence | intuition congruence|].
  rewrite IH. intuition congruence.
Qed.

(** Sorting keeps the elements. *)
Lemma sort_In (y : A) (l : list A) : In y (sort compare l) <-> In y l.
Proof.
  induction l as [|a l IH]; [reflexivity|].
  unfold sort. cbn [fold_right In]. fold (sort compare l).
  rewrite insertSorted_In, IH. intuition congruence.
Qed.

(** The first element of a sorted array has the least rank. *)
Lemma sort_head (l : list A) (x : A) (rest : list A) :
  sort compare l = x :: rest ->
  In x l /\ forall y, In y l -> (rank x <= rank y)%Z.
Proof.
  revert x rest. induction l as [|a l IH]; intros x rest; [discriminate|].
  unfold sort. cbn [fold_right]. fold (sort compare l). intros Hsorted.
  split; [apply sort_In; unfold sort at 1; cbn [fold_right]; fold (sort compare l);
          rewrite Hsorted; now left|].
  destruct (insertSorted_head a (sort compare l)) as (h & t & Heq & _ & Hle & Hhead).
  rewrite Heq in Hsorted. injection Hsorted as -> ->.
  intros z [<- | Hz]; [exact Hle|].
  destruct (sort compare l) as [|y l'] eqn:Hl.
  - apply sort_In in Hz. rewrite Hl in Hz. destruct Hz.
  - destruct (IH y l' eq_refl) as [_ Hmin]. specialize (Hhead y l' eq_refl).
    specialize (Hmin z Hz). lia.
Qed.

End SortFacts.

Lemma sort_nonempty {A : Type} (compare : A -> A -> comparison) (a : A) (l : list A) :
  sort compare (a :: l) <> [].
Proof.
  unfold sort. cbn [fold_right].
  destruct (fold_right (insertSorted compare) [] l) as [|y l']; cbn [insertSorted];
    [discriminate|]. destruct (compare a y); discriminate.
Qed.

(** X4: when the duplicate check finds an identifier indexed more than
    once, [testSync] reports failure with the number of such
    identifiers and nothing else (no count, no missing), and it does not
    list or read any manifest: its requests are the count and the two
    searches. *)
Theorem duplicates_fail_test_before_manifest {W : Type} `{Collaborators W}
        (w w1 w2 w3 : W) (tr : list event) (count : Z) (buckets : list Z) :
  os_count w = (Ok count, w1) ->
  os_search_sample w1 = (Ok tt, w2) ->
  os_search_duplicates w2 = (Ok buckets, w3) ->
  (exists doc_count, In doc_count buckets /\ (1 < doc_count)%Z) ->
  let duplicates := filter (fun doc_count => (1 <? doc_count)%Z) buckets in
  0 < List.length duplicates
  /\ Test.testSync (w, tr)
     = (Ok {| TestResult.success := false; TestResult.totalRecords := None;
              TestResult.missing := None; TestResult.extra := None;
              TestResult.duplicates := Some (List.length duplicates);
              TestResult.error := None; TestResult.criticalMissing := None |},
        (w3, tr ++ [OsCount; OsSearchSample; OsSearchDuplicates])).
Proof.
  intros Hcount Hsample Hdup (doc_count & Hin & Hgt) duplicates.
  assert (Hpos : 0 < List.length duplicates).
  { assert (Hd : In doc_count duplicates)
      by (apply filter_In; split; [exact Hin | apply Z.ltb_lt; exact Hgt]).
    destruct duplicates; [destruct Hd | cbn; lia]. }
  split; [exact Hpos|].
  unfold Test.testSync, try_catch, bind, perform, ret. cbn [fst snd].
  rewrite Hcount. cbn [fst snd]. rewrite Hsample. cbn [fst snd]. rewrite Hdup.
  fold duplicates. destruct (Nat.ltb_spec 0 (List.length duplicates)) as [_ | Hle]; [|lia].
  cbn [fst snd]. rewrite <- !app_assoc. reflexivity.
Qed.

Lemma duplicates_fail_test_before_manifest_witness :
  Test.testSync (Ledger.duplicated, [])
  = (Ok {| TestResult.success := false; TestResult.totalRecords := None;
           TestResult.missing := None; TestResult.extra := None;
           TestResult.duplicates := Some 2;
           TestResult.error := None; TestResult.criticalMissing := None |},
     (Ledger.duplicated, [OsCount; OsSearchSample; OsSearchDuplicates])).
Proof.
  refine (proj2 (duplicates_fail_test_before_manifest
                   Ledger.duplicated Ledger.duplicated Ledger.duplicated Ledger.duplicated
                   [] 80%Z [1; 2; 1; 3]%Z eq_refl eq_refl eq_refl _)).
  exists 2%Z. split; [right; now left | lia].
Defined.

(** X5: [testSync] never throws, and it reports failure for four
    reasons only: the count or one of the two searches threw (the
    result carries that error, and no manifest was listed); an
    identifier is indexed more than once; the latest manifest was read
    and announces more records than the index holds (the result carries
    the difference as [missing]); or the latest manifest was read and
    holds no number of records (the result carries [extra], which is
    [NaN]). *)
Theorem testSync_failure_reasons {W : Type} `{Collaborators W}
        (w w' : W) (r : outcome TestResult.t) (events : list event) :
  Test.testSync (w, []) = (r, (w', events)) ->
  (forall message, r <> Throw message)
  /\ (forall t,
         r = Ok t -> TestResult.success t = false ->
         (exists message,
             TestResult.error t = Some message
             /\ Forall (fun e => e = OsCount \/ e = OsSearchSample \/ e = OsSearchDuplicates)
                       events)
         \/ (exists n, TestResult.duplicates t = Some n /\ 0 < n)
         \/ (exists actual key summary w0 w1,
                In (S3Get key) events
                /\ s3_get_summary key w0 = (Ok (Some summary), w1)
                /\ ((exists expected,
                        manifest_totalRecords summary = Int expected
                        /\ (actual < expected)%Z
                        /\ t = TestResult.make false (Some actual)
                                               (Some (Int (expected - actual))) None)
                    \/ (manifest_totalRecords summary = NaN
                        /\ t = TestResult.make false (Some actual) None (Some NaN))))).
Proof.
  intros Hrun.
  split.
  { intros message ->.
    unfold Test.testSync, try_catch in Hrun.
    match type of Hrun with
    | (match ?m with _ => _ end) = _ => destruct m as [[t | m' |] st1]
    end; unfold ret in Hrun; discriminate. }
  intros t -> Hfailed.
  unfold Test.testSync in Hrun. unfold try_catch at 1 in Hrun.
  unfold bind at 1 in Hrun. unfold perform at 1 in Hrun. cbn [fst snd] in Hrun.
  destruct (os_count w) as [[count | m |] w1].
  2:{ injection Hrun as <- <- <-. left. exists m. split; [reflexivity | repeat constructor]. }
  2:{ discriminate. }
  unfold bind at 1 in Hrun. unfold perform at 1 in Hrun. cbn [fst snd] in Hrun.
  destruct (os_search_sample w1) as [[[] | m |] w2].
  2:{ injection Hrun as <- <- <-. left. exists m.
      split; [reflexivity | repeat constructor; tauto]. }
  2:{ discriminate. }
  unfold bind at 1 in Hrun. unfold perform at 1 in Hrun. cbn [fst snd] in Hrun.
  destruct (os_search_duplicates w2) as [[buckets | m |] w3].
  2:{ injection Hrun as <- <- <-. left. exists m.
      split; [reflexivity | repeat constructor; tauto]. }
  2:{ discriminate. }
  destruct (Nat.ltb_spec 0 (List.length (filter (fun d => (1 <? d)%Z) buckets)))
    as [Hdup | Hnodup].
  { unfold ret in Hrun. injection Hrun as <- <- <-. right. left.
    eexists. split; [reflexivity | exact Hdup]. }
  right. right.
  unfold try_catch at 1 in Hrun. unfold bind at 1 in Hrun. unfold perform at 1 in Hrun.
  cbn [fst snd] in Hrun.
  destruct (s3_list (Some "log/download_summary_") None w3) as [[page | m |] w4].
  2:{ unfold ret in Hrun. injection Hrun as <- <- <-. discriminate. }
  2:{ discriminate. }
  destruct (Contents page) as [[|file files]|];
    cbn [List.length Nat.eqb] in Hrun;
    try (unfold ret in Hrun; injection Hrun as <- <- <-; discriminate).
  destruct (sort (fun a b => Z.compare (LastModified b) (LastModified a)) (file :: files))
    as [|latest others].
  { unfold throw, ret in Hrun. injection Hrun as <- <- <-. discriminate. }
  unfold bind, perform, ret, throw in Hrun. cbn [fst snd] in Hrun.
  destruct (s3_get_summary (Key latest) w4) as [[[summary|] | m |] w5] eqn:Hget;
    try (injection Hrun as <- <- <-; discriminate); try discriminate.
  injection Hrun as <- <- <-.
  exists count, (Key latest), summary, w4, w5.
  split; [rewrite ?in_app_iff; cbn [In app]; tauto|].
  split; [exact Hget|].
  revert Hfailed. destruct (manifest_totalRecords summary) as [expected|].
  - intros Hfailed. left. exists expected. split; [reflexivity|].
    destruct (Z.compare_spec expected count) as [-> | Hlt | Hgt].
    + rewrite countComparison_equal in Hfailed. discriminate.
    + rewrite countComparison_accumulated in Hfailed by exact Hlt. discriminate.
    + split; [exact Hgt|]. apply countComparison_missing. lia.
  - intros _. right. split; reflexivity.
Qed.

Lemma testSync_failure_reasons_witness :
  exists actual key,
    In (S3Get key) (snd (snd (Test.testSync (Ledger.manifestWithoutCount, []))))
    /\ fst (Test.testSync (Ledger.manifestWithoutCount, []))
       = Ok (TestResult.make false (Some actual) None (Some NaN)).
Proof.
  assert (Hrun : Test.testSync (Ledger.manifestWithoutCount, [])
                 = (Ok (TestResult.make false (Some 80%Z) None (Some NaN)),
                    (fst (snd (Test.testSync (Ledger.manifestWithoutCount, []))),
                     snd (snd (Test.testSync (Ledger.manifestWithoutCount, []))))))
    by (vm_compute; reflexivity).
  destruct (proj2 (testSync_failure_reasons _ _ _ _ Hrun) _ eq_refl eq_refl)
    as [(message & Herror & _) | [(n & Hduplicates & _)
                                 | (actual & key & summary & w0 & w1 & Hin & _ & Hreason)]].
  - discriminate Herror.
  - discriminate Hduplicates.
  - exists actual, key. split; [exact Hin|].
    destruct Hreason as [(expected & _ & _ & Ht) | (_ & Ht)]; [discriminate Ht|].
    rewrite Hrun. cbn [fst]. now rewrite Ht.
Defined.

(** X6: once the count and the searches have answered and no identifier
    is duplicated, trouble with the manifest never fails the test: when
    the listing of the manifests throws, when it lists nothing, when the
    latest manifest cannot be read, or when it is not JSON, [testSync]
    reports success with the count of the index and no [missing]. *)
Theorem manifest_trouble_passes_test {W : Type} `{Collaborators W}
        (w w1 w2 w3 : W) (tr : list event) (count : Z) (buckets : list Z) :
  os_count w = (Ok count, w1) ->
  os_search_sample w1 = (Ok tt, w2) ->
  os_search_duplicates w2 = (Ok buckets, w3) ->
  filter (fun doc_count => (1 <? doc_count)%Z) buckets = [] ->
  let passed := Ok (TestResult.make true (Some count) None None) in
  (forall message w4,
      s3_list (Some "log/download_summary_") None w3 = (Throw message, w4) ->
      fst (Test.testSync (w, tr)) = passed)
  /\ (forall page w4,
         s3_list (Some "log/download_summary_") None w3 = (Ok page, w4) ->
         Contents page = None \/ Contents page = Some [] ->
         fst (Test.testSync (w, tr)) = passed)
  /\ (forall page w4 files latest others w5,
         s3_list (Some "log/download_summary_") None w3 = (Ok page, w4) ->
         Contents page = Some files ->
         sort (fun a b => Z.compare (LastModified b) (LastModified a)) files
         = latest :: others ->
         (exists message, s3_get_summary (Key latest) w4 = (Throw message, w5))
         \/ s3_get_summary (Key latest) w4 = (Ok None, w5) ->
         fst (Test.testSync (w, tr)) = passed).
Proof.
  intros Hcount Hsample Hdup Hnodup passed. subst passed.
  split; [|split].
  - intros message w4 Hlist.
    unfold Test.testSync, try_catch, bind, perform, ret. cbn [fst snd].
    rewrite Hcount. cbn [fst snd]. rewrite Hsample. cbn [fst snd]. rewrite Hdup, Hnodup.
    cbn [fst snd List.length Nat.ltb Nat.leb]. rewrite Hlist. reflexivity.
  - intros page w4 Hlist Hempty.
    unfold Test.testSync, try_catch, bind, perform, ret. cbn [fst snd].
    rewrite Hcount. cbn [fst snd]. rewrite Hsample. cbn [fst snd]. rewrite Hdup, Hnodup.
    cbn [fst snd List.length Nat.ltb Nat.leb]. rewrite Hlist.
    destruct Hempty as [-> | ->]; reflexivity.
  - intros page w4 files latest others w5 Hlist Hcontents Hsort Hget.
    unfold Test.testSync, try_catch, bind, perform, ret, throw. cbn [fst snd].
    rewrite Hcount. cbn [fst snd]. rewrite Hsample. cbn [fst snd]. rewrite Hdup, Hnodup.
    cbn [fst snd List.length Nat.ltb Nat.leb]. rewrite Hlist, Hcontents. cbn [fst snd].
    destruct files as [|file files]; [discriminate|].
    cbn [List.length Nat.eqb]. rewrite Hsort. cbn [fst snd].
    destruct Hget as [[message ->] | ->]; reflexivity.
Qed.

Lemma manifest_trouble_passes_test_witness :
  fst (Test.testSync (Ledger.manifestUnreadable, []))
  = Ok (TestResult.make true (Some 80%Z) None None).
Proof.
  refine (proj2 (proj2 (manifest_trouble_passes_test
                          Ledger.manifestUnreadable Ledger.manifestUnreadable
                          Ledger.manifestUnreadable Ledger.manifestUnreadable
                          [] 80%Z [] eq_refl eq_refl eq_refl eq_refl))
                _ (snd (s3_list (Some "log/download_summary_") None Ledger.manifestUnreadable))
                _ {| Key := "log/download_summary_a.json"; LastModified := 10 |} []
                (snd (s3_list (Some "log/download_summary_") None Ledger.manifestUnreadable))
                eq_refl eq_refl eq_refl _).
  left. exists "AccessDenied". reflexivity.
Defined.

(** X7: the manifest [testSync] compares with is the most recently
    modified one of the first page of the listing: with the count and the
    searches answered, no duplicated identifier and a listing of at least
    one manifest, the requests are the count, the two searches, one
    listing (no continuation is followed) and the get of a listed
    manifest whose [LastModified] is the greatest; when that manifest
    parses, the result is the comparison of its [totalRecords] with the
    count. *)
Theorem testSync_reads_latest_manifest {W : Type} `{Collaborators W}
        (w w1 w2 w3 w4 : W) (tr : list event) (count : Z) (buckets : list Z)
        (page : ListObjectsV2Output) (file : S3Object) (files : list S3Object) :
  os_count w = (Ok count, w1) ->
  os_search_sample w1 = (Ok tt, w2) ->
  os_search_duplicates w2 = (Ok buckets, w3) ->
  filter (fun doc_count => (1 <? doc_count)%Z) buckets = [] ->
  s3_list (Some "log/download_summary_") None w3 = (Ok page, w4) ->
  Contents page = Some (file :: files) ->
  exists latest,
    In latest (file :: files)
    /\ (forall other, In other (file :: files) ->
                      (LastModified other <= LastModified latest)%Z)
    /\ snd (snd (Test.testSync (w, tr)))
       = tr ++ [OsCount; OsSearchSample; OsSearchDuplicates;
                S3List (Some "log/download_summary_") None; S3Get (Key latest)]
    /\ (forall summary w5,
           s3_get_summary (Key latest) w4 = (Ok (Some summary), w5) ->
           fst (Test.testSync (w, tr))
           = Ok (Test.countComparison (manifest_totalRecords summary) count)).
Proof.
  intros Hcount Hsample Hdup Hnodup Hlist Hcontents.
  destruct (sort (fun a b => Z.compare (LastModified b) (LastModified a)) (file :: files))
    as [|latest others] eqn:Hsort; [exfalso; exact (sort_nonempty _ _ _ Hsort)|].
  destruct (sort_head (fun a b => Z.compare (LastModified b) (LastModified a))
                      (fun a => (- LastModified a)%Z)
                      ltac:(intros a b; rewrite Z.compare_gt_iff; lia)
                      _ _ _ Hsort) as [Hin Hmax].
  exists latest. split; [exact Hin|].
  split; [intros other Hother; specialize (Hmax other Hother); lia|].
  split.
  - unfold Test.testSync, try_catch, bind, perform, ret, throw. cbn [fst snd].
    rewrite Hcount. cbn [fst snd]. rewrite Hsample. cbn [fst snd]. rewrite Hdup, Hnodup.
    cbn [fst snd List.length Nat.ltb Nat.leb]. rewrite Hlist, Hcontents. cbn [fst snd].
    cbn [List.length Nat.eqb]. rewrite Hsort. cbn [fst snd].
    destruct (s3_get_summary (Key latest) w4) as [[[summary|] | m |] w5];
      cbn [fst snd]; rewrite <- !app_assoc; reflexivity.
  - intros summary w5 Hget.
    unfold Test.testSync, try_catch, bind, perform, ret, throw. cbn [fst snd].
    rewrite Hcount. cbn [fst snd]. rewrite Hsample. cbn [fst snd]. rewrite Hdup, Hnodup.
    cbn [fst snd List.length Nat.ltb Nat.leb]. rewrite Hlist, Hcontents. cbn [fst snd].
    cbn [List.length Nat.eqb]. rewrite Hsort. cbn [fst snd]. rewrite Hget. reflexivity.
Qed.

Lemma testSync_reads_latest_manifest_witness :
  exists latest,
    (LastModified {| Key := "log/download_summary_a.json"; LastModified := 10 |}
     <= LastModified latest)%Z
    /\ (LastModified {| Key := "log/download_summary_b.json"; LastModified := 20 |}
        <= LastModified latest)%Z
    /\ snd (snd (Test.testSync (Ledger.twoManifests, [])))
       = [OsCount; OsSearchSample; OsSearchDuplicates;
          S3List (Some "log/download_summary_") None; S3Get (Key latest)].
Proof.
  assert (Hcount : os_count Ledger.twoManifests = (Ok 80%Z, Ledger.twoManifests))
    by reflexivity.
  assert (Hsample : os_search_sample Ledger.twoManifests = (Ok tt, Ledger.twoManifests))
    by reflexivity.
  assert (Hdup : os_search_duplicates Ledger.twoManifests
                 = (Ok [1; 1]%Z, Ledger.twoManifests)) by reflexivity.
  assert (Hlist : s3_list (Some "log/download_summary_") None Ledger.twoManifests
                  = (Ok (Ledger.onePage
                           [ {| Key := "log/download_summary_a.json"; LastModified := 10 |};
                             {| Key := "log/download_summary_b.json"; LastModified := 20 |} ]),
                     snd (s3_list (Some "log/download_summary_") None Ledger.twoManifests)))
    by reflexivity.
  destruct (testSync_reads_latest_manifest _ _ _ _ _ [] _ _ _ _ _
                                           Hcount Hsample Hdup eq_refl Hlist eq_refl)
    as (latest & _ & Hmax & Htrace & _).
  exists latest. split; [apply Hmax; now left|].
  split; [apply Hmax; right; now left | exact Htrace].
Defined.

(* ===================================================================== *)
(** ** Properties of the commit marker (04_mark_synced.js)               *)
(* ===================================================================== *)

Lemma setAdd_In (x y : Z) (s : list Z) : In y (setAdd x s) <-> y = x \/ In y s.
Proof.
  unfold setAdd. destruct (existsb (Z.eqb x) s) eqn:Hmem.
  - apply existsb_exists in Hmem. destruct Hmem as (z & Hz & Heq).
    apply Z.eqb_eq in Heq. subst z. intuition congruence.
  - rewrite in_app_iff. cbn [In]. intuition congruence.
Qed.

Lemma setAdd_NoDup (x : Z) (s : list Z) : NoDup s -> NoDup (setAdd x s).
Proof.
  intros Hs. unfold setAdd. destruct (existsb (Z.eqb x) s) eqn:Hmem; [exact Hs|].
  apply NoDup_app; [exact Hs | repeat constructor; intros [] |].
  intros y Hy [Heq | []]. subst y.
  assert (Hex : existsb (Z.eqb x) s = true)
    by (apply existsb_exists; exists x; split; [exact Hy | apply Z.eqb_refl]).
  congruence.
Qed.

(** [ids.forEach(id => set.add(id))] *)
Lemma addAll_In (ids s : list Z) (y : Z) :
  In y (fold_left (fun acc x => setAdd x acc) ids s) <-> In y s \/ In y ids.
Proof.
  revert s. induction ids as [|x ids IH]; intros s; cbn [fold_left In]; [tauto|].
  rewrite IH, setAdd_In. intuition congruence.
Qed.

Lemma addAll_NoDup (ids s : list Z) :
  NoDup s -> NoDup (fold_left (fun acc x => setAdd x acc) ids s).
Proof.
  revert s. induction ids as [|x ids IH]; intros s Hs; [exact Hs|].
  cbn [fold_left]. apply IH, setAdd_NoDup, Hs.
Qed.

Section MarkerFacts.
Context {W : Type} `{Collaborators W}.
Import Mark.

(** The loop over the checkpoint logs only sends gets, one per log and
    in order, stopping at the first log that cannot be read or is not
    JSON; when it returns, the set holds what it held and the
    identifiers of every log, each once. *)
Lemma readLogs_shape (logFiles : list S3Object) (allIdsSet : list Z)
      (st : state (W := W) (E := event)) :
  exists read,
    snd (snd (readLogs logFiles allIdsSet st)) = snd st ++ map S3Get (map Key read)
    /\ match fst (readLogs logFiles allIdsSet st) with
       | Ok syncedIds =>
           read = logFiles
           /\ exists logs,
               Forall2 (fun file log =>
                          exists w0 w1, s3_get_sync_log (Key file) w0 = (Ok (Some log), w1))
                       logFiles logs
               /\ (NoDup allIdsSet -> NoDup syncedIds)
               /\ (forall x, In x syncedIds <-> In x allIdsSet \/ In x (flat_map idsOf logs))
       | _ => True
       end.
Proof.
  revert allIdsSet st. induction logFiles as [|logFile rest IH]; intros allIdsSet [w tr].
  - exists []. cbn. rewrite app_nil_r. split; [reflexivity|]. split; [reflexivity|].
    exists []. repeat split; try constructor; cbn; tauto.
  - cbn [readLogs]. unfold bind, perform, throw. cbn [fst snd].
    destruct (s3_get_sync_log (Key logFile) w) as [[[log|] | m |] w1] eqn:Hget;
      cbn [fst snd].
    2,3,4: exists [logFile]; cbn; split; [reflexivity | exact I].
    destruct (IH (fold_left (fun s x => setAdd x s) (idsOf log) allIdsSet)
                 (w1, tr ++ [S3Get (Key logFile)])) as (read & Htrace & Hres).
    fold (idsOf log).
    exists (logFile :: read). cbn [fst snd] in *.
    split; [rewrite Htrace, <- app_assoc; reflexivity|].
    destruct (readLogs rest _ _) as [[ids | m |] st']; cbn [fst] in *; try exact I.
    destruct Hres as (-> & logs & Hall & Hnodup & Hin).
    split; [reflexivity|]. exists (log :: logs).
    split; [constructor; eauto|].
    split; [intros Hs; apply Hnodup, addAll_NoDup, Hs|].
    intros x. rewrite Hin, addAll_In. cbn [flat_map]. rewrite in_app_iff. tauto.
Qed.

End MarkerFacts.

Section MarkerLoopFacts.
Context {W : Type} `{Collaborators W}.
Import Mark.

(** The loop over the batches of identifiers: the updates sent are
    consecutive slices of at most [batchSize] identifiers; when the loop
    returns, they cover the identifiers from [i] on, and the count has
    grown by at most their number (by nothing when every update is
    answered with an error, by their number when none is).  The loop
    throws or hangs only when an update does. *)
Lemma updateBatches_shape (fuel : nat) (syncedIds : list Z) (batchSize i totalUpdated : nat)
      (st : state (W := W) (E := event)) :
  1 <= batchSize -> List.length syncedIds - i <= fuel ->
  exists batches,
    snd (snd (updateBatches fuel syncedIds batchSize i totalUpdated st))
    = snd st ++ map DbUpdate batches
    /\ Forall (fun batch => 1 <= List.length batch <= batchSize) batches
    /\ match fst (updateBatches fuel syncedIds batchSize i totalUpdated st) with
       | Ok totalUpdated' =>
           List.concat batches = skipn i syncedIds
           /\ totalUpdated <= totalUpdated'
              <= totalUpdated + List.length (skipn i syncedIds)
           /\ ((forall batch w, exists message w',
                   db_update batch w = (Ok (Some message), w')) ->
               totalUpdated' = totalUpdated)
           /\ ((forall batch w, exists w', db_update batch w = (Ok None, w')) ->
               totalUpdated' = totalUpdated + List.length (skipn i syncedIds))
       | Throw message =>
           exists batch w0 w1, db_update batch w0 = (Throw message, w1)
       | Diverge => exists batch w0 w1, db_update batch w0 = (Diverge, w1)
       end.
Proof.
  intros HB. revert i totalUpdated st.
  induction fuel as [|fuel IH]; intros i n [w tr] Hfuel.
  - cbn [updateBatches]. destruct (Nat.ltb_spec i (List.length syncedIds)) as [Hlt | Hge];
      [lia|].
    exists []. cbn. rewrite app_nil_r, skipn_all2 by lia. cbn.
    repeat split; try constructor; try lia; intros; lia.
  - cbn [updateBatches]. destruct (Nat.ltb_spec i (List.length syncedIds)) as [Hlt | Hge].
    2:{ exists []. cbn. rewrite app_nil_r, skipn_all2 by lia. cbn.
        repeat split; try constructor; try lia; intros; lia. }
    set (batch := slice syncedIds i (i + batchSize)).
    assert (Hbatch : batch = firstn batchSize (skipn i syncedIds))
      by (unfold batch, slice; f_equal; lia).
    assert (Hrest : skipn (i + batchSize) syncedIds = skipn batchSize (skipn i syncedIds))
      by (rewrite skipn_skipn; f_equal; lia).
    assert (Hlen : 1 <= List.length batch <= batchSize).
    { rewrite Hbatch, length_firstn, length_skipn. lia. }
    unfold bind, perform. cbn [fst snd].
    destruct (db_update batch w) as [[[message|] | message |] w1] eqn:Hupdate; cbn [fst snd].
    + destruct (IH (i + batchSize) n (w1, tr ++ [DbUpdate batch]) ltac:(lia))
        as (batches & Htrace & Hsizes & Hres).
      exists (batch :: batches). cbn [fst snd] in *.
      split; [rewrite Htrace, <- app_assoc; reflexivity|].
      split; [constructor; assumption|].
      destruct (updateBatches fuel syncedIds batchSize (i + batchSize) n _)
        as [[n' | m |] st']; cbn [fst] in *; try exact Hres.
      destruct Hres as (Hcover & Hbound & Herr & Hok).
      split; [cbn [List.concat]; rewrite Hcover, Hrest, Hbatch; apply firstn_skipn|].
      assert (Hsplit : List.length (skipn i syncedIds)
                       = List.length batch
                         + List.length (skipn (i + batchSize) syncedIds)).
      { rewrite <- (firstn_skipn batchSize (skipn i syncedIds)) at 1.
        rewrite length_app, <- Hbatch, <- Hrest. reflexivity. }
      split; [lia|].
      split; [exact Herr|]. intros Hall.
      destruct (Hall batch w) as (w' & Hnone). congruence.
    + destruct (IH (i + batchSize) (n + List.length batch) (w1, tr ++ [DbUpdate batch])
                   ltac:(lia))
        as (batches & Htrace & Hsizes & Hres).
      exists (batch :: batches). cbn [fst snd] in *.
      split; [rewrite Htrace, <- app_assoc; reflexivity|].
      split; [constructor; assumption|].
      destruct (updateBatches fuel syncedIds batchSize (i + batchSize) _ _)
        as [[n' | m |] st']; cbn [fst] in *; try exact Hres.
      destruct Hres as (Hcover & Hbound & Herr & Hok).
      split; [cbn [List.concat]; rewrite Hcover, Hrest, Hbatch; apply firstn_skipn|].
      assert (Hsplit : List.length (skipn i syncedIds)
                       = List.length batch
                         + List.length (skipn (i + batchSize) syncedIds)).
      { rewrite <- (firstn_skipn batchSize (skipn i syncedIds)) at 1.
        rewrite length_app, <- Hbatch, <- Hrest. reflexivity. }
      split; [lia|].
      split; [intros Hall; destruct (Hall batch w) as (m & w' & Hsome); congruence|].
      intros Hall. rewrite (Hok Hall). lia.
    + exists [batch]. cbn. split; [reflexivity|]. split; [repeat constructor; lia|].
      exists batch, w, w1. exact Hupdate.
    + exists [batch]. cbn. split; [reflexivity|]. split; [repeat constructor; lia|].
      exists batch, w, w1. exact Hupdate.
Qed.

End MarkerLoopFacts.

Section MarkerRuns.
Context {W : Type} `{Collaborators W}.

(** The ways through [markAsSynced]. *)
Lemma markAsSynced_cases (workflowId : option string) (w : W) (tr : list event) :
  let listed := tr ++ [S3List (Some (checkpointPrefix workflowId)) None] in
  match s3_list (Some (checkpointPrefix workflowId)) None w with
  | (Ok page, w1) =>
      match Contents page with
      | Some (file :: files) =>
          let logFiles := sort (fun a b => Z.compare (LastModified a) (LastModified b))
                               (file :: files) in
          match Mark.readLogs logFiles [] (w1, listed) with
          | (Ok syncedIds, st2) =>
              match Mark.updateBatches (List.length syncedIds) syncedIds 1000 0 0 st2 with
              | (Ok totalUpdated, st3) =>
                  Mark.markAsSynced workflowId (w, tr)
                  = (Ok {| MarkResult.success := true; MarkResult.error := None;
                           MarkResult.totalUpdated := Some totalUpdated;
                           MarkResult.totalIds := Some (List.length syncedIds);
                           MarkResult.logFiles := Some (map Key logFiles);
                           MarkResult.message := None |}, st3)
              | (Throw message, st3) =>
                  Mark.markAsSynced workflowId (w, tr)
                  = (Ok {| MarkResult.success := false; MarkResult.error := Some message;
                           MarkResult.totalUpdated := Some 0; MarkResult.totalIds := None;
                           MarkResult.logFiles := None; MarkResult.message := None |}, st3)
              | (Diverge, st3) => Mark.markAsSynced workflowId (w, tr) = (Diverge, st3)
              end
          | (Throw message, st2) =>
              Mark.markAsSynced workflowId (w, tr)
              = (Ok {| MarkResult.success := false; MarkResult.error := Some message;
                       MarkResult.totalUpdated := Some 0; MarkResult.totalIds := None;
                       MarkResult.logFiles := None; MarkResult.message := None |}, st2)
          | (Diverge, st2) => Mark.markAsSynced workflowId (w, tr) = (Diverge, st2)
          end
      | _ =>
          Mark.markAsSynced workflowId (w, tr)
          = (Ok {| MarkResult.success := false;
                   MarkResult.error := Some "No sync log files found";
                   MarkResult.totalUpdated := None; MarkResult.totalIds := None;
                   MarkResult.logFiles := None; MarkResult.message := None |},
             (w1, listed))
      end
  | (Throw message, w1) =>
      Mark.markAsSynced workflowId (w, tr)
      = (Ok {| MarkResult.success := false; MarkResult.error := Some message;
               MarkResult.totalUpdated := Some 0; MarkResult.totalIds := None;
               MarkResult.logFiles := None; MarkResult.message := None |}, (w1, listed))
  | (Diverge, w1) => Mark.markAsSynced workflowId (w, tr) = (Diverge, (w1, listed))
  end.
Proof.
  intros listed. subst listed.
  unfold Mark.markAsSynced, try_catch, checkpointPrefix.
  set (prefix := if truthy workflowId then _ else _).
  unfold bind, perform, ret, throw. cbn [fst snd].
  destruct (s3_list (Some prefix) None w) as [[page | m |] w1]; try reflexivity.
  destruct (Contents page) as [[|file files]|]; try reflexivity.
  cbn [List.length Nat.eqb].
  destruct (Mark.readLogs _ [] _) as [[syncedIds | m |] st2]; try reflexivity.
  destruct (Mark.updateBatches _ _ _ _ _ _) as [[n | m |] st3]; reflexivity.
Qed.

End MarkerRuns.

Lemma updatesOf_app (l1 l2 : list event) : updatesOf (l1 ++ l2) = updatesOf l1 ++ updatesOf l2.
Proof. unfold updatesOf. apply flat_map_app. Qed.

Lemma getsOf_app (l1 l2 : list event) : getsOf (l1 ++ l2) = getsOf l1 ++ getsOf l2.
Proof. unfold getsOf. apply flat_map_app. Qed.

Lemma updatesOf_updates (batches : list (list Z)) : updatesOf (map DbUpdate batches) = batches.
Proof. induction batches as [|b l IH]; [reflexivity|]. cbn. f_equal. exact IH. Qed.

Lemma updatesOf_gets (keys : list string) : updatesOf (map S3Get keys) = [].
Proof. induction keys as [|k l IH]; [reflexivity | exact IH]. Qed.







(** X10: an update that is answered with an error does not fail the
    stage.  With a store that answers every update with an error,
    [markAsSynced] still sends every batch and reports success, with
    [totalUpdated] 0 and [totalIds] the number of identifiers it tried
    to mark. *)
Theorem mark_reports_success_when_every_update_is_refused {W : Type} `{Collaborators W}
        (workflowId : option string) (w w' : W) (r : outcome MarkResult.t)
        (events : list event) :
  (forall batch w0, exists message w1, db_update batch w0 = (Ok (Some message), w1)) ->
  Mark.markAsSynced workflowId (w, []) = (r, (w', events)) ->
  updatesOf events <> [] ->
  exists logFiles,
    r = Ok {| MarkResult.success := true; MarkResult.error := None;
              MarkResult.totalUpdated := Some 0;
              MarkResult.totalIds := Some (List.length (List.concat (updatesOf events)));
              MarkResult.logFiles := Some logFiles;
              MarkResult.message := None |}
    /\ 0 < List.length (List.concat (updatesOf events)).
Proof.
  intros Hrefused Hrun Hsent. pose proof (markAsSynced_cases workflowId w []) as Hcases.
  cbv zeta in Hcases. cbn [app] in Hcases.
  destruct (s3_list (Some (checkpointPrefix workflowId)) None w) as [[page | m |] w1].
  2,3: rewrite Hcases in Hrun; injection Hrun as <- <- <-; now destruct Hsent.
  destruct (Contents page) as [[|file files]|].
  1,3: rewrite Hcases in Hrun; injection Hrun as <- <- <-; now destruct Hsent.
  set (logFiles := sort (fun a b => Z.compare (LastModified a) (LastModified b))
                        (file :: files)) in *.
  destruct (readLogs_shape logFiles []
                           (w1, [S3List (Some (checkpointPrefix workflowId)) None]))
    as (read & Hgets & Hread).
  destruct (Mark.readLogs logFiles [] _) as [[syncedIds | m |] [w2 tr2]]; cbn [fst snd] in *.
  2,3: rewrite Hcases in Hrun; injection Hrun as <- <- <-; subst tr2; exfalso; apply Hsent;
       rewrite updatesOf_app, updatesOf_gets; reflexivity.
  destruct Hread as (-> & _).
  destruct (updateBatches_shape (List.length syncedIds) syncedIds 1000 0 0 (w2, tr2)
                                ltac:(lia) ltac:(lia))
    as (batches & Hupdates & Hsizes & Hres).
  destruct (Mark.updateBatches _ syncedIds 1000 0 0 (w2, tr2)) as [[n | m |] [w3 tr3]];
    cbn [fst snd] in *;
    rewrite Hcases in Hrun; injection Hrun as <- <- <-.
  - subst tr3 tr2. destruct Hres as (Hcover & _ & Hzero & _). cbn [skipn] in Hcover.
    rewrite (Hzero Hrefused).
    assert (Hbatches : updatesOf (([S3List (Some (checkpointPrefix workflowId)) None]
                                     ++ map S3Get (map Key logFiles)) ++ map DbUpdate batches)
                       = batches).
    { rewrite !updatesOf_app, updatesOf_gets, updatesOf_updates. reflexivity. }
    rewrite Hbatches in *. rewrite Hcover. exists (map Key logFiles).
    split; [reflexivity|].
    destruct batches as [|batch batches]; [congruence|].
    rewrite <- Hcover. cbn [List.concat]. rewrite length_app.
    inversion Hsizes; subst. lia.
  - destruct Hres as (batch & w0 & w4 & Hthrow).
    destruct (Hrefused batch w0) as (message & w5 & Hanswer). congruence.
  - destruct Hres as (batch & w0 & w4 & Hhang).
    destruct (Hrefused batch w0) as (message & w5 & Hanswer). congruence.
Qed.

Lemma mark_reports_success_when_every_update_is_refused_witness :
  fst (Mark.markAsSynced None (ReadOnly.oneLog, []))
  = Ok {| MarkResult.success := true; MarkResult.error := None;
          MarkResult.totalUpdated := Some 0; MarkResult.totalIds := Some 2;
          MarkResult.logFiles := Some [Key Ledger.logA];
          MarkResult.message := None |}
  /\ exists logFiles,
       fst (Mark.markAsSynced None (ReadOnly.oneLog, []))
       = Ok {| MarkResult.success := true; MarkResult.error := None;
               MarkResult.totalUpdated := Some 0;
               MarkResult.totalIds :=
                 Some (List.length
                         (List.concat
                            (updatesOf (snd (snd (Mark.markAsSynced None
                                                    (ReadOnly.oneLog, [])))))));
               MarkResult.logFiles := Some logFiles;
               MarkResult.message := None |}.
Proof.
  split; [vm_compute; reflexivity|].
  destruct (mark_reports_success_when_every_update_is_refused
              (W := ReadOnly.world) None ReadOnly.oneLog
              (fst (snd (Mark.markAsSynced None (ReadOnly.oneLog, []))))
              (fst (Mark.markAsSynced None (ReadOnly.oneLog, [])))
              (snd (snd (Mark.markAsSynced None (ReadOnly.oneLog, [])))))
    as (logFiles & Hresult & _).
  - intros batch w0. exists "permission denied for table", w0. reflexivity.
  - vm_compute. reflexivity.
  - vm_compute. discriminate.
  - exists logFiles. exact Hresult.
Defined.

(* ===================================================================== *)
(** ** More properties of [syncAll] (02_sync.js)                         *)
(* ===================================================================== *)

Section ListingFacts.
Context {W : Type} `{Collaborators W}.
Import Sync.

(** The paginated listing, whatever its outcome: it only sends listing
    requests, the first with the token it was given and each later one
    with the token of the page before it; when it returns, every page
    but the last called for a continuation, the last did not, and the
    files are those it held followed by the contents of the pages. *)
Lemma listAll_shape (fuel : nat) (Prefix : option string) (files : list S3Object)
      (continuationToken : option string) (st : state (W := W) (E := event)) :
  exists pages,
    (exists last, snd (snd (listAll fuel Prefix files continuationToken st))
                  = snd st ++ listingTrace Prefix continuationToken pages
                           ++ match last with
                              | Some token => [S3List Prefix token]
                              | None => []
                              end)
    /\ Forall (fun page => continues page = true) (removelast pages)
    /\ match fst (listAll fuel Prefix files continuationToken st) with
       | Ok files' =>
           snd (snd (listAll fuel Prefix files continuationToken st))
           = snd st ++ listingTrace Prefix continuationToken pages
           /\ files' = files ++ flat_map contentsOf pages
           /\ exists page, List.last (map Some pages) None = Some page
                           /\ continues page = false
       | _ => True
       end.
Proof.
  revert files continuationToken st.
  induction fuel as [|fuel IH]; intros files token [w tr].
  - exists []. cbn. split; [exists None; rewrite app_nil_r; reflexivity|].
    split; [constructor | exact I].
  - cbn [listAll]. unfold bind, perform, ret. cbn [fst snd].
    destruct (s3_list Prefix token w) as [[page | m |] w1]; cbn [fst snd].
    2,3: exists []; cbn; (split; [exists (Some token); reflexivity|]);
         (split; [constructor | exact I]).
    fold (continues page).
    destruct (continues page) eqn:Hcontinues.
    + assert (Htoken : (if IsTruncated page then NextContinuationToken page else None)
                       = NextContinuationToken page).
      { unfold continues in Hcontinues. destruct (IsTruncated page); [reflexivity|].
        discriminate. }
      rewrite Htoken.
      destruct (IH (match Contents page with Some c => files ++ c | None => files end)
                   (NextContinuationToken page) (w1, tr ++ [S3List Prefix token]))
        as (pages & (last & Htrace) & Hcont & Hres).
      exists (page :: pages). cbn [fst snd] in *.
      split; [exists last; rewrite Htrace, <- !app_assoc; reflexivity|].
      split.
      { destruct pages as [|next pages']; [constructor|].
        change (removelast (page :: next :: pages'))
          with (page :: removelast (next :: pages')).
        constructor; assumption. }
      destruct (listAll fuel Prefix _ (NextContinuationToken page) _)
        as [[files' | m |] st']; cbn [fst snd] in *; try exact I.
      destruct Hres as (-> & -> & lastPage & Hlast & Hstop).
      split; [rewrite <- !app_assoc; reflexivity|].
      split.
      { cbn [flat_map]. unfold contentsOf at 2.
        destruct (Contents page); rewrite <- ?app_assoc; reflexivity. }
      exists lastPage. split; [|exact Hstop].
      destruct pages as [|next pages']; [discriminate|]. exact Hlast.
    + exists [page]. cbn [fst snd listingTrace flat_map removelast map List.last].
      split; [exists None; rewrite app_nil_r; reflexivity|].
      split; [constructor|].
      split; [reflexivity|].
      split; [unfold contentsOf; destruct (Contents page); rewrite ?app_nil_r; reflexivity|].
      exists page. split; [reflexivity | exact Hcontinues].
Qed.

(** A listing that returns, tied to the answers of the store. *)
Lemma listAll_answers (fuel : nat) (Prefix : option string) (files : list S3Object)
      (continuationToken : option string) (w w' : W) (tr tr' : list event)
      (files' : list S3Object) :
  listAll fuel Prefix files continuationToken (w, tr) = (Ok files', (w', tr')) ->
  exists pages lastPage,
    listingAnswers Prefix continuationToken w (pages ++ [lastPage]) w'
    /\ tr' = tr ++ listingTrace Prefix continuationToken (pages ++ [lastPage])
    /\ files' = files ++ flat_map contentsOf (pages ++ [lastPage])
    /\ Forall (fun page => continues page = true) pages
    /\ continues lastPage = false.
Proof.
  revert files continuationToken w tr files' tr'.
  induction fuel as [|fuel IH]; intros files token w tr files' tr' Hrun;
    [discriminate Hrun|].
  cbn [listAll] in Hrun. unfold bind, perform, ret in Hrun. cbn [fst snd] in Hrun.
  destruct (s3_list Prefix token w) as [[page | m |] w1] eqn:Hlist;
    cbn [fst snd] in Hrun; try discriminate Hrun.
  fold (continues page) in Hrun.
  destruct (continues page) eqn:Hcontinues.
  - assert (Htoken : (if IsTruncated page then NextContinuationToken page else None)
                     = NextContinuationToken page).
    { unfold continues in Hcontinues. destruct (IsTruncated page); [reflexivity|].
      discriminate. }
    rewrite Htoken in Hrun.
    destruct (IH _ _ _ _ _ _ Hrun) as (pages & lastPage & Hanswers & -> & -> & Hgo & Hstop).
    exists (page :: pages), lastPage. cbn [app listingAnswers listingTrace flat_map].
    split; [exists w1; split; [exact Hlist | exact Hanswers]|].
    split; [rewrite <- !app_assoc; reflexivity|].
    split.
    { change (contentsOf page)
        with (match Contents page with Some contents => contents | None => [] end).
      destruct (Contents page); rewrite <- ?app_assoc; reflexivity. }
    split; [constructor; assumption | exact Hstop].
  - injection Hrun as <- <- <-.
    exists [], page. cbn [app listingAnswers listingTrace flat_map].
    split; [exists w1; split; [exact Hlist | reflexivity]|].
    split; [reflexivity|].
    split; [unfold contentsOf; destruct (Contents page); rewrite ?app_nil_r; reflexivity|].
    split; [constructor | exact Hcontinues].
Qed.

End ListingFacts.

(** X11: the paginated listing of [syncAll] and [cleanS3].  A listing
    that returns has received some pages from the store: the first was
    requested without a token, each later one with the
    [NextContinuationToken] of the page received before it; every page
    but the last was truncated with a non-empty token, the last was not;
    the requests sent are these and no others; and the files are the
    [Contents] of the pages received, in order. *)
Theorem listing_follows_continuation_tokens {W : Type} `{Collaborators W}
        (fuel : nat) (Prefix : option string) (w w' : W)
        (files : list S3Object) (events : list event) :
  Sync.listAll fuel Prefix [] None (w, []) = (Ok files, (w', events)) ->
  exists pages lastPage,
    listingAnswers Prefix None w (pages ++ [lastPage]) w'
    /\ events = listingTrace Prefix None (pages ++ [lastPage])
    /\ files = flat_map contentsOf (pages ++ [lastPage])
    /\ Forall (fun page => continues page = true) pages
    /\ continues lastPage = false.
Proof.
  intros Hrun. exact (listAll_answers fuel Prefix [] None w w' [] events files Hrun).
Qed.

Lemma listing_follows_continuation_tokens_witness :
  exists pages lastPage w',
    listingAnswers None None Listed.twoListingPages (pages ++ [lastPage]) w'
    /\ snd (snd (Sync.listAll 5 None [] None (Listed.twoListingPages, [])))
       = [S3List None None; S3List None (Some "token-1")]
    /\ [Listed.blob1; Listed.blob2; Listed.manifest]
       = flat_map contentsOf (pages ++ [lastPage])
    /\ continues lastPage = false.
Proof.
  assert (Hrun : Sync.listAll 5 None [] None (Listed.twoListingPages, [])
                 = (Ok [Listed.blob1; Listed.blob2; Listed.manifest],
                    (fst (snd (Sync.listAll 5 None [] None (Listed.twoListingPages, []))),
                     snd (snd (Sync.listAll 5 None [] None (Listed.twoListingPages, []))))))
    by (vm_compute; reflexivity).
  destruct (listing_follows_continuation_tokens _ _ _ _ _ _ Hrun)
    as (pages & lastPage & Hanswers & _ & Hfiles & _ & Hstop).
  exists pages, lastPage, (fst (snd (Sync.listAll 5 None [] None (Listed.twoListingPages, [])))).
  split; [exact Hanswers|]. split; [vm_compute; reflexivity|].
  split; [exact Hfiles | exact Hstop].
Defined.

Lemma prefix_nil (t : string) : prefix EmptyString t = true.
Proof. destruct t; reflexivity. Qed.

Lemma prefix_cons (a : ascii) (s t : string) : prefix (String a s) (String a t) = prefix s t.
Proof. cbn [prefix]. destruct (ascii_dec a a); [reflexivity | congruence]. Qed.

Section CheckpointFacts.
Context {W : Type} `{Collaborators W}.
Import Sync.






End CheckpointFacts.




Lemma getsOf_indexing (post : list event) : Forall indexingEvent post -> getsOf post = [].
Proof.
  induction 1 as [|e post He _ IH]; [reflexivity|].
  cbn [getsOf flat_map]. fold (getsOf post). rewrite IH.
  destruct e; try reflexivity; destruct He.
Qed.

Section BlobReads.
Context {W : Type} `{Collaborators W}.
Import Sync.

(** [syncFile] gets its blob once and no other object. *)
Lemma syncFile_gets_its_blob (filename : string) (st : state (W := W) (E := event)) :
  exists post,
    snd (snd (syncFile filename st)) = snd st ++ post /\ getsOf post = [filename].
Proof.
  destruct st as [w tr].
  destruct (s3_get_jsonl filename w) as [[lines | message |] w1] eqn:Hget.
  - destruct lines as [|line lines'] eqn:Hlines.
    + destruct (syncFile_unparseable filename w tr Hget (or_introl eq_refl)) as [m ->].
      exists [S3Get filename]. split; reflexivity.
    + destruct (parseLines (line :: lines')) as [records|] eqn:Hparse.
      * destruct (indexing_shape records (w1, tr ++ [S3Get filename]))
          as (postI & HtrI & HevI & Hnothrow & _).
        pose proof (getsOf_indexing postI HevI) as Hnone.
        destruct (indexing records (w1, tr ++ [S3Get filename]))
          as [[n | m |] st2] eqn:Hindexed; cbn [fst snd] in HtrI.
        -- rewrite (syncFile_indexed filename w tr Hget ltac:(discriminate) Hparse Hindexed).
           destruct (List.length records <=? n).
           ++ exists (S3Get filename :: postI ++ [S3Delete filename]).
              split.
              ** destruct (s3_delete filename (fst st2)) as [[[] | m |] w3]; cbn [fst snd];
                   rewrite HtrI, <- !app_assoc; reflexivity.
              ** change (S3Get filename :: postI ++ [S3Delete filename])
                   with ([S3Get filename] ++ postI ++ [S3Delete filename]).
                 rewrite !getsOf_app, Hnone. reflexivity.
           ++ exists (S3Get filename :: postI). cbn [fst snd].
              split; [rewrite HtrI, <- app_assoc; reflexivity|].
              change (S3Get filename :: postI) with ([S3Get filename] ++ postI).
              rewrite getsOf_app, Hnone. reflexivity.
        -- exfalso. apply (Hnothrow m). reflexivity.
        -- rewrite (syncFile_indexing_hangs filename w tr Hget ltac:(discriminate)
                                            Hparse Hindexed).
           exists (S3Get filename :: postI). cbn [fst snd].
           split; [rewrite HtrI, <- app_assoc; reflexivity|].
           change (S3Get filename :: postI) with ([S3Get filename] ++ postI).
           rewrite getsOf_app, Hnone. reflexivity.
      * destruct (syncFile_unparseable filename w tr Hget (or_intror Hparse)) as [m ->].
        exists [S3Get filename]. split; reflexivity.
  - rewrite (syncFile_unreadable filename w tr Hget).
    exists [S3Get filename]. split; reflexivity.
  - exists [S3Get filename]. unfold syncFile, try_catch, bind, perform, ret. cbn [fst snd].
    rewrite Hget. split; reflexivity.
Qed.

(** The loop over the files, when it returns, has got each file once,
    in order. *)
Lemma syncFiles_gets_each_file (files : list S3Object) (totalSynced successCount : nat)
      (allSyncedIds : list Z) (st : state (W := W) (E := event)) :
  exists post,
    snd (snd (syncFiles files totalSynced successCount allSyncedIds st)) = snd st ++ post
    /\ forall totals,
         fst (syncFiles files totalSynced successCount allSyncedIds st) = Ok totals ->
         getsOf post = map Key files.
Proof.
  revert totalSynced successCount allSyncedIds st.
  induction files as [|file rest IH]; intros totalSynced successCount allSyncedIds st.
  - exists []. cbn. rewrite app_nil_r. split; reflexivity.
  - cbn [syncFiles]. unfold bind.
    destruct (syncFile_gets_its_blob (Key file) st) as (post1 & Htr1 & Hget1).
    destruct (syncFile (Key file) st) as [[fileResult | m |] st1]; cbn [fst snd] in *.
    + destruct (FileResult.success fileResult).
      * destruct (IH (totalSynced + FileResult.syncedRecords fileResult) (S successCount)
                     (fold_left (fun s x => setAdd x s)
                                (FileResult.syncedIds fileResult) allSyncedIds) st1)
          as (post2 & Htr2 & Hget2).
        exists (post1 ++ post2).
        split; [rewrite Htr2, Htr1, app_assoc; reflexivity|].
        intros totals Hok. rewrite getsOf_app, Hget1, (Hget2 totals Hok). reflexivity.
      * destruct (IH totalSynced successCount allSyncedIds st1) as (post2 & Htr2 & Hget2).
        exists (post1 ++ post2).
        split; [rewrite Htr2, Htr1, app_assoc; reflexivity|].
        intros totals Hok. rewrite getsOf_app, Hget1, (Hget2 totals Hok). reflexivity.
    + exists post1. split; [exact Htr1 | discriminate].
    + exists post1. split; [exact Htr1 | discriminate].
Qed.

End BlobReads.

Lemma insertSorted_Permutation {A : Type} (compare : A -> A -> comparison) (x : A)
      (l : list A) :
  Permutation (insertSorted compare x l) (x :: l).
Proof.
  induction l as [|y l IH]; cbn [insertSorted]; [reflexivity|].
  destruct (compare x y); try reflexivity.
  rewrite IH. apply perm_swap.
Qed.

(** Sorting rearranges. *)
Lemma sort_Permutation {A : Type} (compare : A -> A -> comparison) (l : list A) :
  Permutation (sort compare l) l.
Proof.
  induction l as [|a l IH]; [reflexivity|].
  unfold sort in *. cbn [fold_right]. rewrite insertSorted_Permutation, IH. reflexivity.
Qed.

Lemma getsOf_listing (Prefix token : option string) (pages : list ListObjectsV2Output) :
  getsOf (listingTrace Prefix token pages) = [].
Proof. revert token. induction pages as [|p l IH]; intros token; [reflexivity | apply IH]. Qed.

(** X13: [syncAll] reads each listed blob exactly once.  In a run that
    reports success, the blobs got are the objects listed under
    [unsynced_] (all the pages of the listing), each once, in the order
    of the sort; [totalFiles], when reported, is their number. *)
Theorem syncAll_reads_each_listed_blob_once {W : Type} `{Collaborators W}
        (fuel : nat) (workflowId : option string) (w w' : W)
        (result : SyncResult.t) (events : list event) :
  Sync.syncAll fuel workflowId (w, []) = (Ok result, (w', events)) ->
  SyncResult.success result = true ->
  exists files st1,
    Sync.listAll fuel (Some "unsynced_") [] None (w, []) = (Ok files, st1)
    /\ getsOf events = map Key (sort (fun a b => localeCompare (Key a) (Key b)) files)
    /\ Permutation (getsOf events) (map Key files)
    /\ (forall totalFiles,
           SyncResult.totalFiles result = Some totalFiles ->
           totalFiles = List.length (getsOf events)).
Proof.
  intros Hrun Hsuccess.
  unfold Sync.syncAll, try_catch in Hrun. unfold bind at 1 in Hrun.
  destruct (listAll_shape fuel (Some "unsynced_") [] None (w, []))
    as (pages & _ & _ & Hlisting).
  destruct (Sync.listAll fuel (Some "unsynced_") [] None (w, []))
    as [[files | m |] [w1 tr1]]; cbn [fst snd app] in *.
  2:{ unfold ret in Hrun. injection Hrun as <- <- <-. discriminate. }
  2:{ discriminate. }
  destruct Hlisting as (-> & _ & _).
  exists files, (w1, listingTrace (Some "unsynced_") None pages).
  split; [reflexivity|].
  destruct files as [|file files].
  { cbn [List.length Nat.eqb] in Hrun. unfold ret in Hrun. injection Hrun as <- <- <-.
    rewrite getsOf_listing. cbn. repeat split; [constructor | discriminate]. }
  cbn [List.length Nat.eqb] in Hrun. unfold bind at 1 in Hrun.
  set (sorted := sort (fun a b => localeCompare (Key a) (Key b)) (file :: files)) in *.
  destruct (syncFiles_gets_each_file sorted 0 0 []
                                     (w1, listingTrace (Some "unsynced_") None pages))
    as (post & Htrace & Hgets).
  destruct (Sync.syncFiles sorted 0 0 [] _)
    as [[[[totalSynced successCount] ids] | m |] [w2 tr2]]; cbn [fst snd] in *.
  2:{ unfold ret in Hrun. injection Hrun as <- <- <-. discriminate. }
  2:{ discriminate. }
  subst tr2. specialize (Hgets _ eq_refl).
  assert (Hevents : getsOf events = map Key sorted
                    /\ SyncResult.totalFiles result = Some (List.length sorted)).
  { destruct (0 <? List.length ids).
    - unfold bind, read, perform, ret in Hrun. cbn [fst snd] in Hrun.
      destruct (toISOString w2) as [timestamp w3]. cbn [fst snd] in Hrun.
      destruct (toISOString w3) as [now w4]. cbn [fst snd] in Hrun.
      match type of Hrun with
      | context [s3_put ?key ?body w4] =>
          destruct (s3_put key body w4) as [[[] | m |] w5]; try discriminate;
          injection Hrun as <- <- <-; try discriminate
      end.
      rewrite !getsOf_app, getsOf_listing, Hgets. cbn. rewrite app_nil_r.
      split; reflexivity.
    - unfold bind, ret in Hrun. injection Hrun as <- <- <-.
      rewrite !getsOf_app, getsOf_listing, Hgets. split; reflexivity. }
  destruct Hevents as [Hevents Htotal].
  split; [exact Hevents|].
  split; [rewrite Hevents; apply Permutation_map, sort_Permutation|].
  intros totalFiles Hreported. rewrite Htotal in Hreported. injection Hreported as <-.
  rewrite Hevents, length_map. reflexivity.
Qed.

Lemma syncAll_reads_each_listed_blob_once_witness :
  getsOf (snd (snd (Sync.syncAll 5 None (Scripted.brokenBlobs, []))))
  = ["unsynced_0001.jsonl"; "unsynced_0002.jsonl"]
  /\ exists files,
       Permutation (getsOf (snd (snd (Sync.syncAll 5 None (Scripted.brokenBlobs, [])))))
                   (map Key files).
Proof.
  split; [vm_compute; reflexivity|].
  assert (Hrun : Sync.syncAll 5 None (Scripted.brokenBlobs, [])
                 = (Ok {| SyncResult.success := true; SyncResult.error := None;
                          SyncResult.syncedFiles := 0; SyncResult.totalFiles := Some 2;
                          SyncResult.totalRecords := 0;
                          SyncResult.syncedIdsCount := Some 0 |},
                    (fst (snd (Sync.syncAll 5 None (Scripted.brokenBlobs, []))),
                     snd (snd (Sync.syncAll 5 None (Scripted.brokenBlobs, []))))))
    by (vm_compute; reflexivity).
  destruct (syncAll_reads_each_listed_blob_once _ _ _ _ _ _ Hrun eq_refl)
    as (files & st1 & _ & _ & Hperm & _).
  exists files. exact Hperm.
Defined.

(* ===================================================================== *)
(** ** More properties of the bulk indexer (02_sync.js)                  *)
(* ===================================================================== *)

Section WindowFacts.
Context {W : Type} `{Collaborators W}.
Import Sync.

(** One window, whatever the index answers: the requests are those of
    the window, retried exactly when the first request threw. *)
Lemma bulkWindow_trace (batch : list record) (n : nat) (st : state (W := W) (E := event)) :
  exists retried,
    snd (snd (bulkWindow batch n st)) = snd st ++ windowTrace batch retried
    /\ ((forall body w0, exists response w1,
            os_bulk body w0 = (Ok response, w1) /\ errors response = false) ->
        retried = false /\ fst (bulkWindow batch n st) = Ok (n + List.length batch)).
Proof.
  destruct st as [w tr].
  destruct (os_bulk (bulkBody batch) w) as [[response | message |] w1] eqn:Hbulk.
  - rewrite (bulkWindow_answered _ _ _ _ _ _ Hbulk). exists false.
    split; [reflexivity|]. intros Hall. split; [reflexivity|].
    destruct (Hall (bulkBody batch) w) as (response' & w1' & Hanswer & Hclean).
    rewrite Hbulk in Hanswer. injection Hanswer as <- <-.
    unfold counted. rewrite Hclean. reflexivity.
  - exists true. split.
    + destruct (os_bulk (bulkBody batch) w1) as [[response | message' |] w2] eqn:Hretry.
      * rewrite (bulkWindow_retry_answered _ _ _ _ _ _ _ _ Hbulk Hretry). reflexivity.
      * rewrite (bulkWindow_retry_rejected _ _ _ _ _ _ _ _ Hbulk Hretry). reflexivity.
      * rewrite (bulkWindow_retry_hangs _ _ _ _ _ _ _ Hbulk Hretry). reflexivity.
    + intros Hall. destruct (Hall (bulkBody batch) w) as (response' & w1' & Hanswer & _).
      congruence.
  - rewrite (bulkWindow_hangs _ _ _ _ _ Hbulk). exists false.
    split; [reflexivity|]. intros Hall.
    destruct (Hall (bulkBody batch) w) as (response' & w1' & Hanswer & _). congruence.
Qed.

(** The indexing loop, when it returns: the windows it sent are
    consecutive slices of the records from [i] on, each of 1 to
    [finalBatchSize] records, and every window but the last is full. *)
Lemma processBatches_windows (fuel : nat) (records : list record)
      (finalBatchSize i n : nat) (st : state (W := W) (E := event)) :
  1 <= finalBatchSize ->
  forall n' st',
    processBatches fuel records finalBatchSize i n st = (Ok n', st') ->
    exists windows,
      snd st' = snd st ++ windowsTrace windows
      /\ List.concat (map fst windows) = skipn i records
      /\ Forall (fun window => 1 <= List.length (fst window) <= finalBatchSize) windows
      /\ Forall (fun window => List.length (fst window) = finalBatchSize)
                (removelast windows)
      /\ ((forall body w0, exists response w1,
              os_bulk body w0 = (Ok response, w1) /\ errors response = false) ->
          Forall (fun window => snd window = false) windows
          /\ n' = n + List.length (skipn i records)).
Proof.
  intros HB. revert i n st. induction fuel as [|fuel IH]; intros i n st n' st' Hrun.
  - cbn [processBatches] in Hrun.
    destruct (Nat.ltb_spec i (List.length records)) as [Hlt | Hge]; [discriminate|].
    injection Hrun as <- <-. exists []. cbn. rewrite app_nil_r, skipn_all2 by lia.
    repeat split; try constructor. cbn. lia.
  - destruct (Nat.lt_ge_cases i (List.length records)) as [Hlt | Hge].
    2:{ rewrite processBatches_done in Hrun by lia. injection Hrun as <- <-.
        exists []. cbn. rewrite app_nil_r, skipn_all2 by lia.
        repeat split; try constructor. cbn. lia. }
    rewrite (processBatches_step _ _ _ _ _ _ Hlt) in Hrun.
    set (batch := slice records i (i + finalBatchSize)) in *.
    assert (Hbatch : batch = firstn finalBatchSize (skipn i records))
      by (unfold batch, slice; f_equal; lia).
    assert (Hrest : skipn (i + finalBatchSize) records
                    = skipn finalBatchSize (skipn i records))
      by (rewrite skipn_skipn; f_equal; lia).
    assert (Hlen : List.length batch = Nat.min finalBatchSize (List.length records - i))
      by (rewrite Hbatch, length_firstn, length_skipn; reflexivity).
    destruct (bulkWindow_trace batch n st) as (retried & Htrace1 & Hclean1).
    destruct (bulkWindow batch n st) as [[n1 | m |] st1]; try discriminate.
    cbn [fst snd] in *.
    destruct (IH _ _ _ _ _ Hrun) as (windows & Htrace & Hcover & Hsizes & Hfull & Hclean).
    exists ((batch, retried) :: windows).
    split; [rewrite Htrace, Htrace1, <- app_assoc; reflexivity|].
    split; [cbn [map fst List.concat]; rewrite Hcover, Hrest, Hbatch; apply firstn_skipn|].
    split; [constructor; [cbn [fst]; lia | exact Hsizes]|].
    split.
    + destruct windows as [|next windows']; [constructor|].
      change (removelast ((batch, retried) :: next :: windows'))
        with ((batch, retried) :: removelast (next :: windows')).
      constructor; [|exact Hfull]. cbn [fst].
      assert (Hmore : skipn (i + finalBatchSize) records <> []).
      { rewrite <- Hcover. cbn [map List.concat]. inversion Hsizes; subst.
        destruct (fst next); [cbn in *; lia | discriminate]. }
      assert (i + finalBatchSize < List.length records).
      { destruct (Nat.lt_ge_cases (i + finalBatchSize) (List.length records));
          [assumption|]. rewrite skipn_all2 in Hmore by lia. congruence. }
      lia.
    + intros Hall. destruct (Hclean1 Hall) as [-> Hn1]. injection Hn1 as ->.
      destruct (Hclean Hall) as [Hnone ->].
      split; [constructor; [reflexivity | exact Hnone]|].
      rewrite Hrest, !length_skipn. rewrite Hlen. lia.
Qed.

End WindowFacts.

(** X14: the windows of [dynamicMicroBatch] partition the blob.  In a
    run that returns, the bulk requests sent are those of consecutive
    windows of the records, in order: every record is in exactly one
    window, each window holds between 1 and the selected batch size of
    records, every window but the last is full, and a window is
    requested once, or twice with the pause in between when its first
    request threw. *)
Theorem windows_partition_the_blob {W : Type} `{Collaborators W}
        (records : list record) (w w' : W) (syncedCount : nat) (events : list event) :
  Sync.dynamicMicroBatch records (w, []) = (Ok syncedCount, (w', events)) ->
  exists windows,
    events = windowsTrace windows
    /\ List.concat (map fst windows) = records
    /\ Forall (fun window =>
                 1 <= List.length (fst window) <= Sync.findBatchSize records) windows
    /\ Forall (fun window => List.length (fst window) = Sync.findBatchSize records)
              (removelast windows).
Proof.
  intros Hrun. unfold Sync.dynamicMicroBatch in Hrun.
  destruct (processBatches_windows _ _ _ _ _ _ (findBatchSize_pos records) _ _ Hrun)
    as (windows & Htrace & Hcover & Hsizes & Hfull & _).
  exists windows. cbn [snd app skipn] in *. repeat split; assumption.
Qed.

Lemma windows_partition_the_blob_witness :
  exists windows,
    snd (snd (Sync.dynamicMicroBatch Scripted.twoRecords (Scripted.retryPartial, [])))
    = windowsTrace windows
    /\ List.concat (map fst windows) = Scripted.twoRecords.
Proof.
  assert (Hrun : Sync.dynamicMicroBatch Scripted.twoRecords (Scripted.retryPartial, [])
                 = (Ok 1,
                    (fst (snd (Sync.dynamicMicroBatch Scripted.twoRecords
                                                      (Scripted.retryPartial, []))),
                     snd (snd (Sync.dynamicMicroBatch Scripted.twoRecords
                                                      (Scripted.retryPartial, []))))))
    by (vm_compute; reflexivity).
  destruct (windows_partition_the_blob _ _ _ _ _ Hrun) as (windows & Htrace & Hcover & _).
  exists windows. split; [exact Htrace | exact Hcover].
Defined.

(** X15: when every bulk request is answered without errors, no window
    is retried, [dynamicMicroBatch] confirms exactly the number of
    records of the blob, and [syncFile], once it has read and parsed the
    blob and the index check has settled, requests the delete of the
    blob. *)
Theorem blob_fully_indexed_when_bulks_succeed {W : Type} `{Collaborators W}
        (records : list record) :
  (forall body w0, exists response w1,
      os_bulk body w0 = (Ok response, w1) /\ errors response = false) ->
  (forall st, exists windows st',
      Sync.dynamicMicroBatch records st = (Ok (List.length records), st')
      /\ snd st' = snd st ++ windowsTrace windows
      /\ Forall (fun window => snd window = false) windows)
  /\ (forall filename w w1 tr lines,
         s3_get_jsonl filename w = (Ok lines, w1) ->
         lines <> [] ->
         Sync.parseLines lines = Some records ->
         fst (Sync.ensureIndex (w1, tr ++ [S3Get filename])) <> Diverge ->
         In (S3Delete filename) (snd (snd (Sync.syncFile filename (w, tr))))).
Proof.
  intros Hall.
  assert (Hindexed : forall st, exists windows st',
             Sync.dynamicMicroBatch records st = (Ok (List.length records), st')
             /\ snd st' = snd st ++ windowsTrace windows
             /\ Forall (fun window => snd window = false) windows).
  { intros st.
    assert (Hsettles : bulkSettles).
    { intros body w0. destruct (Hall body w0) as (response & w1 & -> & _). discriminate. }
    destruct (dynamicMicroBatch_returns records st Hsettles) as (n & st' & Hrun).
    unfold Sync.dynamicMicroBatch in Hrun.
    destruct (processBatches_windows _ _ _ _ _ _ (findBatchSize_pos records) _ _ Hrun)
      as (windows & Htrace & _ & _ & _ & Hclean).
    destruct (Hclean Hall) as [Hnone ->]. exists windows, st'.
    unfold Sync.dynamicMicroBatch. rewrite Hrun. cbn [skipn Nat.add].
    repeat split; assumption. }
  split; [exact Hindexed|].
  intros filename w w1 tr lines Hget Hne Hparse Hensured.
  destruct (ensureIndex_shape (w1, tr ++ [S3Get filename])) as (postE & HtrE & _ & HresE).
  destruct (Sync.ensureIndex (w1, tr ++ [S3Get filename])) as [[[] | m |] st1] eqn:Hensure;
    cbn [fst snd] in *; try (destruct HresE; congruence).
  destruct (Hindexed st1) as (windows & st2 & Hrun & Htrace & _).
  assert (Hboth : (Sync.ensureIndex ;;; Sync.dynamicMicroBatch records)
                    (w1, tr ++ [S3Get filename]) = (Ok (List.length records), st2)).
  { unfold bind. rewrite Hensure. exact Hrun. }
  rewrite (syncFile_indexed filename w tr Hget Hne Hparse Hboth).
  rewrite Nat.leb_refl.
  destruct (s3_delete filename (fst st2)) as [[[] | m |] w3]; cbn [fst snd];
    apply in_or_app; right; now left.
Qed.

Lemma blob_fully_indexed_when_bulks_succeed_witness :
  exists windows st',
    Sync.dynamicMicroBatch Scripted.twoRecords (Ledger.duplicated, [])
    = (Ok 2, st')
    /\ snd st' = [] ++ windowsTrace windows
    /\ Forall (fun window => snd window = false) windows.
Proof.
  refine (proj1 (blob_fully_indexed_when_bulks_succeed
                   (W := Ledger.world) Scripted.twoRecords _) (Ledger.duplicated, [])).
  intros body w0. exists {| errors := false; items := None |}, w0.
  split; reflexivity.
Defined.

(** X16: a failure of the index check does not stop the indexing of a
    blob.  When [syncFile] has read and parsed a non-empty blob and the
    request that checks the index throws, or answers that the index is
    missing and the request that creates it throws, the first bulk
    request is sent all the same, carrying the first window of the
    blob. *)
Theorem index_check_failure_does_not_stop_indexing {W : Type} `{Collaborators W}
        (filename : string) (w w1 : W) (tr : list event)
        (lines : list (option record)) (r0 : record) (rest : list record) :
  s3_get_jsonl filename w = (Ok lines, w1) ->
  lines <> [] ->
  Sync.parseLines lines = Some (r0 :: rest) ->
  let firstWindow := firstn (Sync.findBatchSize (r0 :: rest)) (r0 :: rest) in
  (forall message w2,
      os_indices_exists w1 = (Throw message, w2) ->
      exists post,
        snd (snd (Sync.syncFile filename (w, tr)))
        = tr ++ [S3Get filename; OsIndicesExists; OsBulk (Sync.bulkBody firstWindow)] ++ post)
  /\ (forall message w2 w3,
         os_indices_exists w1 = (Ok false, w2) ->
         os_indices_create w2 = (Throw message, w3) ->
         exists post,
           snd (snd (Sync.syncFile filename (w, tr)))
           = tr ++ [S3Get filename; OsIndicesExists; OsIndicesCreate;
                    OsBulk (Sync.bulkBody firstWindow)] ++ post).
Proof.
  intros Hget Hne Hparse firstWindow.
  assert (Hfirst : forall st,
             exists post n st',
               (Sync.dynamicMicroBatch (r0 :: rest) st = (Ok n, st')
                \/ Sync.dynamicMicroBatch (r0 :: rest) st = (Diverge, st'))
               /\ snd st' = snd st ++ OsBulk (Sync.bulkBody firstWindow) :: post).
  { intros st. unfold Sync.dynamicMicroBatch. cbn [List.length].
    rewrite processBatches_step by (cbn; lia).
    cbn [Nat.add]. rewrite slice_from_0. fold firstWindow.
    destruct (bulkWindow_shape firstWindow 0 st) as (post1 & Htr1 & _ & Hres1).
    destruct (Sync.bulkWindow firstWindow 0 st) as [[n1 | m |] st1]; cbn [fst snd] in *.
    - destruct (processBatches_shape (List.length rest) (r0 :: rest)
                                     (Sync.findBatchSize (r0 :: rest))
                                     (Sync.findBatchSize (r0 :: rest)) n1 st1)
        as (post2 & Htr2 & _ & Hnothrow & _).
      destruct (Sync.processBatches _ _ _ _ n1 st1) as [[n2 | m |] st2] eqn:Hloop;
        cbn [fst snd] in *.
      + exists (post1 ++ post2), n2, st2. split; [now left|].
        rewrite Htr2, Htr1, <- app_assoc. reflexivity.
      + exfalso. apply (Hnothrow m). reflexivity.
      + exists (post1 ++ post2), 0, st2. split; [now right|].
        rewrite Htr2, Htr1, <- app_assoc. reflexivity.
    - destruct Hres1 as [Hdiv | (n' & Heq & _)]; discriminate.
    - exists post1, 0, st1. split; [now right | exact Htr1]. }
  assert (Hsync : forall st1 pre,
             Sync.ensureIndex (w1, tr ++ [S3Get filename]) = (Ok tt, st1) ->
             snd st1 = tr ++ S3Get filename :: pre ->
             exists post,
               snd (snd (Sync.syncFile filename (w, tr)))
               = tr ++ (S3Get filename :: pre)
                    ++ OsBulk (Sync.bulkBody firstWindow) :: post).
  { intros st1 pre Hensure Hpre.
    destruct (Hfirst st1) as (post & n & st2 & [Hrun | Hrun] & Htrace).
    - assert (Hboth : (Sync.ensureIndex ;;; Sync.dynamicMicroBatch (r0 :: rest))
                        (w1, tr ++ [S3Get filename]) = (Ok n, st2))
        by (unfold bind; rewrite Hensure; exact Hrun).
      rewrite (syncFile_indexed filename w tr Hget Hne Hparse Hboth).
      destruct (List.length (r0 :: rest) <=? n).
      + exists (post ++ [S3Delete filename]).
        destruct (s3_delete filename (fst st2)) as [[[] | m |] w3]; cbn [fst snd];
          rewrite Htrace, Hpre, <- !app_assoc; reflexivity.
      + exists post. cbn [snd]. rewrite Htrace, Hpre, <- !app_assoc. reflexivity.
    - assert (Hboth : indexing (r0 :: rest) (w1, tr ++ [S3Get filename]) = (Diverge, st2))
        by (unfold indexing, bind; rewrite Hensure; exact Hrun).
      rewrite (syncFile_indexing_hangs filename w tr Hget Hne Hparse Hboth).
      exists post. cbn [snd]. rewrite Htrace, Hpre, <- !app_assoc. reflexivity. }
  split.
  - intros message w2 Hexists.
    destruct (Hsync (w2, (tr ++ [S3Get filename]) ++ [OsIndicesExists]) [OsIndicesExists])
      as (post & Htrace).
    + unfold Sync.ensureIndex, try_catch, bind, perform, ret. cbn [fst snd].
      rewrite Hexists. reflexivity.
    + cbn [snd]. rewrite <- app_assoc. reflexivity.
    + exists post. exact Htrace.
  - intros message w2 w3 Hexists Hcreate.
    destruct (Hsync (w3, ((tr ++ [S3Get filename]) ++ [OsIndicesExists])
                           ++ [OsIndicesCreate])
                    [OsIndicesExists; OsIndicesCreate])
      as (post & Htrace).
    + unfold Sync.ensureIndex, try_catch, bind, perform, ret. cbn [fst snd].
      rewrite Hexists. cbn [negb fst snd]. rewrite Hcreate. reflexivity.
    + cbn [snd]. rewrite <- !app_assoc. reflexivity.
    + exists post. exact Htrace.
Qed.

Lemma index_check_failure_does_not_stop_indexing_witness :
  exists post,
    snd (snd (Sync.syncFile "unsynced_0001.jsonl" (Unchecked.twoStaged, [])))
    = [] ++ [S3Get "unsynced_0001.jsonl"; OsIndicesExists;
             OsBulk (Sync.bulkBody Scripted.twoRecords)] ++ post.
Proof.
  assert (Hget : s3_get_jsonl "unsynced_0001.jsonl" Unchecked.twoStaged
                 = (Ok (map Some Scripted.twoRecords), Unchecked.twoStaged))
    by reflexivity.
  assert (Hcheck : os_indices_exists Unchecked.twoStaged
                   = (Throw "security_exception", Unchecked.twoStaged)) by reflexivity.
  assert (Hsize : firstn (Sync.findBatchSize Scripted.twoRecords) Scripted.twoRecords
                  = Scripted.twoRecords) by (vm_compute; reflexivity).
  destruct (proj1 (index_check_failure_does_not_stop_indexing
                     "unsynced_0001.jsonl" Unchecked.twoStaged Unchecked.twoStaged []
                     (map Some Scripted.twoRecords)
                     (Samples.mkRecord 1 (JStr "first")) [Samples.mkRecord 2 (JStr "second")]
                     Hget ltac:(discriminate) eq_refl)
                  "security_exception" Unchecked.twoStaged Hcheck) as (post & Htrace).
  exists post. rewrite Htrace.
  change (Samples.mkRecord 1 (JStr "first") :: [Samples.mkRecord 2 (JStr "second")])
    with Scripted.twoRecords.
  rewrite Hsize. reflexivity.
Defined.


(** X17: [syncFile] reports the identifiers of all the records of a
    blob as synced, whether the index confirmed them or not.  For a blob
    read, parsed and indexed with fewer records confirmed than it holds,
    [syncFile] returns success with that count and the identifiers of
    every record, and the loop of [syncAll] adds them all to the set
    that the checkpoint log will list. *)
Theorem unconfirmed_records_are_reported_as_synced {W : Type} `{Collaborators W}
        (filename : string) (w w1 : W) (tr : list event)
        (lines : list (option record)) (records : list record) (syncedCount : nat)
        (st2 : state (W := W) (E := event)) :
  s3_get_jsonl filename w = (Ok lines, w1) ->
  lines <> [] ->
  Sync.parseLines lines = Some records ->
  (Sync.ensureIndex ;;; Sync.dynamicMicroBatch records) (w1, tr ++ [S3Get filename])
  = (Ok syncedCount, st2) ->
  syncedCount < List.length records ->
  Sync.syncFile filename (w, tr)
  = (Ok {| FileResult.success := true; FileResult.error := None;
           FileResult.syncedRecords := syncedCount;
           FileResult.syncedIds := map id records |}, st2)
  /\ forall t rest totalSynced successCount allSyncedIds,
       Sync.syncFiles ({| Key := filename; LastModified := t |} :: rest)
                      totalSynced successCount allSyncedIds (w, tr)
       = Sync.syncFiles rest (totalSynced + syncedCount) (S successCount)
                        (fold_left (fun s x => setAdd x s) (map id records) allSyncedIds)
                        st2.
Proof.
  intros Hget Hne Hparse Hindexed Hfewer.
  assert (Hfile : Sync.syncFile filename (w, tr)
                  = (Ok (fileSynced syncedCount records), st2)).
  { rewrite (syncFile_indexed filename w tr Hget Hne Hparse Hindexed).
    destruct (Nat.leb_spec (List.length records) syncedCount); [lia | reflexivity]. }
  split; [exact Hfile|].
  intros t rest totalSynced successCount allSyncedIds.
  cbn [Sync.syncFiles Key]. unfold bind. rewrite Hfile. reflexivity.
Qed.

Lemma unconfirmed_records_are_reported_as_synced_witness :
  fst (Sync.syncFile "unsynced_0001.jsonl" (Scripted.retryPartial, []))
  = Ok {| FileResult.success := true; FileResult.error := None;
          FileResult.syncedRecords := 1;
          FileResult.syncedIds := [1; 2]%Z |}.
Proof.
  assert (Hget : s3_get_jsonl "unsynced_0001.jsonl" Scripted.retryPartial
                 = (Ok (map Some Scripted.twoRecords), Scripted.retryPartial))
    by reflexivity.
  assert (Hparse : Sync.parseLines (map Some Scripted.twoRecords) = Some Scripted.twoRecords)
    by reflexivity.
  assert (Hindexed :
            (Sync.ensureIndex ;;; Sync.dynamicMicroBatch Scripted.twoRecords)
              (Scripted.retryPartial, [] ++ [S3Get "unsynced_0001.jsonl"])
            = (Ok 1, snd ((Sync.ensureIndex ;;; Sync.dynamicMicroBatch Scripted.twoRecords)
                            (Scripted.retryPartial, [S3Get "unsynced_0001.jsonl"]))))
    by (vm_compute; reflexivity).
  rewrite (proj1 (unconfirmed_records_are_reported_as_synced
                    "unsynced_0001.jsonl" Scripted.retryPartial Scripted.retryPartial []
                    (map Some Scripted.twoRecords) Scripted.twoRecords 1 _
                    Hget ltac:(discriminate) Hparse Hindexed ltac:(cbn; lia))).
  reflexivity.
Defined.

(** X18: a blob that was indexed in full but whose delete throws is
    reported as a failed file: [syncFile] returns failure with the error
    of the delete, zero synced records and no identifier, and the loop
    of [syncAll] goes on with its totals and its set of identifiers
    unchanged, so that none of the blob's records reaches the checkpoint
    log. *)
Theorem rejected_delete_fails_an_indexed_blob {W : Type} `{Collaborators W}
        (filename : string) (w w1 w3 : W) (tr : list event)
        (lines : list (option record)) (records : list record) (syncedCount : nat)
        (st2 : state (W := W) (E := event)) (message : string) :
  s3_get_jsonl filename w = (Ok lines, w1) ->
  lines <> [] ->
  Sync.parseLines lines = Some records ->
  (Sync.ensureIndex ;;; Sync.dynamicMicroBatch records) (w1, tr ++ [S3Get filename])
  = (Ok syncedCount, st2) ->
  List.length records <= syncedCount ->
  s3_delete filename (fst st2) = (Throw message, w3) ->
  Sync.syncFile filename (w, tr)
  = (Ok {| FileResult.success := false; FileResult.error := Some message;
           FileResult.syncedRecords := 0; FileResult.syncedIds := [] |},
     (w3, snd st2 ++ [S3Delete filename]))
  /\ forall t rest totalSynced successCount allSyncedIds,
       Sync.syncFiles ({| Key := filename; LastModified := t |} :: rest)
                      totalSynced successCount allSyncedIds (w, tr)
       = Sync.syncFiles rest totalSynced successCount allSyncedIds
                        (w3, snd st2 ++ [S3Delete filename]).
Proof.
  intros Hget Hne Hparse Hindexed Hall Hdelete.
  assert (Hfile : Sync.syncFile filename (w, tr)
                  = (Ok (fileFailed message), (w3, snd st2 ++ [S3Delete filename]))).
  { rewrite (syncFile_indexed filename w tr Hget Hne Hparse Hindexed).
    destruct (Nat.leb_spec (List.length records) syncedCount); [|lia].
    rewrite Hdelete. reflexivity. }
  split; [exact Hfile|].
  intros t rest totalSynced successCount allSyncedIds.
  cbn [Sync.syncFiles Key]. unfold bind. rewrite Hfile. reflexivity.
Qed.

Lemma rejected_delete_fails_an_indexed_blob_witness :
  fst (Sync.syncFile "unsynced_0001.jsonl" (Listed.deleteRefused, []))
  = Ok {| FileResult.success := false; FileResult.error := Some "AccessDenied";
          FileResult.syncedRecords := 0; FileResult.syncedIds := [] |}.
Proof.
  assert (Hget : s3_get_jsonl "unsynced_0001.jsonl" Listed.deleteRefused
                 = (Ok (map Some Scripted.twoRecords), Listed.deleteRefused))
    by reflexivity.
  assert (Hparse : Sync.parseLines (map Some Scripted.twoRecords) = Some Scripted.twoRecords)
    by reflexivity.
  assert (Hindexed :
            (Sync.ensureIndex ;;; Sync.dynamicMicroBatch Scripted.twoRecords)
              (Listed.deleteRefused, [] ++ [S3Get "unsynced_0001.jsonl"])
            = (Ok 2, snd ((Sync.ensureIndex ;;; Sync.dynamicMicroBatch Scripted.twoRecords)
                            (Listed.deleteRefused, [S3Get "unsynced_0001.jsonl"]))))
    by (vm_compute; reflexivity).
  rewrite (proj1 (rejected_delete_fails_an_indexed_blob
                    "unsynced_0001.jsonl" Listed.deleteRefused Listed.deleteRefused
                    (snd (s3_delete "unsynced_0001.jsonl" Listed.deleteRefused))
                    [] (map Some Scripted.twoRecords) Scripted.twoRecords 2 _ "AccessDenied"
                    Hget ltac:(discriminate) Hparse Hindexed ltac:(cbn; lia)
                    ltac:(vm_compute; reflexivity))).
  reflexivity.
Defined.


(* ===================================================================== *)
(** ** More properties of the janitor (05_clean_s3.js)                   *)
(* ===================================================================== *)

Lemma prefix_spec (needle haystack : string) :
  prefix needle haystack = true <-> exists rest, haystack = (needle ++ rest)%string.
Proof.
  revert haystack. induction needle as [|a needle IH]; intros haystack.
  - rewrite prefix_nil. split; [intros _; exists haystack; reflexivity | reflexivity].
  - destruct haystack as [|b haystack]; cbn [prefix append].
    + split; [discriminate | intros [rest Heq]; discriminate].
    + destruct (ascii_dec a b) as [<- | Hne].
      * rewrite IH. split; intros [rest Heq]; exists rest; congruence.
      * split; [discriminate | intros [rest Heq]; congruence].
Qed.

(** [haystack.includes(needle)]: [needle] is a substring of
    [haystack]. *)
Lemma includes_spec (haystack needle : string) :
  includes haystack needle = true
  <-> exists before after, haystack = (before ++ needle ++ after)%string.
Proof.
  induction haystack as [|c haystack IH]; cbn [includes].
  - rewrite orb_false_r, prefix_spec. split.
    + intros [rest Heq]. exists EmptyString, rest. exact Heq.
    + intros (before & after & Heq). destruct before; [exists after; exact Heq|].
      discriminate.
  - rewrite orb_true_iff, prefix_spec, IH. split.
    + intros [[rest Heq] | (before & after & Heq)].
      * exists EmptyString, rest. exact Heq.
      * exists (String c before), after. cbn [append]. congruence.
    + intros (before & after & Heq). destruct before as [|d before].
      * left. exists after. exact Heq.
      * right. cbn [append] in Heq. injection Heq as <- ->. exists before, after.
        reflexivity.
Qed.

Lemma discarded_not_kept (file : S3Object) : Clean.discarded file = negb (Clean.kept file).
Proof. unfold Clean.discarded, Clean.kept. rewrite negb_orb. reflexivity. Qed.

Lemma kept_discarded_length (files : list S3Object) :
  List.length (filter Clean.discarded files) + List.length (filter Clean.kept files)
  = List.length files.
Proof.
  induction files as [|file files IH]; [reflexivity|].
  cbn [filter]. rewrite discarded_not_kept.
  destruct (Clean.kept file); cbn [negb List.length]; lia.
Qed.

Lemma deletesOf_app (l1 l2 : list event) : deletesOf (l1 ++ l2) = deletesOf l1 ++ deletesOf l2.
Proof. unfold deletesOf. apply flat_map_app. Qed.

Lemma deletesOf_requests (files : list S3Object) :
  deletesOf (deleteRequests files) = map Key files.
Proof. induction files as [|f l IH]; [reflexivity|]. cbn. f_equal. exact IH. Qed.

Lemma deletesOf_listing (Prefix token : option string) (pages : list ListObjectsV2Output) :
  deletesOf (listingTrace Prefix token pages) = [].
Proof. revert token. induction pages as [|p l IH]; intros token; [reflexivity | apply IH]. Qed.

Section JanitorRuns.
Context {W : Type} `{Collaborators W}.
Import Clean.

(** The deletion loop, whatever its outcome: it has requested the delete
    of the first files of the delete set, in order, and nothing else. *)
Lemma deleteFiles_shape (files : list S3Object) (n : nat)
      (st : state (W := W) (E := event)) :
  exists attempted rest,
    files = attempted ++ rest
    /\ snd (snd (deleteFiles files n st)) = snd st ++ deleteRequests attempted
    /\ (forall n', fst (deleteFiles files n st) = Ok n' ->
                   rest = [] /\ n' = n + List.length files).
Proof.
  revert n st. induction files as [|file files IH]; intros n [w tr].
  - exists [], []. cbn. rewrite app_nil_r. repeat split; try reflexivity.
    injection H0 as <-. lia.
  - cbn [deleteFiles]. unfold bind, perform. cbn [fst snd].
    destruct (s3_delete (Key file) w) as [[[] | m |] w1]; cbn [fst snd].
    + destruct (IH (S n) (w1, tr ++ [S3Delete (Key file)]))
        as (attempted & rest & -> & Htrace & Hres).
      exists (file :: attempted), rest. cbn [fst snd] in *.
      split; [reflexivity|]. split; [rewrite Htrace, <- app_assoc; reflexivity|].
      intros n' Hn'. destruct (Hres n' Hn') as [-> ->]. split; [reflexivity|].
      cbn [List.length]. lia.
    + exists [file], files. repeat split; try reflexivity; discriminate.
    + exists [file], files. repeat split; try reflexivity; discriminate.
Qed.

End JanitorRuns.

(** X19: [cleanS3] never requests the delete of an object whose key
    contains [summary] or [log/]: in every run, whatever its outcome,
    each delete requested is that of a listed object whose key has
    neither substring. *)
Theorem clean_never_deletes_logs_or_summaries {W : Type} `{Collaborators W}
        (fuel : nat) (w w' : W) (r : outcome CleanResult.t) (events : list event) :
  Clean.cleanS3 fuel (w, []) = (r, (w', events)) ->
  forall key,
    In key (deletesOf events) ->
    (forall before after, key <> (before ++ "summary" ++ after)%string)
    /\ (forall before after, key <> (before ++ "log/" ++ after)%string)
    /\ exists files st1,
         Sync.listAll fuel None [] None (w, []) = (Ok files, st1)
         /\ In key (map Key files).
Proof.
  intros Hrun key Hkey.
  unfold Clean.cleanS3, try_catch in Hrun. unfold bind at 1 in Hrun.
  destruct (listAll_shape fuel None [] None (w, [])) as (pages & (last & Htrace) & _ & Hlisting).
  destruct (Sync.listAll fuel None [] None (w, [])) as [[files | m |] [w1 tr1]] eqn:Hlist;
    cbn [fst snd app] in *.
  2,3: exfalso; unfold ret in Hrun;
       assert (Hevents : events = tr1) by (injection Hrun; intros; congruence);
       subst events tr1; rewrite deletesOf_app, deletesOf_listing in Hkey;
       destruct last; destruct Hkey.
  destruct Hlisting as (-> & _ & _). clear Htrace.
  unfold bind at 1 in Hrun.
  destruct (deleteFiles_shape (filter Clean.discarded files) 0
                              (w1, listingTrace None None pages))
    as (attempted & rest & Hsplit & Hdeletes & _).
  assert (Hevents : deletesOf events = map Key attempted).
  { destruct (Clean.deleteFiles (filter Clean.discarded files) 0 _)
      as [[n | m |] [w2 tr2]]; cbn [fst snd] in *; subst tr2.
    - unfold bind, read, perform, ret in Hrun. cbn [fst snd] in Hrun.
      destruct (toISOString w2) as [cleanedAt w3]. cbn [fst snd] in Hrun.
      destruct (toISOString w3) as [stamp w4]. cbn [fst snd] in Hrun.
      match type of Hrun with
      | context [s3_put ?k ?body w4] =>
          destruct (s3_put k body w4) as [[[] | m |] w5];
          injection Hrun as <- <- <-
      end;
        rewrite !deletesOf_app, deletesOf_listing, deletesOf_requests; cbn;
        rewrite app_nil_r; reflexivity.
    - unfold ret in Hrun. injection Hrun as <- <- <-.
      rewrite deletesOf_app, deletesOf_listing, deletesOf_requests. reflexivity.
    - injection Hrun as <- <- <-.
      rewrite deletesOf_app, deletesOf_listing, deletesOf_requests. reflexivity. }
  rewrite Hevents in Hkey. apply in_map_iff in Hkey. destruct Hkey as (file & <- & Hin).
  assert (Hdiscarded : In file (filter Clean.discarded files))
    by (rewrite Hsplit; apply in_or_app; now left).
  apply filter_In in Hdiscarded. destruct Hdiscarded as [Hlisted Hdiscarded].
  unfold Clean.discarded in Hdiscarded. rewrite andb_true_iff, !negb_true_iff in Hdiscarded.
  destruct Hdiscarded as [Hsummary Hlog].
  split; [|split].
  - intros before after Heq.
    assert (Hinc : includes (Key file) "summary" = true)
      by (apply includes_spec; exists before, after; exact Heq).
    congruence.
  - intros before after Heq.
    assert (Hinc : includes (Key file) "log/" = true)
      by (apply includes_spec; exists before, after; exact Heq).
    congruence.
  - exists files, (w1, listingTrace None None pages). split; [reflexivity|].
    apply in_map. exact Hlisted.
Qed.

Lemma clean_never_deletes_logs_or_summaries_witness :
  deletesOf (snd (snd (Clean.cleanS3 5 (Scripted.deleteRejected, []))))
  = ["unsynced_0001.jsonl"]
  /\ forall before after,
       "unsynced_0001.jsonl" <> (before ++ "log/" ++ after)%string.
Proof.
  split; [vm_compute; reflexivity|].
  refine (proj1 (proj2 (clean_never_deletes_logs_or_summaries
                          5 Scripted.deleteRejected
                          (fst (snd (Clean.cleanS3 5 (Scripted.deleteRejected, []))))
                          (fst (Clean.cleanS3 5 (Scripted.deleteRejected, [])))
                          (snd (snd (Clean.cleanS3 5 (Scripted.deleteRejected, []))))
                          _ "unsynced_0001.jsonl" _))).
  - vm_compute. reflexivity.
  - vm_compute. now left.
Defined.

(** X20: the accounting of [cleanS3].  When it reports success, every
    object of the delete set was requested to be deleted, in order; the
    files deleted and the files kept add up to the files listed; and the
    last request is the put of the cleanup log under [log/cleanup_log_],
    whose body records the same three numbers and the keys kept. *)
Theorem clean_accounts_for_every_listed_object {W : Type} `{Collaborators W}
        (fuel : nat) (w w' : W) (result : CleanResult.t) (events : list event) :
  Clean.cleanS3 fuel (w, []) = (Ok result, (w', events)) ->
  CleanResult.success result = true ->
  exists files st1 key cleanedAt filesDeleted filesKept,
    Sync.listAll fuel None [] None (w, []) = (Ok files, st1)
    /\ CleanResult.totalFiles result = Some (List.length files)
    /\ CleanResult.filesDeleted result = Some filesDeleted
    /\ CleanResult.filesKept result = Some filesKept
    /\ filesDeleted + filesKept = List.length files
    /\ deletesOf events = map Key (filter Clean.discarded files)
    /\ filesDeleted = List.length (deletesOf events)
    /\ events = snd st1 ++ deleteRequests (filter Clean.discarded files)
                ++ [S3Put key (Clean.cleanupLog cleanedAt files (filter Clean.kept files)
                                               filesDeleted)]
    /\ prefix "log/cleanup_log_" key = true.
Proof.
  intros Hrun Hsuccess.
  unfold Clean.cleanS3, try_catch in Hrun. unfold bind at 1 in Hrun.
  destruct (listAll_shape fuel None [] None (w, [])) as (pages & _ & _ & Hlisting).
  destruct (Sync.listAll fuel None [] None (w, [])) as [[files | m |] [w1 tr1]] eqn:Hlist;
    cbn [fst snd app] in *.
  2:{ unfold ret in Hrun. injection Hrun as <- <- <-. discriminate. }
  2:{ discriminate. }
  destruct Hlisting as (-> & _ & _).
  unfold bind at 1 in Hrun.
  destruct (Clean.deleteFiles (filter Clean.discarded files) 0 _)
    as [[n | m |] [w2 tr2]] eqn:Hdeletes.
  2:{ unfold ret in Hrun. injection Hrun as <- <- <-. discriminate. }
  2:{ discriminate. }
  destruct (deleteFiles_all_resolved _ _ _ _ _ Hdeletes) as [-> Htrace].
  cbn [fst snd Nat.add] in *. subst tr2.
  unfold bind, read, perform, ret in Hrun. cbn [fst snd] in Hrun.
  destruct (toISOString w2) as [cleanedAt w3]. cbn [fst snd] in Hrun.
  destruct (toISOString w3) as [stamp w4]. cbn [fst snd] in Hrun.
  match type of Hrun with
  | context [s3_put ?k ?body w4] =>
      destruct (s3_put k body w4) as [[[] | m |] w5]; try discriminate;
      injection Hrun as <- <- <-; try discriminate;
      exists files, (w1, listingTrace None None pages), k, cleanedAt,
             (List.length (filter Clean.discarded files)),
             (List.length (filter Clean.kept files))
  end.
  cbn [CleanResult.totalFiles CleanResult.filesDeleted CleanResult.filesKept snd].
  match goal with
  | |- context [deletesOf ?e = _] =>
      assert (Hkeys : deletesOf e = map Key (filter Clean.discarded files))
        by (rewrite !deletesOf_app, deletesOf_listing, deletesOf_requests; cbn;
            apply app_nil_r)
  end.
  split; [reflexivity|]. split; [reflexivity|]. split; [reflexivity|]. split; [reflexivity|].
  split; [apply kept_discarded_length|].
  split; [exact Hkeys|].
  split; [rewrite Hkeys, length_map; reflexivity|].
  split; [rewrite <- app_assoc; reflexivity|].
  cbn [append]. rewrite !prefix_cons. apply prefix_nil.
Qed.

Lemma clean_accounts_for_every_listed_object_witness :
  fst (Clean.cleanS3 5 (Listed.twoListingPages, []))
  = Ok {| CleanResult.success := true; CleanResult.error := None;
          CleanResult.totalFiles := Some 3; CleanResult.filesDeleted := Some 2;
          CleanResult.filesKept := Some 1 |}
  /\ deletesOf (snd (snd (Clean.cleanS3 5 (Listed.twoListingPages, []))))
     = ["unsynced_0001.jsonl"; "unsynced_0002.jsonl"].
Proof.
  assert (Hrun : Clean.cleanS3 5 (Listed.twoListingPages, [])
                 = (Ok {| CleanResult.success := true; CleanResult.error := None;
                          CleanResult.totalFiles := Some 3;
                          CleanResult.filesDeleted := Some 2;
                          CleanResult.filesKept := Some 1 |},
                    (fst (snd (Clean.cleanS3 5 (Listed.twoListingPages, []))),
                     snd (snd (Clean.cleanS3 5 (Listed.twoListingPages, []))))))
    by (vm_compute; reflexivity).
  split; [rewrite Hrun; reflexivity|].
  destruct (clean_accounts_for_every_listed_object _ _ _ _ _ Hrun eq_refl)
    as (files & st1 & key & cleanedAt & d & k & Hlist & _ & _ & _ & _ & Hdeleted & _).
  rewrite Hdeleted.
  assert (Hfiles : Sync.listAll 5 None [] None (Listed.twoListingPages, [])
                   = (Ok [Listed.blob1; Listed.blob2; Listed.manifest],
                      snd (Sync.listAll 5 None [] None (Listed.twoListingPages, []))))
    by (vm_compute; reflexivity).
  rewrite Hfiles in Hlist. injection Hlist as <- _. vm_compute. reflexivity.
Defined.


(* ===================================================================== *)
(** ** The artifacts of the pipeline and the janitor                     *)
(* ===================================================================== *)

Lemma occurs_includes (haystack needle : string) (c : ascii) :
  includes haystack needle = true -> occurs c needle = true -> occurs c haystack = true.
Proof.
  intros Hinc Hc. apply includes_spec in Hinc. destruct Hinc as (before & after & ->).
  rewrite !occurs_app, Hc, orb_true_r. reflexivity.
Qed.

Lemma occurs_repeatChar (c pad : ascii) (count : nat) :
  occurs c (repeatChar pad count) = true -> c = pad.
Proof.
  induction count as [|count IH]; cbn [repeatChar occurs]; [discriminate|].
  rewrite orb_true_iff, Ascii.eqb_eq. intros [Heq | Hin]; [exact Heq | exact (IH Hin)].
Qed.

(** A blob name is made of the letters of [unsynced_] and [.jsonl] and
    of digits. *)
Lemma blobName_chars (c : ascii) (fileCount : nat) :
  occurs c (Download.blobName fileCount) = true ->
  occurs c "unsynced_.jsonl-0123456789" = true.
Proof.
  unfold Download.blobName, padStart. rewrite !occurs_app, !orb_true_iff.
  intros [Hin | [[Hin | Hin] | Hin]].
  - cbn [occurs] in *. repeat rewrite orb_true_iff in *. tauto.
  - apply occurs_repeatChar in Hin. subst c. reflexivity.
  - apply numberToString_chars in Hin. cbn [In] in Hin.
    repeat (destruct Hin as [<- | Hin]; [reflexivity|]). destruct Hin.
  - cbn [occurs] in *. repeat rewrite orb_true_iff in *. tauto.
Qed.

(** X21: what the janitor does with the artifacts of the other stages.
    Every blob name that [downloadToS3] produces is in the delete set of
    [cleanS3], and every key under [log/] (the manifests, the checkpoint
    logs, the cleanup logs and the run summaries) is in its keep set. *)
Theorem janitor_discards_blobs_and_keeps_logs
        (fileCount : nat) (rest : string) (t : Z) :
  Clean.discarded {| Key := Download.blobName fileCount; LastModified := t |} = true
  /\ Clean.kept {| Key := Download.blobName fileCount; LastModified := t |} = false
  /\ Clean.kept {| Key := "log/" ++ rest; LastModified := t |} = true
  /\ Clean.discarded {| Key := "log/" ++ rest; LastModified := t |} = false.
Proof.
  assert (Hblob : forall needle c,
             occurs c needle = true ->
             occurs c "unsynced_.jsonl-0123456789" = false ->
             includes (Download.blobName fileCount) needle = false).
  { intros needle c Hc Hnot.
    destruct (includes (Download.blobName fileCount) needle) eqn:Hinc; [|reflexivity].
    pose proof (blobName_chars c fileCount (occurs_includes _ _ c Hinc Hc)). congruence. }
  assert (Hsummary : includes (Download.blobName fileCount) "summary" = false)
    by (apply (Hblob "summary" "m"%char); reflexivity).
  assert (Hlog : includes (Download.blobName fileCount) "log/" = false)
    by (apply (Hblob "log/" "/"%char); reflexivity).
  assert (Hkept : includes ("log/" ++ rest) "log/" = true)
    by (apply includes_spec; exists EmptyString, rest; reflexivity).
  unfold Clean.discarded, Clean.kept. cbn [Key].
  rewrite Hsummary, Hlog, Hkept. cbn [negb]. rewrite orb_true_r, andb_false_r.
  repeat split; reflexivity.
Qed.

(* ===================================================================== *)
(** ** More properties of the orchestrator (06_orchestrate.js)           *)
(* ===================================================================== *)

(** The test recorded along a run says that a stage reported success. *)
Ltac reported :=
  match goal with
  | Hc : negb ?b = false |- ?b = true => apply negb_false_iff; exact Hc
  | Hc : ?b = true |- ?b = true => exact Hc
  end.

(** X22: the orchestrator gates each stage on the one before it.  In
    every run, [syncAll] is called only after [downloadToS3] returned
    success, [markAsSynced] only after the first [syncAll] returned
    success, and [cleanS3] only after [markAsSynced] returned success. *)
Theorem orchestrate_gates_each_stage {W : Type} `{Stages W}
        (w w' : W) (r : outcome Result.t) (events : list stageEvent) :
  Orchestrate.orchestrate (w, []) = (r, (w', events)) ->
  (forall answer,
      In (CalledSync answer) events ->
      exists downloadResult,
        In (CalledDownload (Ok downloadResult)) events
        /\ DownloadResult.success downloadResult = true)
  /\ (forall answer,
         In (CalledMark answer) events ->
         exists syncResult,
           In (CalledSync (Ok syncResult)) events
           /\ SyncResult.success syncResult = true)
  /\ (forall answer,
         In (CalledClean answer) events ->
         exists markResult,
           In (CalledMark (Ok markResult)) events
           /\ MarkResult.success markResult = true).
Proof.
  intros Hrun. split; [|split]; intros answer Hin.
  - all_runs Hrun; in_events Hin; try (not_in_loop Hin);
      eexists; (split; [found | reported]).
  - all_runs Hrun; in_events Hin; try (not_in_loop Hin);
      eexists; (split; [found | reported]).
  - all_runs Hrun; in_events Hin; try (not_in_loop Hin);
      eexists; (split; [found | reported]).
Qed.

Lemma orchestrate_gates_each_stage_witness :
  exists markResult,
    In (CalledMark (Ok markResult))
       (snd (snd (Orchestrate.orchestrate (Staged.allSucceed, []))))
    /\ MarkResult.success markResult = true.
Proof.
  refine (proj2 (proj2 (orchestrate_gates_each_stage
                          Staged.allSucceed
                          (fst (snd (Orchestrate.orchestrate (Staged.allSucceed, []))))
                          (fst (Orchestrate.orchestrate (Staged.allSucceed, [])))
                          (snd (snd (Orchestrate.orchestrate (Staged.allSucceed, []))))
                          _))
                (Ok (Staged.cleaned 2)) _).
  - vm_compute. reflexivity.
  - vm_compute. repeat (first [left; reflexivity | right]).
Defined.

Lemma loopRun_throws retryCount current reassigned post message :
  loopRun retryCount current reassigned post (Throw message) ->
  exists e, In e post /\ threw e message.
Proof.
  intros Hrun. remember (Throw message) as r eqn:Hr.
  induction Hrun; try discriminate.
  - injection Hr as ->. eexists. split; [now left | reflexivity].
  - destruct (IHHrun Hr) as (e & Hin & He). exists e. split; [now right | exact He].
  - injection Hr as ->. eexists. split; [right; now left | reflexivity].
  - destruct (IHHrun Hr) as (e & Hin & He). exists e.
    split; [right; now right | exact He].
Qed.

(** The event of a trace that threw. *)
Ltac culprit events :=
  match events with
  | context [CalledDownload (Throw ?m)] => constr:(CalledDownload (Throw m))
  | context [CalledSync (Throw ?m)] => constr:(CalledSync (Throw m))
  | context [CalledTest (Throw ?m)] => constr:(CalledTest (Throw m))
  | context [CalledMark (Throw ?m)] => constr:(CalledMark (Throw m))
  | context [CalledClean (Throw ?m)] => constr:(CalledClean (Throw m))
  | context [PutLog ?n ?s (Throw ?m)] => constr:(PutLog n s (Throw m))
  end.

Ltac blame :=
  match goal with
  | |- exists e, In e ?events /\ threw e ?message =>
      first
        [ let e := culprit events in exists e; split; [found | reflexivity]
        | match goal with
          | Hloop : loopRun _ _ _ _ (Throw _) |- _ =>
              let e := fresh "e" in
              let Hin := fresh "Hin" in
              let He := fresh "He" in
              destruct (loopRun_throws _ _ _ _ _ Hloop) as (e & Hin & He);
              exists e; split; [found | exact He]
          end ]
  end.

Ltac failing :=
  match goal with
  | Hc : negb ?b = true |- ?b = false => apply negb_true_iff; exact Hc
  | Hc : ?b = false |- ?b = false => exact Hc
  end.

(** X23: [orchestrate] never throws, and every failure it returns is
    attributed.  A failure with step [download], [sync], [mark] or
    [clean] follows a call of that stage (the first [syncAll] for
    [sync]) that returned failure, whose error it carries (for
    [download], the stage threw or returned failure and nothing else was
    called; for [mark], the stage or the write of the no-data summary may
    also have thrown); a failure with step [resync] follows a third
    re-sync that returned failure; a failure with no step carries the
    message of a stage call or summary write that threw, or the type
    error of the final report. *)
Theorem orchestrate_attributes_every_failure {W : Type} `{Stages W}
        (w w' : W) (r : outcome Result.t) (events : list stageEvent) :
  Orchestrate.orchestrate (w, []) = (r, (w', events)) ->
  (forall message, r <> Throw message)
  /\ (forall result,
         r = Ok result -> Result.success result = false ->
         (Result.step result = Some "download"
          /\ exists answer, events = [CalledDownload answer]
                            /\ forall d, answer = Ok d -> DownloadResult.success d = false)
         \/ (Result.step result = Some "sync"
             /\ exists s, In (CalledSync (Ok s)) events
                          /\ SyncResult.success s = false
                          /\ Result.error result = SyncResult.error s)
         \/ (Result.step result = Some "resync"
             /\ exists s, In (CalledResync 3 (Ok s)) events
                          /\ SyncResult.success s = false)
         \/ (Result.step result = Some "mark"
             /\ ((exists m, In (CalledMark (Ok m)) events
                            /\ MarkResult.success m = false
                            /\ Result.error result = MarkResult.error m)
                 \/ exists message e, Result.error result = Some message
                                      /\ In e events /\ threw e message))
         \/ (Result.step result = Some "clean"
             /\ exists c, In (CalledClean (Ok c)) events
                          /\ CleanResult.success c = false
                          /\ Result.error result = CleanResult.error c)
         \/ (Result.step result = None
             /\ exists message,
                  Result.error result = Some message
                  /\ (message = typeErrorMessage
                      \/ exists e, In e events /\ threw e message))).
Proof.
  intros Hrun. split.
  - intros message ->. all_runs Hrun.
  - intros result -> Hfailed. all_runs Hrun; try discriminate Hfailed.
    all: cbn [Result.step Result.error Result.failed].
    all: try (left; split; [reflexivity|]; eexists; split; [reflexivity|];
              intros d Hd; try discriminate Hd; injection Hd as <-;
              apply negb_true_iff; assumption).
    all: try (right; left; split; [reflexivity|]; eexists; split; [found|];
              split; [failing | reflexivity]).
    all: try (match goal with
              | Hloop : loopRun _ _ _ _ (Ok (inl _)) |- _ =>
                  let s := fresh "s" in
                  let Hin := fresh "Hin" in
                  let Hs := fresh "Hs" in
                  destruct (loopRun_fatal _ _ _ _ _ Hloop) as [-> (s & Hin & Hs)];
                  right; right; left; split; [reflexivity|];
                  exists s; split; [found | exact Hs]
              end).
    all: try (do 3 right; left; split; [reflexivity|]; left; eexists; split; [found|];
              split; [failing | reflexivity]).
    all: try (do 3 right; left; split; [reflexivity|]; right; eexists;
              match goal with
              | |- exists e, _ = Some ?m /\ In e ?events /\ threw e _ =>
                  let e := culprit events in
                  exists e; split; [reflexivity | split; [found | reflexivity]]
              end).
    all: try (do 4 right; left; split; [reflexivity|]; eexists; split; [found|];
              split; [failing | reflexivity]).
    all: try (do 5 right; split; [reflexivity|]; eexists; split; [reflexivity|];
              first [left; reflexivity | right; blame]).
Qed.

Lemma orchestrate_attributes_every_failure_witness :
  fst (Orchestrate.orchestrate (Runs.syncRejected, []))
  = Ok (Result.failed (Some "sync") (Some "ExpiredToken"))
  /\ forall message,
       fst (Orchestrate.orchestrate (Runs.syncRejected, [])) <> Throw message.
Proof.
  split; [vm_compute; reflexivity|].
  refine (proj1 (orchestrate_attributes_every_failure
                   Runs.syncRejected
                   (fst (snd (Orchestrate.orchestrate (Runs.syncRejected, []))))
                   (fst (Orchestrate.orchestrate (Runs.syncRejected, [])))
                   (snd (snd (Orchestrate.orchestrate (Runs.syncRejected, []))))
                   _)).
  vm_compute. reflexivity.
Defined.

Lemma loopRun_keeps_reassigned retryCount current reassigned post r :
  loopRun retryCount current reassigned post r ->
  reassigned = true ->
  forall c b, r = Ok (inr (c, b)) -> b = true.
Proof.
  induction 1; intros Hre c b Hr; try discriminate; try (eapply IHloopRun; eauto; fail).
  injection Hr as <- <-. exact Hre.
Qed.

(** A loop that ends without having reassigned [currentTestResult] did
    not run at all: the test had passed. *)
Lemma loopRun_untouched retryCount current reassigned post r :
  loopRun retryCount current reassigned post r ->
  forall c, r = Ok (inr (c, false)) -> retryCount < 3 ->
            c = current /\ TestResult.success current = true.
Proof.
  induction 1; intros c Hr Hlt; try discriminate.
  - injection Hr as <- _. split; [reflexivity|].
    match goal with Hdone : _ \/ _ |- _ => destruct Hdone; [assumption | lia] end.
  - apply IHloopRun; [assumption | lia].
  - match goal with
    | Hrest : loopRun _ _ true _ _ |- _ =>
        pose proof (loopRun_keeps_reassigned _ _ _ _ _ Hrest eq_refl _ _ Hr)
    end.
    discriminate.
Qed.

(** X24: the test result that [orchestrate] writes into a run summary
    is the result of the first [testSync] call, as that call returned
    it: the results of the re-tests and the [criticalMissing] mark that
    the orchestrator sets after the loop never reach a summary. *)
Theorem summary_holds_the_first_test_result {W : Type} `{Stages W}
        (w w' : W) (r : outcome Result.t) (events : list stageEvent) :
  Orchestrate.orchestrate (w, []) = (r, (w', events)) ->
  forall logFilename summary answer,
    In (PutLog logFilename summary answer) events ->
    exists testResult,
      In (CalledTest (Ok testResult)) events
      /\ Summary.test summary = testResult.
Proof.
  intros Hrun logFilename summary answer Hin.
  all_runs Hrun; in_events Hin; try (not_in_loop Hin); injection Hin as <- <- <-;
    eexists; (split; [found|]); cbn [Summary.test].
  all: try reflexivity.
  all: match goal with
       | Hloop : loopRun 0 _ false _ (Ok (inr (_, false))) |- _ =>
           destruct (loopRun_untouched _ _ _ _ _ Hloop _ eq_refl ltac:(lia)) as [-> Hpassed];
           unfold Orchestrate.flagCriticalMissing; rewrite Hpassed; reflexivity
       end.
Qed.

Lemma summary_holds_the_first_test_result_witness :
  exists testResult,
    In (CalledTest (Ok testResult))
       (snd (snd (Orchestrate.orchestrate (Staged.neverPasses, []))))
    /\ Summary.test (Runs.neverPassesSummary) = testResult.
Proof.
  refine (summary_holds_the_first_test_result
            Staged.neverPasses
            (fst (snd (Orchestrate.orchestrate (Staged.neverPasses, []))))
            (fst (Orchestrate.orchestrate (Staged.neverPasses, [])))
            (snd (snd (Orchestrate.orchestrate (Staged.neverPasses, []))))
            _ "log/sync_log_2024-01-01T00-00-00-000Z.json" Runs.neverPassesSummary (Ok tt) _).
  - vm_compute. reflexivity.
  - vm_compute. repeat (first [left; reflexivity | right]).
Defined.

(** X25: with [downloadToS3] as its download stage, the orchestrator
    never takes the branch that answers "Download failed" to a result
    reporting failure: a run that ends with step [download] ends there
    because the download threw, with the error it threw, and nothing
    else was called. *)
Theorem download_failure_reaches_orchestrator_as_throw
        {W : Type} `{Stages W} `{Staging W}
        (fuel : nat) (w w' : W) (r : outcome Result.t) (events : list stageEvent) :
  (forall w0, downloadToS3 w0 = detach (Download.downloadToS3 fuel) w0) ->
  Orchestrate.orchestrate (w, []) = (r, (w', events)) ->
  forall result,
    r = Ok result -> Result.step result = Some "download" ->
    exists message,
      events = [CalledDownload (Throw message)]
      /\ result = Result.failed (Some "download") (Some message).
Proof.
  intros Hstage Hrun result -> Hstep.
  all_runs Hrun; try discriminate Hstep.
  all: try match goal with
           | Hloop : loopRun _ _ _ _ (Ok (inl _)) |- _ =>
               destruct (loopRun_fatal _ _ _ _ _ Hloop) as [-> _]; discriminate Hstep
           end.
  all: try (eexists; split; reflexivity).
  all: exfalso;
    match goal with
    | Hd : downloadToS3 ?w1 = (Ok ?d, _), Hc : negb (DownloadResult.success ?d) = true |- _ =>
        rewrite Hstage in Hd; unfold detach in Hd;
        pose proof (downloadToS3_returns_success fuel (w1, []) d) as Hok;
        destruct (Download.downloadToS3 fuel (w1, [])) as [r1 st1];
        injection Hd as -> _; rewrite (Hok eq_refl) in Hc; discriminate Hc
    end.
Qed.

Lemma download_failure_reaches_orchestrator_as_throw_witness :
  exists message,
    snd (snd (Orchestrate.orchestrate (Warehouse.secondSelectRefused, [])))
    = [CalledDownload (Throw message)]
    /\ Result.failed (Some "download")
                     (Some "canceling statement due to statement timeout")
       = Result.failed (Some "download") (Some message).
Proof.
  refine (download_failure_reaches_orchestrator_as_throw
            (W := Warehouse.world) 5 Warehouse.secondSelectRefused
            (fst (snd (Orchestrate.orchestrate (Warehouse.secondSelectRefused, []))))
            (fst (Orchestrate.orchestrate (Warehouse.secondSelectRefused, [])))
            (snd (snd (Orchestrate.orchestrate (Warehouse.secondSelectRefused, []))))
            _ _
            (Result.failed (Some "download")
                           (Some "canceling statement due to statement timeout"))
            _ eq_refl).
  - intros w0. reflexivity.
  - vm_compute. reflexivity.
  - vm_compute. reflexivity.
Defined.

(* ===================================================================== *)
(** ** Properties of the older orchestrator (the unnamed source file)    *)
(* ===================================================================== *)

(** X26: the older variant of [orchestrate] never throws; its loop
    makes at most three re-sync attempts, each followed by at most one
    re-test; [cleanS3] is called only after [markAsSynced] returned
    success; a mark result that reports failure always ends the run
    with step [mark] (there is no no-data case); and when the run
    returns success, it has written one summary, which holds the mark
    result, and returns it with the key it was written under. *)
Theorem old_orchestrate_gates_and_bounds {W : Type} `{Stages W}
        (w w' : W) (r : outcome Result.t) (events : list stageEvent) :
  OrchestrateOld.orchestrate (w, []) = (r, (w', events)) ->
  (forall message, r <> Throw message)
  /\ (resyncs events <= 3 /\ retests events <= resyncs events)
  /\ (forall answer,
         In (CalledClean answer) events ->
         exists markResult,
           In (CalledMark (Ok markResult)) events
           /\ MarkResult.success markResult = true)
  /\ (forall markResult,
         In (CalledMark (Ok markResult)) events ->
         MarkResult.success markResult = false ->
         r = Ok (Result.failed (Some "mark") (MarkResult.error markResult)))
  /\ (forall result,
         r = Ok result -> Result.success result = true ->
         exists logFilename summary markResult,
           result = Result.done summary logFilename
           /\ In (PutLog logFilename summary (Ok tt)) events
           /\ In (CalledMark (Ok markResult)) events
           /\ Summary.mark summary = Some markResult).
Proof.
  intros Hrun. split; [|split; [|split; [|split]]].
  - intros message ->. all_runs Hrun.
  - all_runs Hrun;
      rewrite ?resyncs_app, ?retests_app; cbn [resyncs retests filter List.length Nat.add];
      try (pose proof (loopRun_counts _ _ _ _ _ Hloop)); lia.
  - intros answer Hin. all_runs Hrun; in_events Hin; try (not_in_loop Hin);
      eexists; (split; [found | reported]).
  - intros markResult Hin Hfailed.
    all_runs Hrun; in_events Hin; try (not_in_loop Hin); injection Hin as <-;
      settle Hfailed; try contradictory; reflexivity.
  - intros result -> Hsuccess. all_runs Hrun; try discriminate Hsuccess.
    all: try match goal with
             | Hloop : loopRun _ _ _ _ (Ok (inl _)) |- _ =>
                 destruct (loopRun_fatal _ _ _ _ _ Hloop) as [-> _]; discriminate Hsuccess
             end.
    all: eexists _, _, _; split; [reflexivity|]; split; [|split; [found | reflexivity]].
    all: match goal with
         | Hput : putLog _ _ _ = (Ok ?u, _) |- _ => destruct u
         end; found.
Qed.

Lemma old_orchestrate_gates_and_bounds_witness :
  fst (OrchestrateOld.orchestrate (Staged.noNewData, []))
  = Ok (Result.failed (Some "mark") (Some "No sync log files found")).
Proof.
  refine (proj1 (proj2 (proj2 (proj2 (old_orchestrate_gates_and_bounds
                   Staged.noNewData
                   (fst (snd (OrchestrateOld.orchestrate (Staged.noNewData, []))))
                   (fst (OrchestrateOld.orchestrate (Staged.noNewData, [])))
                   (snd (snd (OrchestrateOld.orchestrate (Staged.noNewData, []))))
                   _)))) Staged.noLogs _ eq_refl).
  - vm_compute. reflexivity.
  - vm_compute. repeat (first [left; reflexivity | right]).
Defined.

